(** * Aegis cloud security monitor: rule engine and response policy

    A shallow embedding of [security_monitor.py] (class [SecurityMonitor])
    and [response_handler.py] (class [ResponseHandler]), with the loop body
    of [main.py] that connects them, and the properties of the analysis and
    response pipeline proved about that embedding.

    Conventions of the embedding.
    - A Python dict with a fixed set of string keys is a record of [option]
      fields: [None] is "key absent", [Some v] is "key present with value
      [v]".  Values have the type the event generator gives them (strings,
      a list of strings for [threat_indicators], a nested dict for
      [metadata]).
    - [d.get(k)] reads the option; [d.get(k, dflt)] is [default dflt];
      the subscript [d[k]] raises [KeyError k] on an absent key.
    - Python [int] is [Z].
    - Strings are [string]; [str.lower] is modelled on ASCII letters.
    - An object's attributes that are assigned once in [__init__] and never
      again ([security_rules], [severity_levels], [max_failed_attempts],
      [response_actions]) are constants; the attributes that change are the
      fields of the state record that every method threads.
    - What is printed or handed to the [logging] module is not part of any
      state; the response handler's narration is kept as a trace because
      the executed actions exist only there. *)

From Stdlib Require Import ZArith String Ascii List Lia.
From stdpp Require Import base option list gmap strings pretty.

Local Open Scope string_scope.
Local Open Scope Z_scope.

(** ** Exceptions and results *)

Inductive exn : Type :=
| KeyError (key : string)       (* a subscript on an absent dict key *)
| Exception (msg : string).     (* any other [Exception] instance *)

Inductive result (A : Type) : Type :=
| Ok (a : A)
| Raise (e : exn).
Arguments Ok {A} a.
Arguments Raise {A} e.

(** A computation over a mutable state [S] that may raise; the state
    reached so far survives the exception, as attribute updates do. *)
Definition M (S A : Type) : Type := S -> S * result A.

Definition ret {S A} (a : A) : M S A := fun s => (s, Ok a).

Definition raise {S A} (e : exn) : M S A := fun s => (s, Raise e).

Definition bind {S A B} (m : M S A) (k : A -> M S B) : M S B :=
  fun s => match m s with
           | (s', Ok a) => k a s'
           | (s', Raise e) => (s', Raise e)
           end.

Definition try_except {S A} (body : M S A) (handler : exn -> M S A) : M S A :=
  fun s => match body s with
           | (s', Ok a) => (s', Ok a)
           | (s', Raise e) => handler e s'
           end.

Definition modify {S} (f : S -> S) : M S unit := fun s => (f s, Ok tt).

Declare Scope py_scope.
Delimit Scope py_scope with py.
Notation "'do' x <- m ; k" := (bind m (fun x => k))
  (at level 10, x name, m at level 100, k at level 200) : py_scope.
Notation "m ;; k" := (bind m (fun _ => k))
  (at level 100, k at level 200, right associativity) : py_scope.

(** [d[key]] *)
Definition getitem {S A} (key : string) (field : option A) : M S A :=
  match field with
  | Some v => ret v
  | None => raise (KeyError key)
  end.

(** ** Strings *)

(** [str.lower] on the ASCII range; descriptions are taken to be ASCII
    text, as all the keywords are. *)
Definition lower_ascii (c : ascii) : ascii :=
  let n := nat_of_ascii c in
  if (Nat.leb 65 n && Nat.leb n 90)%bool then ascii_of_nat (n + 32) else c.

Fixpoint lower (s : string) : string :=
  match s with
  | EmptyString => EmptyString
  | String c s' => String (lower_ascii c) (lower s')
  end.

(** [needle in haystack] for two strings. *)
Fixpoint contains (needle haystack : string) : bool :=
  if String.prefix needle haystack then true
  else match haystack with
       | EmptyString => false
       | String _ rest => contains needle rest
       end.

(** [x in l] for a value that may be [None] and a list of strings. *)
Definition py_in (x : option string) (l : list string) : bool :=
  match x with
  | Some s => bool_decide (s ∈ l)
  | None => false
  end.

(** The text an f-string puts for [{x}]. *)
Definition fmt (x : option string) : string := default "None" x.

(** [sep.join(l)] *)
Fixpoint join (sep : string) (l : list string) : string :=
  match l with
  | [] => ""
  | [x] => x
  | x :: rest => x ++ sep ++ join sep rest
  end.

(** ** Events and threat candidates *)

Record Metadata : Type := {
  region : option string;
  service_version : option string;
  session_id : option string
}.

(** The event dict built by [CloudEventGenerator.generate_event]. *)
Record Event : Type := {
  timestamp : option string;
  event_id : option string;
  event_type : option string;
  severity : option string;
  description : option string;
  source_ip : option string;
  user_id : option string;
  resource : option string;
  metadata : option Metadata;
  threat_indicators : option (list string)
}.

(** [not event] for a dict: no key at all. *)
Definition dict_is_empty (event : Event) : bool :=
  match timestamp event, event_id event, event_type event, severity event,
        description event, source_ip event, user_id event, resource event,
        metadata event, threat_indicators event with
  | None, None, None, None, None, None, None, None, None, None => true
  | _, _, _, _, _, _, _, _, _, _ => false
  end.

(** The dict a detection rule returns; its four keys are always set, and
    its [description] key is the field [threat_description] here. *)
Record Threat : Type := {
  threat_type : string;
  threat_description : string;
  risk_score : Z;
  detection_method : string
}.

(** ** The security monitor ([security_monitor.py]) *)

Module SecurityMonitor.

(** [self.security_rules] *)
Definition critical_keywords : list string :=
  ["unauthorized access"; "privilege escalation"; "data exfiltration";
   "malware"; "code injection"; "backdoor"; "rootkit"].

Definition suspicious_keywords : list string :=
  ["brute_force"; "suspicious"; "anomalous"; "unrecognized";
   "multiple failed"; "unusual activity"].

Definition blocked_ips : list string :=
  ["203.0.113.45"; "185.220.101.182"; "94.142.241.111"].

Definition restricted_resources : list string :=
  ["admin_panel"; "database_service"; "security_config"; "backup_service"].

Definition high_risk_users : list string :=
  ["temp_user"; "guest_user"; "unknown_user"; "backdoor_user"].

(** [self.severity_levels] *)
Definition severity_levels : gmap string Z :=
  <["info" := 1]> (<["warning" := 2]> (<["high" := 3]> (<["critical" := 4]> ∅))).

(** [self.max_failed_attempts] *)
Definition max_failed_attempts : Z := 3.

(** *** The telemetry collaborator

    [threat_data] and [event_data], the dicts handed to the collaborator.
    A key the monitor does not set is [None]. *)
Record Payload : Type := {
  p_event_id : option string;
  p_threat_type : option string;
  p_risk_score : option Z;
  p_source_ip : option string;
  p_user_id : option string;
  p_resource : option string;
  p_description : option string;
  p_event_type : option string;
  p_severity : option string
}.

(** [log_data] *)
Record LogData : Type := {
  log_timestamp : string;
  log_event : Event;
  log_threat_info : Threat;
  log_aws_integration : bool
}.

(** The interface of [AWSIntegration] that the monitor calls, over a
    collaborator state [W] of any kind (clients, network, clock).  Every
    method may return a flag or raise. *)
Record AWSIntegration (W : Type) : Type := {
  send_threat_alert : Payload -> M W bool;
  send_security_metric : Payload -> M W bool;
  trigger_lambda_response : Payload -> M W bool;
  create_log_stream : string -> string -> M W bool;
  send_security_log : string -> string -> LogData -> M W bool;
  (* datetime.now().strftime('%Y-%m-%d') and datetime.utcnow().isoformat() *)
  now_strftime : M W string;
  utcnow_isoformat : M W string
}.
Arguments send_threat_alert {W}.
Arguments send_security_metric {W}.
Arguments trigger_lambda_response {W}.
Arguments create_log_stream {W}.
Arguments send_security_log {W}.
Arguments now_strftime {W}.
Arguments utcnow_isoformat {W}.

(** The monitor object: the counter dict and the collaborator it owns. *)
Record SecurityMonitor (W : Type) : Type := {
  failed_login_attempts : gmap string Z;
  aws_integration : W
}.
Arguments failed_login_attempts {W}.
Arguments aws_integration {W}.

(** [SecurityMonitor.__init__], given the collaborator just built. *)
Definition init {W} (w : W) : SecurityMonitor W :=
  {| failed_login_attempts := ∅; aws_integration := w |}.

(** *** Narration *)

(** [_log_event_analysis]: one [print] of an f-string with three
    subscripts, evaluated left to right. *)
Definition _log_event_analysis {S} (event : Event) : M S unit :=
  (do _ <- getitem "event_type" (event_type event);
   do _ <- getitem "user_id" (user_id event);
   do _ <- getitem "source_ip" (source_ip event);
   ret tt)%py.

(** [_log_threat_detection]: six [print]s; the subscripts on [threat_info]
    cannot fail, those on [event] are the fourth to sixth lines. *)
Definition _log_threat_detection {S} (threat_info : Threat) (event : Event)
  : M S unit :=
  (do _ <- getitem "event_id" (event_id event);
   do _ <- getitem "user_id" (user_id event);
   do _ <- getitem "source_ip" (source_ip event);
   do _ <- getitem "resource" (resource event);
   ret tt)%py.

(** *** Detection rules *)

Definition _check_threat_keywords (event : Event) : option Threat :=
  let description := lower (default "" (description event)) in
  match find (fun keyword => contains keyword description) critical_keywords with
  | Some keyword =>
      Some {| threat_type := "KEYWORD_THREAT";
              threat_description :=
                "Critical security keyword detected: '" ++ keyword ++ "'";
              risk_score := 9;
              detection_method := "keyword_analysis" |}
  | None =>
      match find (fun keyword => contains keyword description)
                 suspicious_keywords with
      | Some keyword =>
          Some {| threat_type := "SUSPICIOUS_ACTIVITY";
                  threat_description :=
                    "Suspicious activity keyword detected: '" ++ keyword ++ "'";
                  risk_score := 6;
                  detection_method := "keyword_analysis" |}
      | None => None
      end
  end.

Definition _check_suspicious_ip (event : Event) : option Threat :=
  let source_ip := source_ip event in
  if py_in source_ip blocked_ips then
    Some {| threat_type := "MALICIOUS_IP";
            threat_description :=
              "Request from known malicious IP: " ++ fmt source_ip;
            risk_score := 8;
            detection_method := "ip_reputation" |}
  else None.

Definition _check_suspicious_user (event : Event) : option Threat :=
  let user_id := user_id event in
  if py_in user_id high_risk_users then
    Some {| threat_type := "HIGH_RISK_USER";
            threat_description :=
              "Activity from high-risk user account: " ++ fmt user_id;
            risk_score := 7;
            detection_method := "user_profile_analysis" |}
  else None.

Definition _check_restricted_resource (event : Event) : option Threat :=
  let resource := resource event in
  if py_in resource restricted_resources then
    Some {| threat_type := "RESTRICTED_RESOURCE_ACCESS";
            threat_description :=
              "Access attempt to restricted resource: " ++ fmt resource;
            risk_score := 7;
            detection_method := "resource_access_control" |}
  else None.

(** The key of the counter dict: [f"{user_id}@{source_ip}"]. *)
Definition login_key (event : Event) : string :=
  fmt (user_id event) ++ "@" ++ fmt (source_ip event).

(** The only rule that writes: it returns the new counter dict too. *)
Definition _check_failed_login_pattern
    (attempts : gmap string Z) (event : Event) : gmap string Z * option Threat :=
  if bool_decide (event_type event ≠ Some "failed_login") then (attempts, None)
  else
    let key := login_key event in
    (* if key not in self.failed_login_attempts: ...[key] = 0 *)
    let attempts :=
      match attempts !! key with
      | None => <[key := 0]> attempts
      | Some _ => attempts
      end in
    (* self.failed_login_attempts[key] += 1 *)
    let attempts := <[key := default 0 (attempts !! key) + 1]> attempts in
    let count := default 0 (attempts !! key) in
    if bool_decide (count >= max_failed_attempts) then
      (attempts,
       Some {| threat_type := "BRUTE_FORCE_ATTACK";
               threat_description :=
                 "Multiple failed login attempts detected (" ++ pretty count
                 ++ " attempts)";
               risk_score := 8;
               detection_method := "behavioral_analysis" |})
    else (attempts, None).

Definition _check_event_severity (event : Event) : option Threat :=
  let severity := default "info" (severity event) in
  let severity_score := default 1 (severity_levels !! severity) in
  if bool_decide (severity_score >= 4) then
    Some {| threat_type := "CRITICAL_SECURITY_EVENT";
            threat_description :=
              "Critical severity event detected: " ++ fmt (description event);
            risk_score := 9;
            detection_method := "severity_analysis" |}
  else if bool_decide (severity_score >= 3) then
    Some {| threat_type := "HIGH_RISK_EVENT";
            threat_description :=
              "High severity event detected: " ++ fmt (description event);
            risk_score := 7;
            detection_method := "severity_analysis" |}
  else None.

Definition _check_threat_indicators (event : Event) : option Threat :=
  let threat_indicators := default [] (threat_indicators event) in
  match threat_indicators with
  | [] => None
  | _ =>
      let risk_score := Z.min 10 (5 + Z.of_nat (length threat_indicators) * 2) in
      Some {| threat_type := "THREAT_INDICATORS_DETECTED";
              threat_description :=
                "Multiple threat indicators present: "
                ++ join ", " threat_indicators;
              risk_score := risk_score;
              detection_method := "threat_intelligence" |}
  end.

(** *** Analysis *)

Section Analysis.
Context {W : Type} (aws : AWSIntegration W).

(** A call on [self.aws_integration]. *)
Definition on_aws {A} (call : M W A) : M (SecurityMonitor W) A :=
  fun self =>
    let (w, r) := call (aws_integration self) in
    ({| failed_login_attempts := failed_login_attempts self;
        aws_integration := w |}, r).

(** Rule 5 as a method: it replaces [self.failed_login_attempts]. *)
Definition check_failed_login (event : Event)
  : M (SecurityMonitor W) (option Threat) :=
  fun self =>
    let (attempts, login_threat) :=
      _check_failed_login_pattern (failed_login_attempts self) event in
    ({| failed_login_attempts := attempts;
        aws_integration := aws_integration self |}, Ok login_threat).

Definition reset_monitoring_state : M (SecurityMonitor W) unit :=
  modify (fun self => {| failed_login_attempts := ∅;
                         aws_integration := aws_integration self |}).

(** [if cand and (not threat_info or
        cand["risk_score"] > threat_info["risk_score"]): threat_info = cand] *)
Definition select (cand threat_info : option Threat) : option Threat :=
  match cand with
  | None => threat_info
  | Some c =>
      match threat_info with
      | None => Some c
      | Some t =>
          if bool_decide (risk_score c > risk_score t) then Some c else Some t
      end
  end.

Definition _send_to_aws (event : Event) (threat_info : Threat)
  : M (SecurityMonitor W) unit :=
  try_except
    (let threat_data :=
       {| p_event_id := event_id event;
          p_threat_type := Some (threat_type threat_info);
          p_risk_score := Some (risk_score threat_info);
          p_source_ip := source_ip event;
          p_user_id := user_id event;
          p_resource := resource event;
          p_description := Some (threat_description threat_info);
          p_event_type := event_type event;
          p_severity :=
            Some (if bool_decide (risk_score threat_info >= 8)
                  then "critical" else "high") |} in
     do _ <- on_aws (send_threat_alert aws threat_data);
     do _ <- on_aws (send_security_metric aws threat_data);
     do _ <- (if bool_decide (risk_score threat_info >= 8)
              then on_aws (trigger_lambda_response aws threat_data)
              else ret false);
     let log_group := "/aegis/security-events" in
     do today <- on_aws (now_strftime aws);
     let stream_name := "threats-" ++ today in
     do _ <- on_aws (create_log_stream aws log_group stream_name);
     do now <- on_aws (utcnow_isoformat aws);
     let log_data :=
       {| log_timestamp := now;
          log_event := event;
          log_threat_info := threat_info;
          log_aws_integration := true |} in
     do _ <- on_aws (send_security_log aws log_group stream_name log_data);
     ret tt)%py
    (fun e => ret tt)  (* except Exception as e: self.logger.error(...) *).

Definition _send_event_metrics (event : Event) : M (SecurityMonitor W) unit :=
  try_except
    (let event_data :=
       {| p_event_id := None;
          p_threat_type := None;
          p_risk_score := Some 1;
          p_source_ip := source_ip event;
          p_user_id := None;
          p_resource := None;
          p_description := None;
          p_event_type := event_type event;
          p_severity := Some (default "info" (severity event)) |} in
     do _ <- on_aws (send_security_metric aws event_data);
     ret tt)%py
    (fun e => ret tt)  (* except Exception as e: self.logger.error(...) *).

(** [analyze_event]; the argument is [None] for Python's [None]. *)
Definition analyze_event (event : option Event)
  : M (SecurityMonitor W) (option Threat) :=
  match event with
  | None => ret None
  | Some event =>
      if dict_is_empty event then ret None
      else
        (do _ <- _log_event_analysis event;
         let threat_info : option Threat := None in
         (* Check 1: keywords *)
         let keyword_threat := _check_threat_keywords event in
         let threat_info :=
           match keyword_threat with
           | Some k => Some k
           | None => threat_info
           end in
         (* Check 2: IP *)
         let threat_info := select (_check_suspicious_ip event) threat_info in
         (* Check 3: user *)
         let threat_info := select (_check_suspicious_user event) threat_info in
         (* Check 4: resource *)
         let threat_info :=
           select (_check_restricted_resource event) threat_info in
         (* Check 5: failed login pattern *)
         do login_threat <- check_failed_login event;
         let threat_info := select login_threat threat_info in
         (* Check 6: severity *)
         let threat_info := select (_check_event_severity event) threat_info in
         (* Check 7: threat indicators *)
         let threat_info :=
           select (_check_threat_indicators event) threat_info in
         match threat_info with
         | Some t =>
             do _ <- _log_threat_detection t event;
             do _ <- _send_to_aws event t;
             ret (Some t)
         | None =>
             do _ <- _send_event_metrics event;
             ret None
         end)%py
  end.

End Analysis.

(** Three collaborators to run the monitor with: one whose calls all
    succeed, one whose calls all raise, and one that records the calls
    it receives. *)
Definition aws_up : AWSIntegration unit :=
  {| send_threat_alert := fun _ => ret true;
     send_security_metric := fun _ => ret true;
     trigger_lambda_response := fun _ => ret true;
     create_log_stream := fun _ _ => ret true;
     send_security_log := fun _ _ _ => ret true;
     now_strftime := ret "2024-01-01";
     utcnow_isoformat := ret "2024-01-01T00:00:00" |}.

Definition aws_down : AWSIntegration unit :=
  {| send_threat_alert := fun _ => raise (Exception "EndpointConnectionError");
     send_security_metric := fun _ => raise (Exception "EndpointConnectionError");
     trigger_lambda_response := fun _ => raise (Exception "EndpointConnectionError");
     create_log_stream := fun _ _ => raise (Exception "EndpointConnectionError");
     send_security_log := fun _ _ _ => raise (Exception "EndpointConnectionError");
     now_strftime := ret "2024-01-01";
     utcnow_isoformat := ret "2024-01-01T00:00:00" |}.

Definition aws_recording : AWSIntegration (list string) :=
  let record (name : string) : M (list string) bool :=
    fun calls => ((calls ++ [name])%list, Ok true) in
  {| send_threat_alert := fun _ => record "send_threat_alert";
     send_security_metric := fun _ => record "send_security_metric";
     trigger_lambda_response := fun _ => record "trigger_lambda_response";
     create_log_stream := fun _ _ => record "create_log_stream";
     send_security_log := fun _ _ _ => record "send_security_log";
     now_strftime := ret "2024-01-01";
     utcnow_isoformat := ret "2024-01-01T00:00:00" |}.

End SecurityMonitor.

(** ** The response handler ([response_handler.py]) *)

Module ResponseHandler.

(** An entry of [self.response_actions]. *)
Record ResponseConfig : Type := {
  actions : list string;
  priority : string;
  escalation_required : bool
}.

Definition response_actions : gmap string ResponseConfig :=
  <["KEYWORD_THREAT" :=
      {| actions := ["quarantine_session"; "alert_security_team"; "log_incident"];
         priority := "high"; escalation_required := true |}]> (
  <["MALICIOUS_IP" :=
      {| actions := ["block_ip"; "terminate_connections"; "alert_security_team"];
         priority := "high"; escalation_required := true |}]> (
  <["HIGH_RISK_USER" :=
      {| actions := ["suspend_user"; "audit_user_activity"; "notify_admin"];
         priority := "medium"; escalation_required := true |}]> (
  <["RESTRICTED_RESOURCE_ACCESS" :=
      {| actions := ["block_access"; "isolate_resource"; "alert_security_team"];
         priority := "high"; escalation_required := true |}]> (
  <["BRUTE_FORCE_ATTACK" :=
      {| actions := ["block_ip"; "lockout_account"; "increase_monitoring"];
         priority := "high"; escalation_required := true |}]> (
  <["CRITICAL_SECURITY_EVENT" :=
      {| actions := ["emergency_isolation"; "executive_notification";
                     "forensic_imaging"];
         priority := "critical"; escalation_required := true |}]> (
  <["HIGH_RISK_EVENT" :=
      {| actions := ["increase_monitoring"; "isolate_affected_systems";
                     "alert_security_team"];
         priority := "high"; escalation_required := true |}]> (
  <["SUSPICIOUS_ACTIVITY" :=
      {| actions := ["increase_monitoring"; "log_for_analysis"; "notify_admin"];
         priority := "medium"; escalation_required := false |}]> (
  <["THREAT_INDICATORS_DETECTED" :=
      {| actions := ["quarantine_system"; "deep_scan"; "alert_security_team"];
         priority := "high"; escalation_required := true |}]> ∅)))))))).

Definition _get_default_response : ResponseConfig :=
  {| actions := ["log_incident"; "alert_security_team"; "increase_monitoring"];
     priority := "medium";
     escalation_required := true |}.

(** The dict appended to [self.response_history]. *)
Record ResponseRecord : Type := {
  r_timestamp : string;
  r_threat_type : string;
  r_event_id : option string;
  r_risk_score : Z;
  r_actions_executed : list string;
  r_priority : string;
  r_escalation_required : bool
}.

(** The handler object. *)
Record ResponseHandler : Type := {
  response_history : list ResponseRecord;
  active_responses : gmap string string
}.

(** [ResponseHandler.__init__] *)
Definition init : ResponseHandler :=
  {| response_history := []; active_responses := ∅ |}.

(** The simulation routine that ran, with the argument it was given.  A
    routine only prints; the ticket numbers and durations it draws from
    [random] appear in that text and nowhere else. *)
Inductive Simulation : Type :=
| ip_block (ip_address : option string)
| user_suspension (user_id : option string)
| session_quarantine (session_id : option string)
| security_alert (threat_info : Threat)
| connection_termination (ip_address : option string)
| resource_isolation (resource : option string)
| account_lockout (user_id : option string)
| monitoring_increase (target : option string)
| emergency_isolation (event : Event)
| forensic_imaging (resource : option string)
| deep_scan (target : option string)
| user_audit (user_id : option string)
| incident_logging (threat_info : Threat) (event : Event)
| admin_notification (threat_info : Threat)
| executive_notification (threat_info : Threat)
| generic_executed (action : string).
    (* print(f"     Action '{action}' executed successfully") *)

(** What a call of the handler does besides updating the history, in
    order: a constructor per block of [print]s, [time.sleep] and logger
    call. *)
Inductive Output : Type :=
| LoggerError (msg : string)
| LoggerInfo (msg : string)
| Initiating (threat_type : string) (risk_score : Z) (event_id : option string)
| Executing (action : string)
| Simulated (routine : Simulation)
| Sleep (milliseconds : Z)
| Escalating
| Escalated
| Completed (actions_executed : nat).

(** The handler together with the console it writes to. *)
Record Process : Type := {
  handler : ResponseHandler;
  console : list Output
}.

Definition emit (o : Output) : M Process unit :=
  modify (fun p => {| handler := handler p; console := (console p ++ [o])%list |}).

(** The [action_simulations] dict of [_simulate_action_execution]. *)
Definition action_simulations (threat_info : Threat) (event : Event)
  : gmap string Simulation :=
  <["block_ip" := ip_block (source_ip event)]> (
  <["suspend_user" := user_suspension (user_id event)]> (
  <["quarantine_session" :=
      session_quarantine
        (match metadata event with
         | Some m => session_id m
         | None => None   (* {}.get("session_id") *)
         end)]> (
  <["alert_security_team" := security_alert threat_info]> (
  <["terminate_connections" := connection_termination (source_ip event)]> (
  <["isolate_resource" := resource_isolation (resource event)]> (
  <["lockout_account" := account_lockout (user_id event)]> (
  <["increase_monitoring" := monitoring_increase (user_id event)]> (
  <["emergency_isolation" := emergency_isolation event]> (
  <["forensic_imaging" := forensic_imaging (resource event)]> (
  <["deep_scan" := deep_scan (source_ip event)]> (
  <["audit_user_activity" := user_audit (user_id event)]> (
  <["log_incident" := incident_logging threat_info event]> (
  <["notify_admin" := admin_notification threat_info]> (
  <["executive_notification" := executive_notification threat_info]>
   ∅)))))))))))))).

Definition _simulate_action_execution
    (action : string) (threat_info : Threat) (event : Event) : M Process unit :=
  let simulation_func :=
    default (generic_executed action)
            (action_simulations threat_info event !! action) in
  emit (Simulated simulation_func).

Fixpoint for_each {A} (l : list A) (body : A -> M Process unit) : M Process unit :=
  match l with
  | [] => ret tt
  | x :: rest => (do _ <- body x; for_each rest body)%py
  end.

Definition _execute_response_actions
    (response_config : ResponseConfig) (threat_info : Threat) (event : Event)
  : M Process unit :=
  for_each (actions response_config) (fun action =>
    (do _ <- emit (Executing action);
     do _ <- _simulate_action_execution action threat_info event;
     emit (Sleep 500))%py).

(** [now] is what [datetime.now().isoformat()] returns during the call. *)
Definition _log_response (now : string)
    (threat_info : Threat) (event : Event) (response_config : ResponseConfig)
  : M Process unit :=
  let response_record :=
    {| r_timestamp := now;
       r_threat_type := threat_type threat_info;
       r_event_id := event_id event;
       r_risk_score := risk_score threat_info;
       r_actions_executed := actions response_config;
       r_priority := priority response_config;
       r_escalation_required := escalation_required response_config |} in
  (do _ <- modify (fun p =>
       {| handler :=
            {| response_history :=
                 (response_history (handler p) ++ [response_record])%list;
               active_responses := active_responses (handler p) |};
          console := console p |});
   emit (LoggerInfo ("Response executed for " ++ threat_type threat_info)))%py.

Definition _escalate_incident (threat_info : Threat) (event : Event)
  : M Process unit :=
  (do _ <- emit Escalating;
   do _ <- emit (Sleep 1000);
   emit Escalated)%py.

(** [handle_threat]; an argument is [None] for Python's [None].  No
    [return] of the function carries a value, so what the caller gets is
    Python's [None] on every path: the result type names the record the
    caller could have received. *)
Definition handle_threat (now : string)
    (threat_info : option Threat) (original_event : option Event)
  : M Process (option ResponseRecord) :=
  match threat_info, original_event with
  | Some threat_info, Some original_event =>
      if dict_is_empty original_event then
        (do _ <- emit (LoggerError "Invalid threat information or event data");
         ret None)%py
      else
        (let threat_type := threat_type threat_info in
         let risk_score := risk_score threat_info in
         do _ <- emit (Initiating threat_type risk_score
                                  (event_id original_event));
         let response_config :=
           default _get_default_response (response_actions !! threat_type) in
         do _ <- _execute_response_actions response_config threat_info
                                           original_event;
         do _ <- _log_response now threat_info original_event response_config;
         do _ <- (if escalation_required response_config
                  then _escalate_incident threat_info original_event
                  else ret tt);
         do _ <- emit (Completed (length (actions response_config)));
         ret None)%py
  | _, _ =>
      (do _ <- emit (LoggerError "Invalid threat information or event data");
       ret None)%py
  end.

Definition clear_response_history : M Process unit :=
  modify (fun p => {| handler := init; console := console p |}).

(** The actions a stretch of console output shows as executed. *)
Definition executed_actions (out : list Output) : list string :=
  omap (fun o => match o with Executing a => Some a | _ => None end) out.

Definition simulations_run (out : list Output) : list Simulation :=
  omap (fun o => match o with Simulated s => Some s | _ => None end) out.

Definition escalations (out : list Output) : nat :=
  length (omap (fun o => match o with Escalating => Some tt | _ => None end) out).

End ResponseHandler.

(** ** The monitoring loop ([main.py]) *)

Module Main.
Import SecurityMonitor ResponseHandler.

(** The objects and counters that [main] creates. *)
Record System (W : Type) : Type := {
  security_monitor : SecurityMonitor W;
  response_handler : Process;
  event_count : Z;
  threat_count : Z
}.
Arguments security_monitor {W}.
Arguments response_handler {W}.
Arguments event_count {W}.
Arguments threat_count {W}.

Definition start {W} (w : W) : System W :=
  {| security_monitor := SecurityMonitor.init w;
     response_handler := {| handler := ResponseHandler.init; console := [] |};
     event_count := 0;
     threat_count := 0 |}.

Section Loop.
Context {W : Type} (aws : AWSIntegration W).

Definition on_monitor {A} (call : M (SecurityMonitor W) A) : M (System W) A :=
  fun sys =>
    let (monitor, r) := call (security_monitor sys) in
    ({| security_monitor := monitor;
        response_handler := response_handler sys;
        event_count := event_count sys;
        threat_count := threat_count sys |}, r).

Definition on_handler {A} (call : M Process A) : M (System W) A :=
  fun sys =>
    let (process, r) := call (response_handler sys) in
    ({| security_monitor := security_monitor sys;
        response_handler := process;
        event_count := event_count sys;
        threat_count := threat_count sys |}, r).

(** One turn of the [while True] loop of [main], on the event that
    [generate_event] returned and the clock reading [now] of this turn.
    The status line and the pauses of the loop are left out. *)
Definition cycle (now : string) (event : Event) : M (System W) unit :=
  (do _ <- modify (fun sys =>
        {| security_monitor := security_monitor sys;
           response_handler := response_handler sys;
           event_count := event_count sys + 1;
           threat_count := threat_count sys |});
   do threat_detected <- on_monitor (analyze_event aws (Some event));
   match threat_detected with
   | Some threat =>
       do _ <- modify (fun sys =>
            {| security_monitor := security_monitor sys;
               response_handler := response_handler sys;
               event_count := event_count sys;
               threat_count := threat_count sys + 1 |});
       do _ <- on_handler (handle_threat now (Some threat) (Some event));
       ret tt
   | None => ret tt
   end)%py.

(** The loop over the events the generator yields; an exception other
    than [KeyboardInterrupt] leaves the loop. *)
Fixpoint main_loop (feed : list (string * Event)) : M (System W) unit :=
  match feed with
  | [] => ret tt
  | (now, event) :: rest => (do _ <- cycle now event; main_loop rest)%py
  end.

(** Successive calls of [analyze_event] on one monitor, keeping each
    outcome. *)
Fixpoint analyze_all (events : list Event) (self : SecurityMonitor W)
  : SecurityMonitor W * list (result (option Threat)) :=
  match events with
  | [] => (self, [])
  | event :: rest =>
      let (self, r) := analyze_event aws (Some event) self in
      let (self, rs) := analyze_all rest self in
      (self, r :: rs)
  end.

End Loop.

(** Successive calls of the failed-login rule on one counter dict. *)
Fixpoint check_all (events : list Event) (attempts : gmap string Z)
  : gmap string Z * list (option Threat) :=
  match events with
  | [] => (attempts, [])
  | event :: rest =>
      let (attempts, r) := _check_failed_login_pattern attempts event in
      let (attempts, rs) := check_all rest attempts in
      (attempts, r :: rs)
  end.

End Main.

Import SecurityMonitor ResponseHandler Main.

(** ** Notions used by the statements *)

(** The candidates of the seven rules on [event], in the order in which
    [analyze_event] registers them; rule 5 sees the counter dict
    [attempts]. *)
Definition candidates (attempts : gmap string Z) (event : Event)
  : list (option Threat) :=
  [ _check_threat_keywords event;
    _check_suspicious_ip event;
    _check_suspicious_user event;
    _check_restricted_resource event;
    snd (_check_failed_login_pattern attempts event);
    _check_event_severity event;
    _check_threat_indicators event ].

(** The rules that fired. *)
Definition fired (attempts : gmap string Z) (event : Event) : list Threat :=
  omap id (candidates attempts event).

(** [t] is the first candidate of [l] with the highest score of [l]. *)
Definition first_highest (t : Threat) (l : list Threat) : Prop :=
  ∃ before after,
    l = (before ++ t :: after)%list ∧
    Forall (fun c => risk_score c < risk_score t) before ∧
    Forall (fun c => risk_score c <= risk_score t) after.

(** The chain of comparisons of [analyze_event] over the candidates. *)
Definition decide_threat (attempts : gmap string Z) (event : Event)
  : option Threat :=
  foldl (fun threat_info cand => select cand threat_info) None
        (candidates attempts event).

(** The first key that a subscript of [_log_event_analysis] misses. *)
Definition analysis_log_missing (event : Event) : option string :=
  match event_type event, user_id event, source_ip event with
  | None, _, _ => Some "event_type"
  | _, None, _ => Some "user_id"
  | _, _, None => Some "source_ip"
  | Some _, Some _, Some _ => None
  end.

(** The first key that a subscript of [_log_threat_detection] misses. *)
Definition detection_log_missing (event : Event) : option string :=
  match event_id event, user_id event, source_ip event, resource event with
  | None, _, _, _ => Some "event_id"
  | _, None, _, _ => Some "user_id"
  | _, _, None, _ => Some "source_ip"
  | _, _, _, None => Some "resource"
  | Some _, Some _, Some _, Some _ => None
  end.

(** The candidate rule 5 returns once the counter of the key shows
    [count]. *)
Definition brute_force_candidate (count : Z) : Threat :=
  {| threat_type := "BRUTE_FORCE_ATTACK";
     threat_description :=
       "Multiple failed login attempts detected (" ++ pretty count
       ++ " attempts)";
     risk_score := 8;
     detection_method := "behavioral_analysis" |}.

(** No rule other than the failed-login rule fires on [event]. *)
Definition only_login_rule (event : Event) : Prop :=
  _check_threat_keywords event = None ∧
  _check_suspicious_ip event = None ∧
  _check_suspicious_user event = None ∧
  _check_restricted_resource event = None ∧
  _check_event_severity event = None ∧
  _check_threat_indicators event = None.

(** The threat types that [response_actions] configures. *)
Definition configured_types : list string :=
  ["KEYWORD_THREAT"; "MALICIOUS_IP"; "HIGH_RISK_USER";
   "RESTRICTED_RESOURCE_ACCESS"; "BRUTE_FORCE_ATTACK";
   "CRITICAL_SECURITY_EVENT"; "HIGH_RISK_EVENT"; "SUSPICIOUS_ACTIVITY";
   "THREAT_INDICATORS_DETECTED"].

(** The policy entry [handle_threat] resolves for a threat type. *)
Definition resolved_policy (threat_type : string) : ResponseConfig :=
  default _get_default_response (response_actions !! threat_type).

Definition in_range (score : Z) : Prop := 0 <= score <= 10.

(** The action tags that [_simulate_action_execution] has a routine for. *)
Definition simulated_actions : list string :=
  ["block_ip"; "suspend_user"; "quarantine_session"; "alert_security_team";
   "terminate_connections"; "isolate_resource"; "lockout_account";
   "increase_monitoring"; "emergency_isolation"; "forensic_imaging";
   "deep_scan"; "audit_user_activity"; "log_incident"; "notify_admin";
   "executive_notification"].

(** The record that a response to [t] on [e] appends to the history. *)
Definition response_record (now : string) (t : Threat) (e : Event)
  : ResponseRecord :=
  let response_config := resolved_policy (threat_type t) in
  {| r_timestamp := now;
     r_threat_type := threat_type t;
     r_event_id := event_id e;
     r_risk_score := risk_score t;
     r_actions_executed := actions response_config;
     r_priority := priority response_config;
     r_escalation_required := escalation_required response_config |}.

(** What executing one action writes to the console. *)
Definition action_output (t : Threat) (e : Event) (action : string)
  : list Output :=
  [Executing action;
   Simulated (default (generic_executed action)
                      (action_simulations t e !! action));
   Sleep 500].

(** What a response to [t] on [e] writes to the console. *)
Definition response_output (t : Threat) (e : Event) : list Output :=
  let response_config := resolved_policy (threat_type t) in
  ([Initiating (threat_type t) (risk_score t) (event_id e)]
   ++ flat_map (action_output t e) (actions response_config)
   ++ [LoggerInfo ("Response executed for " ++ threat_type t)]
   ++ (if escalation_required response_config
       then [Escalating; Sleep 1000; Escalated] else [])
   ++ [Completed (length (actions response_config))])%list.

(** Every record of the history holds a score between 0 and 10. *)
Definition history_in_range (p : Process) : Prop :=
  Forall (fun r => in_range (r_risk_score r)) (response_history (handler p)).

(** ** Sample inputs *)

(** The end-to-end scenario event, with exactly its five keys. *)
Definition scenario_event : Event :=
  {| timestamp := None; event_id := None;
     event_type := Some "unauthorized_access"; severity := Some "critical";
     description := Some "Unauthorized access attempt to restricted resource";
     source_ip := Some "203.0.113.45"; user_id := None;
     resource := Some "admin_panel"; metadata := None;
     threat_indicators := None |}.

(** The same event with the two keys that the narration also reads. *)
Definition scenario_event_full : Event :=
  {| timestamp := None; event_id := Some "evt_100001";
     event_type := Some "unauthorized_access"; severity := Some "critical";
     description := Some "Unauthorized access attempt to restricted resource";
     source_ip := Some "203.0.113.45"; user_id := Some "user001";
     resource := Some "admin_panel"; metadata := None;
     threat_indicators := None |}.

(** A [failed_login] event as [generate_event] builds it from its
    template, for one draw of the random fields. *)
Definition generated_failed_login : Event :=
  {| timestamp := Some "2024-01-01T00:00:00"; event_id := Some "evt_123456";
     event_type := Some "failed_login"; severity := Some "warning";
     description := Some "Multiple failed login attempts detected";
     source_ip := Some "198.51.100.23"; user_id := Some "test_account";
     resource := Some "authentication_service";
     metadata := Some {| region := Some "us-east-1";
                         service_version := Some "v1.0";
                         session_id := Some "sess_1000" |};
     threat_indicators := Some ["brute_force"; "suspicious_ip"] |}.

(** A [failed_login] event on which no other rule has anything to say. *)
Definition plain_failed_login : Event :=
  {| timestamp := Some "2024-01-01T00:00:00"; event_id := Some "evt_200000";
     event_type := Some "failed_login"; severity := Some "warning";
     description := Some "Wrong password";
     source_ip := Some "10.0.0.5"; user_id := Some "user001";
     resource := Some "authentication_service";
     metadata := None; threat_indicators := None |}.

(** A [failed_login] event without the [user_id] key. *)
Definition anonymous_failed_login : Event :=
  {| timestamp := Some "2024-01-01T00:00:00"; event_id := Some "evt_300000";
     event_type := Some "failed_login"; severity := Some "warning";
     description := Some "Wrong password";
     source_ip := Some "10.0.0.5"; user_id := None;
     resource := Some "authentication_service";
     metadata := None; threat_indicators := None |}.

(** A non-empty event dict with the single key [severity]. *)
Definition severity_only_event : Event :=
  {| timestamp := None; event_id := None; event_type := None;
     severity := Some "info"; description := None; source_ip := None;
     user_id := None; resource := None; metadata := None;
     threat_indicators := None |}.

(** An event whose only key is [threat_indicators], with one entry. *)
Definition one_indicator_event : Event :=
  {| timestamp := None; event_id := None; event_type := None;
     severity := None; description := None; source_ip := None;
     user_id := None; resource := None; metadata := None;
     threat_indicators := Some ["malware"] |}.

(** A [user_login] event as [generate_event] builds it from its template. *)
Definition generated_user_login : Event :=
  {| timestamp := Some "2024-01-01T00:00:00"; event_id := Some "evt_654321";
     event_type := Some "user_login"; severity := Some "info";
     description := Some "User successfully logged in";
     source_ip := Some "192.168.1.10"; user_id := Some "user001";
     resource := Some "authentication_service";
     metadata := Some {| region := Some "us-west-2";
                         service_version := Some "v2.3";
                         session_id := Some "sess_2000" |};
     threat_indicators := None |}.

(** The empty dict. *)
Definition empty_event : Event :=
  {| timestamp := None; event_id := None; event_type := None;
     severity := None; description := None; source_ip := None;
     user_id := None; resource := None; metadata := None;
     threat_indicators := None |}.

Definition fresh_process : Process :=
  {| handler := ResponseHandler.init; console := [] |}.

Definition keyword_candidate : Threat :=
  {| threat_type := "KEYWORD_THREAT";
     threat_description :=
       "Critical security keyword detected: 'unauthorized access'";
     risk_score := 9;
     detection_method := "keyword_analysis" |}.

Definition unknown_candidate : Threat :=
  {| threat_type := "ZERO_DAY";
     threat_description := "unclassified";
     risk_score := 5;
     detection_method := "manual" |}.

(** ** Dicts of counts *)

(** [d[key] = d.get(key, 0) + 1] *)
Definition count_up (d : gmap string Z) (key : string) : gmap string Z :=
  <[key := default 0 (d !! key) + 1]> d.

(** The sum of the values of a dict of counts. *)
Definition values_sum (d : gmap string Z) : Z :=
  map_fold (fun _ count acc => count + acc) 0 d.

(** How often [key] occurs in [keys]. *)
Definition occurrences (key : string) (keys : list string) : Z :=
  Z.of_nat (length (List.filter (fun k => bool_decide (k = key)) keys)).

(** ** The event generator ([event_generator.py]) *)

Module EventGenerator.

(** An event template; a [None] is the value [None] of the key, which
    [generate_event] replaces by a drawn value. *)
Record Template : Type := {
  t_event_type : string;
  t_severity : string;
  t_description : string;
  t_source_ip : option string;
  t_user_id : option string;
  t_resource : string;
  t_threat_indicators : option (list string)
}.

Definition normal_events : list Template :=
  [ {| t_event_type := "user_login"; t_severity := "info";
       t_description := "User successfully logged in";
       t_source_ip := None; t_user_id := None;
       t_resource := "authentication_service";
       t_threat_indicators := None |};
    {| t_event_type := "api_call"; t_severity := "info";
       t_description := "Authorized API call executed";
       t_source_ip := None; t_user_id := None;
       t_resource := "compute_service";
       t_threat_indicators := None |};
    {| t_event_type := "file_access"; t_severity := "info";
       t_description := "File accessed successfully";
       t_source_ip := None; t_user_id := None;
       t_resource := "storage_service";
       t_threat_indicators := None |};
    {| t_event_type := "system_update"; t_severity := "info";
       t_description := "System configuration updated";
       t_source_ip := Some "internal"; t_user_id := Some "system";
       t_resource := "management_service";
       t_threat_indicators := None |} ].

Definition threat_events : list Template :=
  [ {| t_event_type := "failed_login"; t_severity := "warning";
       t_description := "Multiple failed login attempts detected";
       t_source_ip := None; t_user_id := None;
       t_resource := "authentication_service";
       t_threat_indicators := Some ["brute_force"; "suspicious_ip"] |};
    {| t_event_type := "unauthorized_access"; t_severity := "critical";
       t_description := "Unauthorized access attempt to restricted resource";
       t_source_ip := None; t_user_id := None;
       t_resource := "admin_panel";
       t_threat_indicators :=
         Some ["privilege_escalation"; "unauthorized_access"] |};
    {| t_event_type := "suspicious_api_call"; t_severity := "high";
       t_description := "API call from unrecognized source";
       t_source_ip := None; t_user_id := None;
       t_resource := "data_service";
       t_threat_indicators :=
         Some ["anomalous_behavior"; "suspicious_api_usage"] |};
    {| t_event_type := "data_exfiltration"; t_severity := "critical";
       t_description := "Large data transfer to external location";
       t_source_ip := None; t_user_id := None;
       t_resource := "database_service";
       t_threat_indicators :=
         Some ["data_exfiltration"; "suspicious_transfer"] |};
    {| t_event_type := "malware_detection"; t_severity := "critical";
       t_description := "Malicious code detected in system";
       t_source_ip := None; t_user_id := None;
       t_resource := "endpoint_security";
       t_threat_indicators := Some ["malware"; "code_injection"] |} ].

Definition normal_ips : list string :=
  ["192.168.1.10"; "192.168.1.15"; "192.168.1.20"; "192.168.1.25";
   "10.0.0.5"; "10.0.0.10"; "10.0.0.15"; "172.16.0.5"].

Definition suspicious_ips : list string :=
  ["203.0.113.45"; "198.51.100.23"; "203.0.113.78"; "198.51.100.67";
   "185.220.101.182"; "185.220.102.8"; "94.142.241.111"].

Definition normal_users : list string :=
  ["user001"; "user002"; "user003"; "admin001"; "service_account_01";
   "developer_01"; "analyst_01"; "manager_01"].

Definition suspicious_users : list string :=
  ["temp_user"; "guest_user"; "unknown_user"; "test_account";
   "backdoor_user"].

Definition regions : list string := ["us-east-1"; "us-west-2"; "eu-central-1"].

(** What the [random] module hands out during one [generate_event]: the
    outcome of [random.random() < 0.2] and one number for each
    [random.choice] and [random.randint]. *)
Record Draws : Type := {
  is_threat : bool;
  template_draw : nat;
  ip_draw : nat;
  user_draw : nat;
  jitter_draw : nat;
  id_draw : nat;
  region_draw : nat;
  major_draw : nat;
  minor_draw : nat;
  session_draw : nat
}.

(** [random.choice(l)] for the draw [n]: the draws range over the
    positions of [l]. *)
Definition choice {A} (dflt : A) (l : list A) (n : nat) : A :=
  nth (n mod length l) l dflt.

(** [random.randint(lo, hi)] for the draw [n]. *)
Definition randint (lo hi : Z) (n : nat) : Z :=
  lo + Z.of_nat n mod (hi - lo + 1).

(** [a or b] for a string or [None] on the left. *)
Definition py_or (a : option string) (b : string) : string :=
  match a with
  | Some s => if bool_decide (s = "") then b else s
  | None => b
  end.

Definition blank : Template :=
  {| t_event_type := ""; t_severity := ""; t_description := "";
     t_source_ip := None; t_user_id := None; t_resource := "";
     t_threat_indicators := None |}.

(** [generate_event]; [clock s] is the ISO text of the time [s] seconds
    before now. *)
Definition generate_event (clock : Z -> string) (d : Draws) : Event :=
  let event_template :=
    if is_threat d then choice blank threat_events (template_draw d)
    else choice blank normal_events (template_draw d) in
  let source_ip :=
    if is_threat d then choice "" suspicious_ips (ip_draw d)
    else choice "" normal_ips (ip_draw d) in
  let user_id :=
    if is_threat d then choice "" suspicious_users (user_draw d)
    else choice "" normal_users (user_draw d) in
  {| timestamp := Some (clock (randint 0 300 (jitter_draw d)));
     event_id := Some ("evt_" ++ pretty (randint 100000 999999 (id_draw d)));
     event_type := Some (t_event_type event_template);
     severity := Some (t_severity event_template);
     description := Some (t_description event_template);
     source_ip := Some (py_or (t_source_ip event_template) source_ip);
     user_id := Some (py_or (t_user_id event_template) user_id);
     resource := Some (t_resource event_template);
     metadata :=
       Some {| region := Some (choice "" regions (region_draw d));
               service_version :=
                 Some ("v" ++ pretty (randint 1 3 (major_draw d)) ++ "."
                       ++ pretty (randint 0 9 (minor_draw d)));
               session_id :=
                 Some ("sess_" ++ pretty (randint 1000 9999 (session_draw d))) |};
     threat_indicators := t_threat_indicators event_template |}.

(** [generate_event_batch]: one call per element of [range(count)],
    the [i]-th with the draws [draws i]. *)
Definition generate_event_batch (clock : Z -> string) (draws : nat -> Draws)
    (count : Z) : list Event :=
  map (fun i => generate_event clock (draws i)) (seq 0 (Z.to_nat count)).

(** The dict [get_event_statistics] returns: the key [total] alone for
    an empty list. *)
Record EventStatistics : Type := {
  total : Z;
  by_severity : option (gmap string Z);
  by_type : option (gmap string Z);
  threat_events_count : option Z
}.

Record EventTally : Type := {
  e_by_severity : gmap string Z;
  e_by_type : gmap string Z;
  e_threat_events : Z
}.

Definition tally_event (stats : EventTally) (event : Event) : EventTally :=
  {| e_by_severity :=
       count_up (e_by_severity stats) (default "unknown" (severity event));
     e_by_type :=
       count_up (e_by_type stats) (default "unknown" (event_type event));
     e_threat_events :=
       match threat_indicators event with
       | Some _ => e_threat_events stats + 1    (* "threat_indicators" in event *)
       | None => e_threat_events stats
       end |}.

Definition get_event_statistics (events : list Event) : EventStatistics :=
  match events with
  | [] => {| total := 0; by_severity := None; by_type := None;
             threat_events_count := None |}
  | _ =>
      let stats :=
        foldl tally_event
              {| e_by_severity := ∅; e_by_type := ∅; e_threat_events := 0 |}
              events in
      {| total := Z.of_nat (length events);
         by_severity := Some (e_by_severity stats);
         by_type := Some (e_by_type stats);
         threat_events_count := Some (e_threat_events stats) |}
  end.

End EventGenerator.

(** ** The AWS integration ([aws_integration.py]) *)

Module AWS.

(** A value of a [Dict[str, Any]] argument: [None], a string or an int. *)
Inductive Value : Type :=
| VNone
| VStr (s : string)
| VInt (n : Z).

(** [d.get(key, dflt)] *)
Definition get (d : gmap string Value) (key : string) (dflt : Value) : Value :=
  default dflt (d !! key).

(** [v >= bound]; comparing [None] or a string with an int is a
    [TypeError]. *)
Definition ge_int {S} (v : Value) (bound : Z) : M S bool :=
  match v with
  | VInt n => ret (bool_decide (n >= bound))
  | VNone =>
      raise (Exception
        "'>=' not supported between instances of 'NoneType' and 'int'")
  | VStr _ =>
      raise (Exception
        "'>=' not supported between instances of 'str' and 'int'")
  end.

Record Metric : Type := {
  MetricName : string;
  Dimensions : list (string * Value);
  MetricValue : Value;
  Unit : string;
  Timestamp : string
}.

(** The calls into boto3. *)
Inductive ApiCall : Type :=
| client (service : string)
| list_metrics (MaxRecords : Z)
| put_metric_data (Namespace : string) (MetricData : list Metric)
| invoke (FunctionName InvocationType : string) (Payload : gmap string Value)
| create_log_group (logGroupName : string)
| create_log_stream_call (logGroupName logStreamName : string)
| put_log_events (logGroupName logStreamName : string) (timestamp : Z)
                 (message : gmap string Value).

(** boto3 and what is behind it, over a state [C] of any kind: every
    call returns or raises. *)
Record Boto3 (C : Type) : Type := {
  api : ApiCall -> M C unit;
  region_name : M C Value      (* boto3.Session().region_name *)
}.
Arguments api {C}.
Arguments region_name {C}.

(** The three client attributes: [true] for a client, [false] for
    [None]. *)
Record AWSIntegration : Type := {
  cloudwatch : bool;
  lambda_client : bool;
  logs_client : bool
}.

Definition already_exists (e : exn) : bool :=
  match e with
  | Exception msg => bool_decide (msg = "ResourceAlreadyExistsException")
  | KeyError _ => false
  end.

Section Methods.
Context {C : Type} (boto3 : Boto3 C).

Definition _test_aws_connection : M C unit :=
  try_except (api boto3 (list_metrics 1))
             (fun e => ret tt)   (* self.logger.warning(...) *).

(** [__init__]: the object it leaves behind. *)
Definition init : M C AWSIntegration :=
  try_except
    (do _ <- api boto3 (client "cloudwatch");
     do _ <- api boto3 (client "lambda");
     do _ <- api boto3 (client "logs");
     do _ <- _test_aws_connection;
     ret {| cloudwatch := true; lambda_client := true; logs_client := true |})%py
    (fun e =>
       ret {| cloudwatch := false; lambda_client := false;
              logs_client := false |}).

(** The methods return [Some true], [Some false] or, where the code runs
    off its end without a [return], [None].  [utcnow] and [utcnow'] are
    the readings of [datetime.utcnow()] during the call. *)
Definition send_security_metric (self : AWSIntegration)
    (utcnow utcnow' : string) (event_data : gmap string Value)
  : M C (option bool) :=
  if negb (cloudwatch self) then ret (Some false)
  else
    try_except
      (let event_type := get event_data "event_type" (VStr "unknown") in
       let severity := get event_data "severity" (VStr "info") in
       let source_ip := get event_data "source_ip" (VStr "unknown") in
       let risk_score := get event_data "risk_score" (VInt 0) in
       let metrics :=
         [ {| MetricName := "SecurityEvents";
              Dimensions := [("EventType", event_type); ("Severity", severity)];
              MetricValue := VInt 1; Unit := "Count"; Timestamp := utcnow |};
           {| MetricName := "ThreatRiskScore";
              Dimensions := [("SourceIP", source_ip); ("EventType", event_type)];
              MetricValue := risk_score; Unit := "None";
              Timestamp := utcnow' |} ] in
       do _ <- api boto3 (put_metric_data "Aegis/Security" metrics);
       ret (Some true))%py
      (fun e => ret (Some false)).

Definition send_threat_alert (self : AWSIntegration) (utcnow : string)
    (threat_data : gmap string Value) : M C (option bool) :=
  if negb (cloudwatch self) then ret (Some false)
  else
    try_except
      (do critical <- ge_int (get threat_data "risk_score" (VInt 0)) 7;
       if critical then
         do _ <- api boto3
              (put_metric_data "Aegis/Alerts"
                 [ {| MetricName := "CriticalThreats";
                      Dimensions :=
                        [("ThreatType",
                          get threat_data "threat_type" (VStr "unknown"));
                         ("SourceIP",
                          get threat_data "source_ip" (VStr "unknown"))];
                      MetricValue := VInt 1; Unit := "Count";
                      Timestamp := utcnow |} ]);
         ret (Some true)
       else ret None)%py
      (fun e => ret (Some false)).

Definition trigger_lambda_response (self : AWSIntegration) (utcnow : string)
    (threat_data : gmap string Value) : M C (option bool) :=
  if negb (lambda_client self) then ret (Some false)
  else
    let function_name := "aegis-threat-response" in
    try_except
      (let payload : gmap string Value :=
         <["threat_type" := get threat_data "threat_type" VNone]> (
         <["risk_score" := get threat_data "risk_score" VNone]> (
         <["source_ip" := get threat_data "source_ip" VNone]> (
         <["event_id" := get threat_data "event_id" VNone]> (
         <["timestamp" := VStr utcnow]> (
         <["resource" := get threat_data "resource" VNone]> (
         <["description" := get threat_data "description" VNone]> ∅)))))) in
       do high <- ge_int (get threat_data "risk_score" (VInt 0)) 8;
       if high then
         do _ <- api boto3 (invoke function_name "Event" payload);
         ret (Some true)
       else ret None)%py
      (fun e => ret (Some false))
      (* ResourceNotFoundException and every other Exception: False *).

Definition create_log_stream (self : AWSIntegration)
    (log_group stream_name : string) : M C (option bool) :=
  if negb (logs_client self) then ret (Some false)
  else
    try_except
      (do _ <- try_except (api boto3 (create_log_group log_group))
                 (fun e => if already_exists e then ret tt else raise e);
       try_except
         (do _ <- api boto3 (create_log_stream_call log_group stream_name);
          ret (Some true))
         (fun e => if already_exists e then ret (Some true) else raise e))%py
      (fun e => ret (Some false)).

(** [millis] is [int(time.time() * 1000)] during the call. *)
Definition send_security_log (self : AWSIntegration) (millis : Z)
    (log_group stream_name : string) (log_data : gmap string Value)
  : M C (option bool) :=
  if negb (logs_client self) then ret (Some false)
  else
    try_except
      (do _ <- api boto3
           (put_log_events log_group stream_name millis log_data);
       ret (Some true))%py
      (fun e => ret (Some false)).

Record HealthStatus : Type := {
  cloudwatch_available : bool;
  lambda_available : bool;
  logs_available : bool;
  aws_region : Value
}.

Definition get_health_status (self : AWSIntegration) : M C HealthStatus :=
  (do region <- (if cloudwatch self then region_name boto3
                 else ret (VStr "unknown"));
   ret {| cloudwatch_available := cloudwatch self;
          lambda_available := lambda_client self;
          logs_available := logs_client self;
          aws_region := region |})%py.

End Methods.

End AWS.

(** ** The Lambda function ([lambda_function.py]) *)

Module Lambda.
Import AWS.

(** [str(e)] *)
Definition str_exn (e : exn) : string :=
  match e with
  | KeyError key => "'" ++ key ++ "'"
  | Exception msg => msg
  end.

(** The text an f-string puts for a value. *)
Definition fmt_value (v : Value) : string :=
  match v with
  | VNone => "None"
  | VStr s => s
  | VInt n => pretty n
  end.

(** [v.startswith(prefix)]; only a string has the method. *)
Definition startswith {S} (v : Value) (prefix : string) : M S bool :=
  match v with
  | VStr s => ret (String.prefix prefix s)
  | VNone =>
      raise (Exception "'NoneType' object has no attribute 'startswith'")
  | VInt _ => raise (Exception "'int' object has no attribute 'startswith'")
  end.

(** [v != 'unknown'] *)
Definition known (v : Value) : bool :=
  match v with
  | VStr s => negb (bool_decide (s = "unknown"))
  | _ => true
  end.

(** The dict the handler returns, its body before [json.dumps]. *)
Inductive Body : Type :=
| Executed (event_id : Value) (actions_taken : list string) (timestamp : string)
| Failed (details : string).

Record Response : Type := {
  statusCode : Z;
  body : Body
}.

Section Handler.
Context {C : Type} (boto3 : Boto3 C).

(** The helpers that create a client re-raise what they catch; those
    that only log cannot fail. *)
Definition block_ip_address (ip_address : Value) : M C unit :=
  try_except (api boto3 (client "ec2")) (fun e => raise e).

Definition send_emergency_notification (event : gmap string Value) : M C unit :=
  try_except (api boto3 (client "sns")) (fun e => raise e).

Definition send_security_notification (event : gmap string Value) : M C unit :=
  ret tt.

(** [stamp] is [datetime.utcnow().strftime('%Y%m%d%H%M%S')]. *)
Definition create_security_incident (stamp : string)
    (event : gmap string Value) (priority : string) : M C string :=
  ret ("INC-" ++ stamp).

Definition apply_rate_limiting (ip_address : Value) : M C unit := ret tt.

Definition enable_enhanced_monitoring (ip_address : Value) : M C unit := ret tt.

(** The one helper that swallows what it catches. *)
Definition log_security_action (event : gmap string Value)
    (actions : list string) (response_type : string) : M C unit :=
  try_except (api boto3 (client "logs")) (fun e => ret tt).

Definition log_security_event (event : gmap string Value) : M C unit := ret tt.

(** The handlers build [actions] by appending; the state threaded here is
    the list so far together with the cloud, so that what was appended
    before an exception is still there in the [except] clause. *)
Definition append (action : string) : M (list string * C) unit :=
  modify (fun st => ((fst st ++ [action])%list, snd st)).

Definition cloud {A} (call : M C A) : M (list string * C) A :=
  fun st => let (c, r) := call (snd st) in ((fst st, c), r).

Definition run_handler (body : M (list string * C) unit) : M C (list string) :=
  fun c =>
    let (st, _) :=
      try_except body (fun e => append ("ERROR: " ++ str_exn e)) ([], c) in
    (snd st, Ok (fst st)).

Definition handle_critical_threat (stamp : string)
    (event : gmap string Value) : M C (list string) :=
  let source_ip := get event "source_ip" (VStr "unknown") in
  run_handler
    (do blockable <-
       (if known source_ip then
          do ten <- startswith source_ip "10.";
          if ten then ret false
          else do home <- startswith source_ip "192.168.";
               ret (negb home)
        else ret false);
     do _ <- (if blockable : bool then
                do _ <- cloud (block_ip_address source_ip);
                append ("IP_BLOCKED: " ++ fmt_value source_ip)
              else ret tt);
     do _ <- cloud (send_emergency_notification event);
     do _ <- append "EMERGENCY_NOTIFICATION_SENT";
     do incident_id <- cloud (create_security_incident stamp event "CRITICAL");
     do _ <- append ("INCIDENT_CREATED: " ++ incident_id);
     do actions <- (fun st => (st, Ok (fst st)));
     do _ <- cloud (log_security_action event actions "CRITICAL_RESPONSE");
     append "AUDIT_LOG_CREATED")%py.

Definition handle_high_threat (stamp : string)
    (event : gmap string Value) : M C (list string) :=
  run_handler
    (let source_ip := get event "source_ip" (VStr "unknown") in
     do _ <- (if known source_ip then
                do _ <- cloud (apply_rate_limiting source_ip);
                append ("RATE_LIMITED: " ++ fmt_value source_ip)
              else ret tt);
     do _ <- cloud (send_security_notification event);
     do _ <- append "SECURITY_TEAM_NOTIFIED";
     do incident_id <- cloud (create_security_incident stamp event "HIGH");
     append ("INCIDENT_CREATED: " ++ incident_id))%py.

Definition handle_medium_threat (event : gmap string Value)
  : M C (list string) :=
  run_handler
    (do _ <- cloud (enable_enhanced_monitoring (get event "source_ip" VNone));
     do _ <- append "ENHANCED_MONITORING_ENABLED";
     do _ <- cloud (log_security_event event);
     append "SECURITY_EVENT_LOGGED")%py.

(** [lambda_handler]; [stamp] and [utcnow] are the two readings of the
    clock, for the incident id and for the body.  The [logger.info] of
    the event before the [try] is left out. *)
Definition lambda_handler (stamp utcnow : string)
    (event : gmap string Value) : M C Response :=
  try_except
    (let risk_score := get event "risk_score" (VInt 0) in
     let event_id := get event "event_id" (VStr "unknown") in
     do critical <- ge_int risk_score 9;
     do actions_taken <-
       (if critical then handle_critical_threat stamp event
        else do high <- ge_int risk_score 7;
             if high then handle_high_threat stamp event
             else handle_medium_threat event);
     ret {| statusCode := 200;
            body := Executed event_id actions_taken utcnow |})%py
    (fun e => ret {| statusCode := 500; body := Failed (str_exn e) |}).

End Handler.

End Lambda.

(** ** Further methods of the monitor *)

(** [needle] occurs in [haystack]. *)
Definition is_substring (needle haystack : string) : Prop :=
  ∃ before after, haystack = before ++ needle ++ after.

(** The text the keyword rule scans. *)
Definition scanned_text (event : Event) : string :=
  lower (default "" (description event)).

(** [self.security_rules], the dict of the five rule lists. *)
Definition security_rules : list (string * list string) :=
  [("critical_keywords", critical_keywords);
   ("suspicious_keywords", suspicious_keywords);
   ("blocked_ips", blocked_ips);
   ("restricted_resources", restricted_resources);
   ("high_risk_users", high_risk_users)].

(** The dict [get_monitoring_statistics] returns. *)
Record MonitoringStatistics : Type := {
  failed_login_tracking : nat;
  active_rules : nat;
  detection_methods : list string
}.

Definition get_monitoring_statistics {W} (self : SecurityMonitor W)
  : MonitoringStatistics :=
  {| failed_login_tracking := size (failed_login_attempts self);
     active_rules := length security_rules;
     detection_methods :=
       ["keyword_analysis"; "ip_reputation"; "user_profile_analysis";
        "resource_access_control"; "behavioral_analysis";
        "severity_analysis"; "threat_intelligence"] |}.

(** [event] is a failed login of the counter key [key]. *)
Definition failed_login_of (key : string) (event : Event) : bool :=
  bool_decide (event_type event = Some "failed_login" ∧ login_key event = key).

(** A call that reaches the collaborator, with its arguments. *)
Inductive Call : Type :=
| ThreatAlert (threat_data : Payload)
| SecurityMetric (data : Payload)
| LambdaResponse (threat_data : Payload)
| CreateLogStream (log_group stream_name : string)
| SecurityLog (log_group stream_name : string) (log_data : LogData).

(** A collaborator that writes down every call it receives and then
    raises on the calls that [fails] picks. *)
Definition aws_scripted (fails : Call -> bool) (today now : string)
  : AWSIntegration (list Call) :=
  let receive (c : Call) : M (list Call) bool :=
    fun calls =>
      ((calls ++ [c])%list,
       if fails c then Raise (Exception "ClientError") else Ok true) in
  {| send_threat_alert := fun d => receive (ThreatAlert d);
     send_security_metric := fun d => receive (SecurityMetric d);
     trigger_lambda_response := fun d => receive (LambdaResponse d);
     create_log_stream := fun g s => receive (CreateLogStream g s);
     send_security_log := fun g s d => receive (SecurityLog g s d);
     now_strftime := ret today;
     utcnow_isoformat := ret now |}.

(** The calls of a list up to and including the first that fails. *)
Fixpoint until_first_failure (fails : Call -> bool) (calls : list Call)
  : list Call :=
  match calls with
  | [] => []
  | c :: rest =>
      if fails c then [c] else c :: until_first_failure fails rest
  end.

(** The [threat_data] dict of [_send_to_aws]. *)
Definition threat_payload (event : Event) (t : Threat) : Payload :=
  {| p_event_id := event_id event;
     p_threat_type := Some (threat_type t);
     p_risk_score := Some (risk_score t);
     p_source_ip := source_ip event;
     p_user_id := user_id event;
     p_resource := resource event;
     p_description := Some (threat_description t);
     p_event_type := event_type event;
     p_severity :=
       Some (if bool_decide (risk_score t >= 8) then "critical" else "high") |}.

(** The [event_data] dict of [_send_event_metrics]. *)
Definition baseline_payload (event : Event) : Payload :=
  {| p_event_id := None;
     p_threat_type := None;
     p_risk_score := Some 1;
     p_source_ip := source_ip event;
     p_user_id := None;
     p_resource := None;
     p_description := None;
     p_event_type := event_type event;
     p_severity := Some (default "info" (severity event)) |}.

(** The calls of a threat report when none of them fails. *)
Definition threat_report (today now : string) (event : Event) (t : Threat)
  : list Call :=
  ([ThreatAlert (threat_payload event t);
    SecurityMetric (threat_payload event t)]
   ++ (if bool_decide (risk_score t >= 8)
       then [LambdaResponse (threat_payload event t)] else [])
   ++ [CreateLogStream "/aegis/security-events" ("threats-" ++ today);
       SecurityLog "/aegis/security-events" ("threats-" ++ today)
         {| log_timestamp := now; log_event := event;
            log_threat_info := t; log_aws_integration := true |}])%list.

(** [event] with its [description] key set to [text]. *)
Definition set_description (text : string) (event : Event) : Event :=
  {| timestamp := timestamp event; event_id := event_id event;
     event_type := event_type event; severity := severity event;
     description := Some text; source_ip := source_ip event;
     user_id := user_id event; resource := resource event;
     metadata := metadata event;
     threat_indicators := threat_indicators event |}.

(** [event] reaches rule 5 and rule 5 counts it: it is a failed login
    and the first narration finds its keys. *)
Definition counted (event : Event) : bool :=
  bool_decide (event_type event = Some "failed_login") &&
  bool_decide (analysis_log_missing event = None).

(** ** Statistics of the response handler *)

Module Stats.

(** The dict [get_response_statistics] returns: the key
    [total_responses] alone for an empty history, all four keys
    otherwise. *)
Record ResponseStatistics : Type := {
  total_responses : Z;
  by_threat_type : option (gmap string Z);
  by_priority : option (gmap string Z);
  escalations : option Z
}.

(** The three values that the loop over the history updates. *)
Record Tally : Type := {
  t_by_threat_type : gmap string Z;
  t_by_priority : gmap string Z;
  t_escalations : Z
}.

Definition tally_record (stats : Tally) (record : ResponseRecord) : Tally :=
  {| t_by_threat_type := count_up (t_by_threat_type stats) (r_threat_type record);
     t_by_priority := count_up (t_by_priority stats) (r_priority record);
     t_escalations :=
       if r_escalation_required record then t_escalations stats + 1
       else t_escalations stats |}.

Definition get_response_statistics (self : ResponseHandler)
  : ResponseStatistics :=
  match response_history self with
  | [] => {| total_responses := 0; by_threat_type := None;
             by_priority := None; escalations := None |}
  | history =>
      let stats :=
        foldl tally_record
              {| t_by_threat_type := ∅; t_by_priority := ∅;
                 t_escalations := 0 |} history in
      {| total_responses := Z.of_nat (length history);
         by_threat_type := Some (t_by_threat_type stats);
         by_priority := Some (t_by_priority stats);
         escalations := Some (t_escalations stats) |}
  end.

End Stats.

(** A record that the loop appends: the response to a threat that the
    monitor returned for the event of that turn. *)
Definition loop_record (r : ResponseRecord) : Prop :=
  r_threat_type r ∈ configured_types ∧
  r_risk_score r ∈ [6; 7; 8; 9; 10] ∧
  r_actions_executed r = actions (resolved_policy (r_threat_type r)) ∧
  r_priority r = priority (resolved_policy (r_threat_type r)) ∧
  r_escalation_required r =
    escalation_required (resolved_policy (r_threat_type r)).

(** ** Generated events *)

(** The event [generate_event] builds from a template, an address and a
    user, the other drawn values being [ts], [eid] and [md]. *)
Definition event_of (ts eid : option string) (md : option Metadata)
    (tpl : EventGenerator.Template) (ip user : string) : Event :=
  {| timestamp := ts; event_id := eid;
     event_type := Some (EventGenerator.t_event_type tpl);
     severity := Some (EventGenerator.t_severity tpl);
     description := Some (EventGenerator.t_description tpl);
     source_ip := Some (EventGenerator.py_or (EventGenerator.t_source_ip tpl) ip);
     user_id := Some (EventGenerator.py_or (EventGenerator.t_user_id tpl) user);
     resource := Some (EventGenerator.t_resource tpl);
     metadata := md;
     threat_indicators := EventGenerator.t_threat_indicators tpl |}.

(** The threat type that the monitor returns for a generated threat
    event of a given event type. *)
Definition generated_threat_type (event_type : option string) : string :=
  if bool_decide (event_type = Some "unauthorized_access")
  then "KEYWORD_THREAT"
  else if bool_decide (event_type = Some "data_exfiltration" ∨
                       event_type = Some "malware_detection")
  then "CRITICAL_SECURITY_EVENT"
  else "THREAT_INDICATORS_DETECTED".

(** The feed of the loop when the generator is given the draws [draws],
    each with the clock reading of its turn. *)
Definition generated_feed (clock : Z -> string)
    (draws : list (string * EventGenerator.Draws)) : list (string * Event) :=
  map (fun turn => (fst turn, EventGenerator.generate_event clock (snd turn)))
      draws.

(** ** Notions for the AWS integration *)

(** The outcome of one boto3 call as the methods report it. *)
Definition reported (r : result unit) : option bool :=
  match r with
  | Ok _ => Some true
  | Raise _ => Some false
  end.

(** The object that holds no client. *)
Definition no_clients : AWS.AWSIntegration :=
  {| AWS.cloudwatch := false; AWS.lambda_client := false;
     AWS.logs_client := false |}.

Definition all_clients : AWS.AWSIntegration :=
  {| AWS.cloudwatch := true; AWS.lambda_client := true;
     AWS.logs_client := true |}.

(** ** Notions for the Lambda function *)

(** A cloud in which every call goes through. *)
Definition boto3_up : AWS.Boto3 unit :=
  {| AWS.api := fun _ => ret tt;
     AWS.region_name := ret (AWS.VStr "us-east-2") |}.

(** [handle_critical_threat] would block the address [s]. *)
Definition blockable (s : string) : bool :=
  negb (bool_decide (s = "unknown")) &&
  negb (String.prefix "10." s) && negb (String.prefix "192.168." s).

(** * Properties *)

(** ** Narration and telemetry *)

Lemma log_event_analysis_run {S} (event : Event) (s : S) :
  _log_event_analysis event s =
  (s, match analysis_log_missing event with
      | None => Ok tt
      | Some key => Raise (KeyError key)
      end).
Proof.
  unfold _log_event_analysis, analysis_log_missing, bind, getitem, ret, raise.
  destruct (event_type event), (user_id event), (source_ip event); reflexivity.
Qed.

Lemma log_threat_detection_run {S} (t : Threat) (event : Event) (s : S) :
  _log_threat_detection t event s =
  (s, match detection_log_missing event with
      | None => Ok tt
      | Some key => Raise (KeyError key)
      end).
Proof.
  unfold _log_threat_detection, detection_log_missing, bind, getitem, ret, raise.
  destruct (event_id event), (user_id event), (source_ip event),
    (resource event); reflexivity.
Qed.

Ltac run_call :=
  match goal with
  | |- context [on_aws ?c ?s] =>
      let w := fresh "w" in
      let r := fresh "r" in
      unfold on_aws at 1; destruct (c (aws_integration s)) as [w [r|r]]; simpl
  end.

Section Telemetry.
Context {W : Type} (aws : AWSIntegration W).

(** Whatever the collaborator does, [_send_to_aws] returns normally and
    leaves the counter dict alone. *)
Lemma send_to_aws_swallows (event : Event) (t : Threat) (self : SecurityMonitor W) :
  ∃ w, _send_to_aws aws event t self =
       ({| failed_login_attempts := failed_login_attempts self;
           aws_integration := w |}, Ok tt).
Proof.
  unfold _send_to_aws, try_except, bind, ret.
  repeat first
    [ run_call
    | match goal with
      | |- context [if bool_decide ?P then _ else _] =>
          destruct (bool_decide P); simpl
      end ];
    eauto.
Qed.

Lemma send_event_metrics_swallows (event : Event) (self : SecurityMonitor W) :
  ∃ w, _send_event_metrics aws event self =
       ({| failed_login_attempts := failed_login_attempts self;
           aws_integration := w |}, Ok tt).
Proof.
  unfold _send_event_metrics, try_except, bind, ret.
  repeat run_call; eauto.
Qed.

End Telemetry.

(** ** What [analyze_event] computes *)

Section AnalyzeOutcome.
Context {W : Type} (aws : AWSIntegration W).

Lemma analyze_event_none (self : SecurityMonitor W) :
  analyze_event aws None self = (self, Ok None).
Proof. reflexivity. Qed.

Lemma analyze_event_empty (event : Event) (self : SecurityMonitor W) :
  dict_is_empty event = true →
  analyze_event aws (Some event) self = (self, Ok None).
Proof. intros E. unfold analyze_event. rewrite E. reflexivity. Qed.

(** The outcome of a call on a non-empty dict: the narration raises on
    the first key it misses, and between the two narrations the result is
    the chain of comparisons over the seven candidates. *)
Lemma analyze_event_result (event : Event) (self : SecurityMonitor W) :
  dict_is_empty event = false →
  snd (analyze_event aws (Some event) self) =
  match analysis_log_missing event with
  | Some key => Raise (KeyError key)
  | None =>
      match decide_threat (failed_login_attempts self) event with
      | None => Ok None
      | Some t =>
          match detection_log_missing event with
          | Some key => Raise (KeyError key)
          | None => Ok (Some t)
          end
      end
  end.
Proof.
  intros E. unfold analyze_event. rewrite E.
  unfold bind at 1. rewrite log_event_analysis_run.
  destruct (analysis_log_missing event); [reflexivity|].
  unfold bind at 1, check_failed_login at 1.
  unfold decide_threat, candidates. simpl.
  destruct (_check_failed_login_pattern (failed_login_attempts self) event)
    as [attempts login_threat]. simpl.
  replace (match _check_threat_keywords event with
           | Some k => Some k
           | None => None
           end) with (select (_check_threat_keywords event) None)
    by (destruct (_check_threat_keywords event); reflexivity).
  match goal with
  | |- context [match ?d with Some _ => _ | None => _ end _] =>
      destruct d as [t|]
  end.
  - unfold bind at 1. rewrite log_threat_detection_run.
    destruct (detection_log_missing event); [reflexivity|].
    unfold bind, ret.
    match goal with
    | |- context [_send_to_aws aws event t ?s] =>
        destruct (send_to_aws_swallows aws event t s) as [w ->]
    end.
    reflexivity.
  - unfold bind, ret.
    match goal with
    | |- context [_send_event_metrics aws event ?s] =>
        destruct (send_event_metrics_swallows aws event s) as [w ->]
    end.
    reflexivity.
Qed.

(** The counter dict after a call: rule 5 has run exactly when the first
    narration went through. *)
Lemma analyze_event_attempts (event : Event) (self : SecurityMonitor W) :
  dict_is_empty event = false →
  failed_login_attempts (fst (analyze_event aws (Some event) self)) =
  match analysis_log_missing event with
  | Some _ => failed_login_attempts self
  | None => fst (_check_failed_login_pattern (failed_login_attempts self) event)
  end.
Proof.
  intros E. unfold analyze_event. rewrite E.
  unfold bind at 1. rewrite log_event_analysis_run.
  destruct (analysis_log_missing event); [reflexivity|].
  unfold bind at 1, check_failed_login at 1.
  destruct (_check_failed_login_pattern (failed_login_attempts self) event)
    as [attempts login_threat]. simpl.
  match goal with
  | |- context [match ?d with Some _ => _ | None => _ end _] =>
      destruct d as [t|]
  end.
  - unfold bind at 1. rewrite log_threat_detection_run.
    destruct (detection_log_missing event); [reflexivity|].
    unfold bind, ret.
    match goal with
    | |- context [_send_to_aws aws event t ?s] =>
        destruct (send_to_aws_swallows aws event t s) as [w ->]
    end.
    reflexivity.
  - unfold bind, ret.
    match goal with
    | |- context [_send_event_metrics aws event ?s] =>
        destruct (send_event_metrics_swallows aws event s) as [w ->]
    end.
    reflexivity.
Qed.

End AnalyzeOutcome.

(** ** The detection rules *)

(** Rule 5 in closed form: one insertion at the key of the event. *)
Lemma check_failed_login_pattern_run (attempts : gmap string Z) (event : Event) :
  _check_failed_login_pattern attempts event =
  if bool_decide (event_type event = Some "failed_login") then
    let count := default 0 (attempts !! login_key event) + 1 in
    (<[login_key event := count]> attempts,
     if bool_decide (count >= 3) then Some (brute_force_candidate count)
     else None)
  else (attempts, None).
Proof.
  unfold _check_failed_login_pattern, max_failed_attempts, brute_force_candidate.
  destruct (decide (event_type event = Some "failed_login")) as [Ht|Ht].
  - rewrite (bool_decide_eq_false_2 (event_type event ≠ _)) by tauto.
    rewrite (bool_decide_eq_true_2 (event_type event = _)) by assumption.
    destruct (attempts !! login_key event) as [n|] eqn:Hn; cbn zeta.
    + rewrite Hn, lookup_insert_eq. unfold default; cbn [from_option id].
      destruct (bool_decide (n + 1 >= 3)); reflexivity.
    + rewrite !lookup_insert_eq, insert_insert_eq.
      unfold default; cbn [from_option id].
      destruct (bool_decide (0 + 1 >= 3)); reflexivity.
  - rewrite (bool_decide_eq_true_2 (event_type event ≠ _)) by assumption.
    rewrite (bool_decide_eq_false_2 (event_type event = _)) by assumption.
    reflexivity.
Qed.

Lemma keyword_rule_scores (event : Event) (t : Threat) :
  _check_threat_keywords event = Some t →
  (threat_type t = "KEYWORD_THREAT" ∧ risk_score t = 9) ∨
  (threat_type t = "SUSPICIOUS_ACTIVITY" ∧ risk_score t = 6).
Proof.
  unfold _check_threat_keywords.
  destruct (find _ critical_keywords).
  - intros [= <-]. left. split; reflexivity.
  - destruct (find _ suspicious_keywords); [|discriminate].
    intros [= <-]. right. split; reflexivity.
Qed.

Lemma ip_rule_scores (event : Event) (t : Threat) :
  _check_suspicious_ip event = Some t →
  threat_type t = "MALICIOUS_IP" ∧ risk_score t = 8.
Proof.
  unfold _check_suspicious_ip. destruct (py_in _ _); [|discriminate].
  intros [= <-]. split; reflexivity.
Qed.

Lemma user_rule_scores (event : Event) (t : Threat) :
  _check_suspicious_user event = Some t →
  threat_type t = "HIGH_RISK_USER" ∧ risk_score t = 7.
Proof.
  unfold _check_suspicious_user. destruct (py_in _ _); [|discriminate].
  intros [= <-]. split; reflexivity.
Qed.

Lemma resource_rule_scores (event : Event) (t : Threat) :
  _check_restricted_resource event = Some t →
  threat_type t = "RESTRICTED_RESOURCE_ACCESS" ∧ risk_score t = 7.
Proof.
  unfold _check_restricted_resource. destruct (py_in _ _); [|discriminate].
  intros [= <-]. split; reflexivity.
Qed.

Lemma login_rule_scores (attempts : gmap string Z) (event : Event) (t : Threat) :
  snd (_check_failed_login_pattern attempts event) = Some t →
  threat_type t = "BRUTE_FORCE_ATTACK" ∧ risk_score t = 8.
Proof.
  rewrite check_failed_login_pattern_run.
  destruct (bool_decide (event_type event = _)); [|discriminate].
  cbn zeta. cbn [snd]. destruct (bool_decide _); [|discriminate].
  intros [= <-]. split; reflexivity.
Qed.

Lemma severity_rule_scores (event : Event) (t : Threat) :
  _check_event_severity event = Some t →
  (threat_type t = "CRITICAL_SECURITY_EVENT" ∧ risk_score t = 9) ∨
  (threat_type t = "HIGH_RISK_EVENT" ∧ risk_score t = 7).
Proof.
  unfold _check_event_severity. cbn zeta.
  destruct (bool_decide (_ >= 4)).
  - intros [= <-]. left. split; reflexivity.
  - destruct (bool_decide (_ >= 3)); [|discriminate].
    intros [= <-]. right. split; reflexivity.
Qed.

Lemma indicator_rule_run (event : Event) :
  _check_threat_indicators event =
  match threat_indicators event with
  | None | Some [] => None
  | Some indicators =>
      Some {| threat_type := "THREAT_INDICATORS_DETECTED";
              threat_description :=
                "Multiple threat indicators present: " ++ join ", " indicators;
              risk_score := Z.min 10 (5 + 2 * Z.of_nat (length indicators));
              detection_method := "threat_intelligence" |}
  end.
Proof.
  unfold _check_threat_indicators.
  destruct (threat_indicators event) as [[|i l]|]; cbn [default]; try reflexivity.
  rewrite (Z.mul_comm 2). reflexivity.
Qed.

Lemma indicator_rule_scores (event : Event) (t : Threat) :
  _check_threat_indicators event = Some t →
  threat_type t = "THREAT_INDICATORS_DETECTED" ∧ 7 <= risk_score t <= 10.
Proof.
  rewrite indicator_rule_run.
  destruct (threat_indicators event) as [[|i l]|]; try discriminate.
  intros [= <-]. cbn [threat_type risk_score]. split; [reflexivity|].
  cbn [length]. lia.
Qed.

(** Every candidate of every rule has a score between 0 and 10. *)
Lemma candidates_in_range (attempts : gmap string Z) (event : Event) (t : Threat) :
  Some t ∈ candidates attempts event → in_range (risk_score t).
Proof.
  unfold candidates, in_range. rewrite !elem_of_cons, elem_of_nil.
  intros [H|[H|[H|[H|[H|[H|[H|[]]]]]]]]; symmetry in H.
  - apply keyword_rule_scores in H. lia.
  - apply ip_rule_scores in H. lia.
  - apply user_rule_scores in H. lia.
  - apply resource_rule_scores in H. lia.
  - apply login_rule_scores in H. lia.
  - apply severity_rule_scores in H. lia.
  - apply indicator_rule_scores in H. lia.
Qed.

(** ** The chain of comparisons *)

Lemma select_chain (l : list (option Threat)) :
  ∀ (seen : list Threat) (threat_info : option Threat),
    match threat_info with
    | None => seen = []
    | Some t => first_highest t seen
    end →
    match foldl (fun threat_info cand => select cand threat_info) threat_info l with
    | None => (seen ++ omap id l)%list = []
    | Some t => first_highest t (seen ++ omap id l)
    end.
Proof.
  induction l as [|cand l IH]; intros seen threat_info Hinv.
  - cbn. rewrite app_nil_r. exact Hinv.
  - cbn [foldl]. destruct cand as [c|].
    + change (omap id (Some c :: l)) with (c :: omap id l).
      replace (seen ++ c :: omap id l)%list
        with ((seen ++ [c]) ++ omap id l)%list
        by (rewrite <- app_assoc; reflexivity).
      apply IH. cbn [select]. destruct threat_info as [t|].
      * destruct Hinv as (before & after & -> & Hb & Ha).
        destruct (decide (risk_score c > risk_score t)) as [Hgt|Hle].
        -- rewrite bool_decide_eq_true_2 by assumption.
           exists (before ++ t :: after)%list, []. split; [reflexivity|].
           split; [|constructor].
           apply Forall_app. split.
           ++ eapply Forall_impl; [exact Hb|]. cbn. intros; lia.
           ++ constructor; [lia|].
              eapply Forall_impl; [exact Ha|]. cbn. intros; lia.
        -- rewrite bool_decide_eq_false_2 by assumption.
           exists before, (after ++ [c])%list. split.
           ++ rewrite <- app_assoc. reflexivity.
           ++ split; [assumption|]. apply Forall_app. split; [assumption|].
              constructor; [lia|constructor].
      * subst seen. exists [], []. repeat split; constructor.
    + apply IH. exact Hinv.
Qed.

(** [decide_threat] picks the first of the highest-scoring candidates
    that fired, and nothing when none fired. *)
Lemma decide_threat_first_highest (attempts : gmap string Z) (event : Event) :
  match decide_threat attempts event with
  | None => fired attempts event = []
  | Some t => first_highest t (fired attempts event)
  end.
Proof.
  unfold decide_threat, fired.
  apply (select_chain (candidates attempts event) [] None). reflexivity.
Qed.

Lemma decide_threat_in_range (attempts : gmap string Z) (event : Event) (t : Threat) :
  decide_threat attempts event = Some t → in_range (risk_score t).
Proof.
  intros H. pose proof (decide_threat_first_highest attempts event) as Hf.
  rewrite H in Hf. destruct Hf as (before & after & Hl & _).
  apply (candidates_in_range attempts event).
  assert (t ∈ fired attempts event) as Hin
    by (rewrite Hl; apply elem_of_app; right; left).
  unfold fired in Hin. apply list_elem_of_omap in Hin.
  destruct Hin as (o & Ho & Hid). cbn in Hid. subst o. exact Ho.
Qed.

(** ** Selection of the result *)

Section Selection.
Context {W : Type} (aws : AWSIntegration W).

(** On an event that carries the keys both narrations read,
    [analyze_event] returns the first of the highest-scoring candidates
    that fired, and [None] when no rule fired. *)
Lemma analyze_event_selects (event : Event) (self : SecurityMonitor W) :
  dict_is_empty event = false →
  analysis_log_missing event = None →
  detection_log_missing event = None →
  ∃ outcome,
    snd (analyze_event aws (Some event) self) = Ok outcome ∧
    match outcome with
    | None => fired (failed_login_attempts self) event = []
    | Some t => first_highest t (fired (failed_login_attempts self) event)
    end.
Proof.
  intros Hne Ha Hd.
  exists (decide_threat (failed_login_attempts self) event). split.
  - rewrite analyze_event_result, Ha, Hd by assumption.
    destruct (decide_threat _ _); reflexivity.
  - apply decide_threat_first_highest.
Qed.

(** The scenario event, once it carries [user_id] and [event_id]: the
    keyword rule and the severity rule tie at 9 and the keyword rule,
    registered first, wins. *)
Lemma scenario_event_full_result (self : SecurityMonitor W) :
  snd (analyze_event aws (Some scenario_event_full) self) =
  Ok (Some keyword_candidate).
Proof.
  rewrite analyze_event_result by reflexivity.
  reflexivity.
Qed.

Lemma scenario_event_full_fired (attempts : gmap string Z) :
  map (fun t => (threat_type t, risk_score t))
      (fired attempts scenario_event_full) =
  [("KEYWORD_THREAT", 9); ("MALICIOUS_IP", 8);
   ("RESTRICTED_RESOURCE_ACCESS", 7); ("CRITICAL_SECURITY_EVENT", 9)].
Proof. reflexivity. Qed.

(** A benign login from a normal address and user yields no threat. *)
Lemma generated_user_login_result (self : SecurityMonitor W) :
  snd (analyze_event aws (Some generated_user_login) self) = Ok None.
Proof.
  rewrite analyze_event_result by reflexivity.
  reflexivity.
Qed.

(** C1 (end-to-end scenario of the selection rule).  The claim is that
    [analyze_event] returns the first highest-scoring candidate and that
    the scenario event with the five keys [event_type], [severity],
    [description], [resource] and [source_ip] yields KEYWORD_THREAT with
    score 9.  On that very dict the call leaves through
    [KeyError('user_id')], raised by the subscript in
    [_log_event_analysis] before any rule has run. *)
Theorem scenario_event_raises (self : SecurityMonitor W) :
  analyze_event aws (Some scenario_event) self =
  (self, Raise (KeyError "user_id")).
Proof. reflexivity. Qed.

End Selection.

(** ** Missing fields *)

Section MissingFields.
Context {W : Type} (aws : AWSIntegration W).

(** Every rule takes an absent field as a non-match. *)
Lemma rules_tolerate_missing_fields (attempts : gmap string Z) (event : Event) :
  (description event = None → _check_threat_keywords event = None) ∧
  (source_ip event = None → _check_suspicious_ip event = None) ∧
  (user_id event = None → _check_suspicious_user event = None) ∧
  (resource event = None → _check_restricted_resource event = None) ∧
  (event_type event = None →
   _check_failed_login_pattern attempts event = (attempts, None)) ∧
  (severity event = None → _check_event_severity event = None) ∧
  (threat_indicators event = None → _check_threat_indicators event = None).
Proof.
  repeat split; intros H.
  - unfold _check_threat_keywords. rewrite H. reflexivity.
  - unfold _check_suspicious_ip. rewrite H. reflexivity.
  - unfold _check_suspicious_user. rewrite H. reflexivity.
  - unfold _check_restricted_resource. rewrite H. reflexivity.
  - unfold _check_failed_login_pattern. rewrite H. reflexivity.
  - unfold _check_event_severity. rewrite H. reflexivity.
  - unfold _check_threat_indicators. rewrite H. reflexivity.
Qed.

(** A non-empty dict without one of the keys [event_type], [user_id],
    [source_ip] makes the call raise before any rule runs. *)
Lemma analyze_event_key_error (event : Event) (self : SecurityMonitor W)
    (key : string) :
  dict_is_empty event = false →
  analysis_log_missing event = Some key →
  analyze_event aws (Some event) self = (self, Raise (KeyError key)).
Proof.
  intros Hne Hk. unfold analyze_event. rewrite Hne.
  unfold bind at 1. rewrite log_event_analysis_run, Hk. reflexivity.
Qed.

(** C4 (no exception on missing fields).  The claim is that
    [analyze_event] never raises, whatever fields a non-empty event dict
    lacks.  On the dict whose only key is [severity] the call leaves
    through [KeyError('event_type')]: [_log_event_analysis] reads
    [event['event_type']] with a subscript. *)
Theorem severity_only_event_raises (self : SecurityMonitor W) :
  dict_is_empty severity_only_event = false ∧
  analyze_event aws (Some severity_only_event) self =
  (self, Raise (KeyError "event_type")).
Proof. split; reflexivity. Qed.

End MissingFields.

(** ** Threat indicators *)

(** C5 (threat-indicator scoring).  With [count] the number of entries of
    [threat_indicators] (zero when the key is absent), the rule yields no
    candidate for [count = 0] and otherwise a candidate whose score is
    [min(10, 5 + 2 * count)]: 7 for one indicator, 10 for three, 10 for
    ten. *)
Theorem threat_indicator_scoring (event : Event) :
  let count := Z.of_nat (length (default [] (threat_indicators event))) in
  (count = 0 → _check_threat_indicators event = None) ∧
  (count > 0 →
   ∃ t, _check_threat_indicators event = Some t ∧
        threat_type t = "THREAT_INDICATORS_DETECTED" ∧
        risk_score t = Z.min 10 (5 + 2 * count)) ∧
  (count = 1 → risk_score <$> _check_threat_indicators event = Some 7) ∧
  (count = 3 → risk_score <$> _check_threat_indicators event = Some 10) ∧
  (count = 10 → risk_score <$> _check_threat_indicators event = Some 10).
Proof.
  cbn zeta. rewrite indicator_rule_run.
  destruct (threat_indicators event) as [[|i l]|];
    unfold default; cbn [from_option id length].
  - repeat split; intros H; try reflexivity; lia.
  - repeat split; intros H; try lia.
    + eexists. split; [reflexivity|]. split; reflexivity.
    + cbn [fmap option_fmap option_map risk_score]. f_equal. lia.
    + cbn [fmap option_fmap option_map risk_score]. f_equal. lia.
    + cbn [fmap option_fmap option_map risk_score]. f_equal. lia.
  - repeat split; intros H; try reflexivity; lia.
Qed.

Lemma threat_indicator_scoring_witness :
  Z.of_nat (length (default [] (threat_indicators one_indicator_event))) = 1 ∧
  risk_score <$> _check_threat_indicators one_indicator_event = Some 7.
Proof.
  assert (Z.of_nat (length (default [] (threat_indicators one_indicator_event)))
          = 1) as H by reflexivity.
  split; [exact H|].
  exact (proj1 (proj2 (proj2 (threat_indicator_scoring one_indicator_event))) H).
Defined.

Example threat_indicator_scores_by_count :
  map (fun indicators =>
         risk_score <$> _check_threat_indicators
           {| timestamp := None; event_id := None; event_type := None;
              severity := None; description := None; source_ip := None;
              user_id := None; resource := None; metadata := None;
              threat_indicators := indicators |})
      [None; Some []; Some ["a"]; Some ["a"; "b"]; Some ["a"; "b"; "c"];
       Some ["a"; "b"; "c"; "d"; "e"; "f"; "g"; "h"; "i"; "j"]]
  = [None; None; Some 7; Some 9; Some 10; Some 10].
Proof. reflexivity. Qed.

(** ** The failed-login counter *)

Lemma only_login_rule_decides (attempts : gmap string Z) (event : Event) :
  only_login_rule event →
  decide_threat attempts event =
  snd (_check_failed_login_pattern attempts event).
Proof.
  intros (Hk & Hi & Hu & Hr & Hs & Ht).
  unfold decide_threat, candidates. rewrite Hk, Hi, Hu, Hr, Hs, Ht. cbn.
  destruct (snd (_check_failed_login_pattern attempts event)); reflexivity.
Qed.

(** Feeding [failed_login] events of one key to rule 5: the [i]-th event
    (from 0) finds the counter at its start value plus [i]. *)
Lemma check_all_lookup (events : list Event) :
  ∀ (attempts : gmap string Z) (key : string),
    Forall (fun e => event_type e = Some "failed_login" ∧ login_key e = key)
           events →
    ∀ (i : nat) (r : option Threat),
      snd (check_all events attempts) !! i = Some r →
      r = let count := default 0 (attempts !! key) + Z.of_nat i + 1 in
          if bool_decide (count >= 3) then Some (brute_force_candidate count)
          else None.
Proof.
  induction events as [|e events IH]; intros attempts key Hall i r Hi.
  - destruct i; discriminate.
  - apply Forall_cons in Hall as [[Ht Hk] Hall].
    cbn [check_all] in Hi. rewrite check_failed_login_pattern_run in Hi.
    rewrite bool_decide_eq_true_2 in Hi by assumption. cbn zeta in Hi.
    rewrite Hk in Hi.
    destruct (check_all events _) as [attempts' rs] eqn:Hrest.
    destruct i as [|i]; cbn in Hi.
    + injection Hi as <-. cbn zeta. rewrite Z.add_0_r. reflexivity.
    + specialize (IH (<[key:=default 0 (attempts !! key) + 1]> attempts)
                     key Hall i r).
      rewrite Hrest in IH. cbn [snd] in IH.
      specialize (IH Hi). rewrite lookup_insert_eq in IH.
      set (n := default 0 (attempts !! key)) in *.
      change (default 0 (Some (n + 1))) with (n + 1) in IH.
      cbn zeta in IH. rewrite IH. cbn zeta.
      replace (n + 1 + Z.of_nat i + 1) with (n + Z.of_nat (S i) + 1) by lia.
      reflexivity.
Qed.

Lemma check_all_length (events : list Event) :
  ∀ attempts, length (snd (check_all events attempts)) = length events.
Proof.
  induction events as [|e events IH]; intros attempts; [reflexivity|].
  cbn [check_all].
  destruct (_check_failed_login_pattern attempts e) as [a r].
  specialize (IH a). destruct (check_all events a) as [a' rs].
  cbn in *. congruence.
Qed.

Section FailedLogin.
Context {W : Type} (aws : AWSIntegration W).

(** On events that only rule 5 can flag and that carry the narrated keys,
    a run of [analyze_event] is a run of rule 5. *)
Lemma analyze_all_only_login_rule (events : list Event) :
  ∀ self : SecurityMonitor W,
    Forall (fun e => analysis_log_missing e = None ∧
                     detection_log_missing e = None ∧
                     only_login_rule e) events →
    snd (analyze_all aws events self) =
      map Ok (snd (check_all events (failed_login_attempts self))) ∧
    failed_login_attempts (fst (analyze_all aws events self)) =
      fst (check_all events (failed_login_attempts self)).
Proof.
  induction events as [|e events IH]; intros self Hall.
  - split; reflexivity.
  - apply Forall_cons in Hall as [(Ha & Hd & Hq) Hall].
    assert (dict_is_empty e = false) as Hne.
    { unfold analysis_log_missing in Ha. unfold dict_is_empty.
      destruct (timestamp e), (event_id e), (event_type e); try reflexivity;
        discriminate. }
    pose proof (analyze_event_result aws e self Hne) as Hres.
    pose proof (analyze_event_attempts aws e self Hne) as Hatt.
    rewrite Ha in Hres, Hatt. rewrite Hd in Hres.
    rewrite (only_login_rule_decides _ _ Hq) in Hres.
    cbn [analyze_all check_all].
    destruct (analyze_event aws (Some e) self) as [self' r].
    cbn [fst snd] in Hres, Hatt.
    destruct (_check_failed_login_pattern (failed_login_attempts self) e)
      as [attempts' c].
    cbn [fst snd] in Hres, Hatt.
    specialize (IH self' Hall). rewrite Hatt in IH.
    destruct (analyze_all aws events self') as [self'' rs].
    destruct (check_all events attempts') as [attempts'' cs].
    cbn [fst snd] in *. destruct IH as [-> ->].
    split; [|reflexivity].
    cbn [map]. f_equal. rewrite Hres. destruct c; reflexivity.
Qed.

(** C2 (failed-login feed), as the code has it.  [failed_login] events of
    one [(user_id, source_ip)] pair are fed to a monitor whose counter
    dict has no entry for the pair.  Rule 5 yields no candidate for the
    first two events and the BRUTE_FORCE_ATTACK candidate with score 8
    for every event from the third on.  [analyze_event] returns just that
    when no other rule fires on the events and they carry the keys the
    narration reads ([user_id], [source_ip], [event_id], [resource]);
    [reset_monitoring_state] empties the counter dict. *)
Theorem failed_login_feed (self : SecurityMonitor W) (events : list Event)
    (user ip : option string) :
  Forall (fun e => event_type e = Some "failed_login" ∧
                   user_id e = user ∧ source_ip e = ip) events →
  failed_login_attempts self !! (fmt user ++ "@" ++ fmt ip) = None →
  let expected (i : nat) : option Threat :=
    if (i <? 2)%nat then None
    else Some (brute_force_candidate (Z.of_nat i + 1)) in
  length (snd (check_all events (failed_login_attempts self))) = length events ∧
  (∀ i r, snd (check_all events (failed_login_attempts self)) !! i = Some r →
          r = expected i) ∧
  (is_Some user → is_Some ip →
   Forall (fun e => only_login_rule e ∧
                    is_Some (event_id e) ∧ is_Some (resource e)) events →
   length (snd (analyze_all aws events self)) = length events ∧
   ∀ i r, snd (analyze_all aws events self) !! i = Some r →
          r = Ok (expected i)) ∧
  failed_login_attempts
    (fst (reset_monitoring_state (fst (analyze_all aws events self)))) = ∅.
Proof.
  intros Hall Hfresh expected.
  assert (Forall (fun e => event_type e = Some "failed_login" ∧
                           login_key e = fmt user ++ "@" ++ fmt ip) events)
    as Hkey.
  { eapply Forall_impl; [exact Hall|]. cbn. intros e (Ht & Hu & Hi).
    split; [assumption|]. unfold login_key. rewrite Hu, Hi. reflexivity. }
  assert (∀ i r, snd (check_all events (failed_login_attempts self)) !! i
                 = Some r → r = expected i) as Hrule.
  { intros i r Hi.
    rewrite (check_all_lookup events _ _ Hkey i r Hi), Hfresh.
    unfold expected. cbn zeta. unfold default; cbn [from_option id].
    destruct (Nat.ltb_spec i 2).
    - rewrite bool_decide_eq_false_2 by lia. reflexivity.
    - rewrite bool_decide_eq_true_2 by lia. do 2 f_equal. }
  split; [apply check_all_length|].
  split; [exact Hrule|]. split; [|reflexivity].
  intros [u Hu] [a Ha] Hquiet. subst user ip.
  assert (Forall (fun e => analysis_log_missing e = None ∧
                           detection_log_missing e = None ∧
                           only_login_rule e) events) as Hgood.
  { apply Forall_forall. intros e He.
    rewrite Forall_forall in Hall, Hquiet.
    destruct (Hall e He) as (Ht & Hu & Hi).
    destruct (Hquiet e He) as (Hq & [eid Heid] & [res Hres]).
    unfold analysis_log_missing, detection_log_missing.
    rewrite Ht, Hu, Hi, Heid, Hres. auto. }
  destruct (analyze_all_only_login_rule events self Hgood) as [Hres _].
  rewrite Hres. split.
  - rewrite length_map. apply check_all_length.
  - intros i r Hi. rewrite list_lookup_fmap in Hi.
    destruct (snd (check_all events (failed_login_attempts self)) !! i)
      as [c|] eqn:Hc; [|discriminate].
    injection Hi as <-. f_equal. apply Hrule. exact Hc.
Qed.

End FailedLogin.

Lemma failed_login_feed_witness :
  Forall (fun e => event_type e = Some "failed_login" ∧
                   user_id e = Some "user001" ∧
                   source_ip e = Some "10.0.0.5")
    [plain_failed_login; plain_failed_login; plain_failed_login;
     plain_failed_login] ∧
  failed_login_attempts (SecurityMonitor.init tt) !! "user001@10.0.0.5" = None ∧
  map (fun r => match r with
                | Ok (Some t) => Some (threat_type t, risk_score t)
                | _ => None
                end)
      (snd (analyze_all aws_up
              [plain_failed_login; plain_failed_login; plain_failed_login;
               plain_failed_login] (SecurityMonitor.init tt)))
  = [None; None; Some ("BRUTE_FORCE_ATTACK", 8); Some ("BRUTE_FORCE_ATTACK", 8)].
Proof.
  assert (Forall (fun e => event_type e = Some "failed_login" ∧
                           user_id e = Some "user001" ∧
                           source_ip e = Some "10.0.0.5")
            [plain_failed_login; plain_failed_login; plain_failed_login;
             plain_failed_login]) as H1
    by (repeat constructor).
  split; [exact H1|]. split; [reflexivity|].
  destruct (failed_login_feed aws_up (SecurityMonitor.init tt)
              [plain_failed_login; plain_failed_login; plain_failed_login;
               plain_failed_login] (Some "user001") (Some "10.0.0.5")
              H1 eq_refl) as (_ & _ & H & _).
  assert (Forall (fun e => only_login_rule e ∧
                           is_Some (event_id e) ∧ is_Some (resource e))
            [plain_failed_login; plain_failed_login; plain_failed_login;
             plain_failed_login]) as H2.
  { repeat constructor; try reflexivity; eexists; reflexivity. }
  destruct (H (ex_intro _ _ eq_refl) (ex_intro _ _ eq_refl) H2) as [Hlen Hres].
  destruct (snd (analyze_all aws_up _ _)) as [|r0 [|r1 [|r2 [|r3 [|r4 rs]]]]];
    try discriminate Hlen.
  rewrite (Hres 0%nat r0 eq_refl), (Hres 1%nat r1 eq_refl),
    (Hres 2%nat r2 eq_refl), (Hres 3%nat r3 eq_refl).
  reflexivity.
Defined.

(** The claim of C2 as written fails on the events the generator builds
    from its [failed_login] template: the keyword rule and the indicator
    rule fire on each of them, so the first event already yields a threat
    and the third yields THREAT_INDICATORS_DETECTED with score 9, which
    outranks the 8 of BRUTE_FORCE_ATTACK. *)
Lemma failed_login_feed_counterexample :
  event_type generated_failed_login = Some "failed_login" ∧
  map (fun r => match r with
                | Ok (Some t) => Some (threat_type t, risk_score t)
                | _ => None
                end)
      (snd (analyze_all aws_up
              [generated_failed_login; generated_failed_login;
               generated_failed_login] (SecurityMonitor.init tt)))
  = [Some ("THREAT_INDICATORS_DETECTED", 9);
     Some ("THREAT_INDICATORS_DETECTED", 9);
     Some ("THREAT_INDICATORS_DETECTED", 9)].
Proof. split; vm_compute; reflexivity. Qed.

(** ** What a call changes *)

Section Frame.
Context {W : Type} (aws : AWSIntegration W).

(** An event of another type leaves the counter dict as it was, whether
    the call returns or raises. *)
Lemma analyze_event_frame_other_types
    (event : option Event) (self : SecurityMonitor W) :
  (∀ e, event = Some e → event_type e ≠ Some "failed_login") →
  failed_login_attempts (fst (analyze_event aws event self)) =
  failed_login_attempts self.
Proof.
  intros Hty. destruct event as [e|]; [|reflexivity].
  destruct (dict_is_empty e) eqn:Hne.
  - rewrite analyze_event_empty by assumption. reflexivity.
  - rewrite analyze_event_attempts by assumption.
    destruct (analysis_log_missing e); [reflexivity|].
    rewrite check_failed_login_pattern_run.
    rewrite bool_decide_eq_false_2 by (apply Hty; reflexivity).
    reflexivity.
Qed.

(** A [failed_login] event that carries [user_id] and [source_ip] adds
    one to the entry of its key and touches no other entry, whichever
    rule wins and whether or not the second narration raises. *)
Lemma analyze_event_frame_failed_login
    (event : Event) (self : SecurityMonitor W) (key : string) :
  event_type event = Some "failed_login" →
  is_Some (user_id event) → is_Some (source_ip event) →
  failed_login_attempts (fst (analyze_event aws (Some event) self)) !! key =
  if decide (key = login_key event)
  then Some (default 0 (failed_login_attempts self !! key) + 1)
  else failed_login_attempts self !! key.
Proof.
  intros Ht [u Hu] [ip Hip].
  assert (dict_is_empty event = false) as Hne.
  { unfold dict_is_empty.
    destruct (timestamp event), (event_id event); try rewrite Ht;
      reflexivity. }
  rewrite analyze_event_attempts by assumption.
  unfold analysis_log_missing. rewrite Ht, Hu, Hip.
  rewrite check_failed_login_pattern_run.
  rewrite bool_decide_eq_true_2 by assumption. cbn [fst].
  destruct (decide (key = login_key event)) as [->|Hk].
  - apply lookup_insert_eq.
  - apply lookup_insert_ne. congruence.
Qed.

(** C10 (frame of the counter update).  The claim is that every
    [failed_login] event adds one to the entry of the key formed from
    [(user_id, source_ip)].  A [failed_login] event without the [user_id]
    key has the key [None@10.0.0.5] under rule 5, but the call leaves
    through [KeyError('user_id')] in [_log_event_analysis] before rule 5
    runs, and the monitor is unchanged. *)
Theorem anonymous_failed_login_not_counted (self : SecurityMonitor W) :
  event_type anonymous_failed_login = Some "failed_login" ∧
  login_key anonymous_failed_login = "None@10.0.0.5" ∧
  fst (_check_failed_login_pattern (failed_login_attempts self)
         anonymous_failed_login) !! "None@10.0.0.5" =
    Some (default 0 (failed_login_attempts self !! "None@10.0.0.5") + 1) ∧
  analyze_event aws (Some anonymous_failed_login) self =
    (self, Raise (KeyError "user_id")).
Proof.
  split; [reflexivity|]. split; [reflexivity|]. split; [|reflexivity].
  rewrite check_failed_login_pattern_run. cbn [fst].
  rewrite bool_decide_eq_true_2 by reflexivity. apply lookup_insert_eq.
Qed.

End Frame.

(** ** Telemetry failures *)

(** The only exceptions that leave [analyze_event] are the [KeyError]s of
    its two narrations. *)
Lemma analyze_event_raises_only_key_errors {W} (aws : AWSIntegration W)
    (event : option Event) (self : SecurityMonitor W) (e : exn) :
  snd (analyze_event aws event self) = Raise e →
  ∃ ev key, event = Some ev ∧ e = KeyError key ∧
            (analysis_log_missing ev = Some key ∨
             detection_log_missing ev = Some key).
Proof.
  destruct event as [ev|]; [|discriminate].
  destruct (dict_is_empty ev) eqn:Hne.
  - rewrite analyze_event_empty by assumption. discriminate.
  - rewrite analyze_event_result by assumption.
    destruct (analysis_log_missing ev) as [k|] eqn:Ha.
    + intros [= <-]. eauto 6.
    + destruct (decide_threat _ _); [|discriminate].
      destruct (detection_log_missing ev) as [k|] eqn:Hd; [|discriminate].
      intros [= <-]. eauto 6.
Qed.

(** C8 (telemetry failures are swallowed).  Two monitors with the same
    counter dict and any two collaborators, whatever their calls return
    or raise, give the same outcome for every event and end with the same
    counter dict; both telemetry routines return normally with every
    collaborator. *)
Theorem telemetry_never_changes_analysis {W1 W2 : Type}
    (aws1 : AWSIntegration W1) (aws2 : AWSIntegration W2)
    (self1 : SecurityMonitor W1) (self2 : SecurityMonitor W2)
    (event : option Event) :
  failed_login_attempts self1 = failed_login_attempts self2 →
  snd (analyze_event aws1 event self1) = snd (analyze_event aws2 event self2) ∧
  failed_login_attempts (fst (analyze_event aws1 event self1)) =
    failed_login_attempts (fst (analyze_event aws2 event self2)) ∧
  (∀ e t, snd (_send_to_aws aws1 e t self1) = Ok tt) ∧
  (∀ e, snd (_send_event_metrics aws1 e self1) = Ok tt).
Proof.
  intros Hsame. split; [|split; [|split]].
  - destruct event as [e|]; [|reflexivity].
    destruct (dict_is_empty e) eqn:Hne.
    + rewrite !analyze_event_empty by assumption. reflexivity.
    + rewrite !analyze_event_result by assumption. rewrite Hsame. reflexivity.
  - destruct event as [e|]; [|exact Hsame].
    destruct (dict_is_empty e) eqn:Hne.
    + rewrite !analyze_event_empty by assumption. exact Hsame.
    + rewrite !analyze_event_attempts by assumption. rewrite Hsame.
      reflexivity.
  - intros e t. destruct (send_to_aws_swallows aws1 e t self1) as [w ->].
    reflexivity.
  - intros e. destruct (send_event_metrics_swallows aws1 e self1) as [w ->].
    reflexivity.
Qed.

Lemma telemetry_never_changes_analysis_witness :
  failed_login_attempts (SecurityMonitor.init tt) =
    failed_login_attempts (SecurityMonitor.init (@nil string)) ∧
  snd (analyze_event aws_down (Some scenario_event_full)
         (SecurityMonitor.init tt)) =
  snd (analyze_event aws_recording (Some scenario_event_full)
         (SecurityMonitor.init [])).
Proof.
  split; [reflexivity|].
  apply (telemetry_never_changes_analysis aws_down aws_recording
           (SecurityMonitor.init tt) (SecurityMonitor.init [])
           (Some scenario_event_full)).
  reflexivity.
Defined.

(** The collaborator is really called: with the recording collaborator the
    five calls of [_send_to_aws] arrive in order, and with the failing one
    the first call raises and the result is the same. *)
Lemma telemetry_calls_made :
  aws_integration
    (fst (analyze_event aws_recording (Some scenario_event_full)
            (SecurityMonitor.init []))) =
  ["send_threat_alert"; "send_security_metric"; "trigger_lambda_response";
   "create_log_stream"; "send_security_log"] ∧
  snd (send_threat_alert aws_down
         {| p_event_id := None; p_threat_type := None; p_risk_score := None;
            p_source_ip := None; p_user_id := None; p_resource := None;
            p_description := None; p_event_type := None;
            p_severity := None |} tt) =
  Raise (Exception "EndpointConnectionError") ∧
  snd (analyze_event aws_down (Some scenario_event_full)
         (SecurityMonitor.init tt)) = Ok (Some keyword_candidate).
Proof. repeat split; vm_compute; reflexivity. Qed.

(** ** The response handler *)

Lemma execute_response_actions_run
    (response_config : ResponseConfig) (t : Threat) (e : Event) (p : Process) :
  _execute_response_actions response_config t e p =
  ({| handler := handler p;
      console :=
        (console p ++ flat_map (action_output t e) (actions response_config))%list |},
   Ok tt).
Proof.
  unfold _execute_response_actions.
  generalize (actions response_config) as l. intros l. revert p.
  induction l as [|a l IH]; intros p.
  - cbn. rewrite app_nil_r. destruct p; reflexivity.
  - cbn [for_each flat_map].
    unfold bind at 1. unfold bind at 1. unfold emit at 1, modify at 1.
    unfold bind at 1. unfold _simulate_action_execution at 1.
    unfold emit at 1, modify at 1. unfold emit at 1, modify at 1.
    cbn [handler console]. rewrite IH. cbn [handler console].
    unfold action_output at 2. rewrite <- !app_assoc. reflexivity.
Qed.

Lemma handle_threat_run (now : string) (t : Threat) (e : Event) (p : Process) :
  dict_is_empty e = false →
  handle_threat now (Some t) (Some e) p =
  ({| handler :=
        {| response_history :=
             (response_history (handler p) ++ [response_record now t e])%list;
           active_responses := active_responses (handler p) |};
      console := (console p ++ response_output t e)%list |},
   Ok None).
Proof.
  intros Hne. unfold handle_threat. rewrite Hne.
  unfold bind at 1. unfold emit at 1, modify at 1.
  unfold bind at 1. rewrite execute_response_actions_run.
  unfold bind at 1. unfold _log_response.
  unfold bind at 1. unfold modify at 1. unfold emit at 1, modify at 1.
  cbn [handler console response_history active_responses].
  unfold response_output, response_record, resolved_policy.
  destruct (escalation_required _).
  - unfold _escalate_incident, bind, emit, modify, ret.
    cbn [handler console]. rewrite <- !app_assoc. reflexivity.
  - unfold bind, emit, modify, ret.
    cbn [handler console]. rewrite <- !app_assoc. reflexivity.
Qed.

Lemma handle_threat_invalid (now : string)
    (threat : option Threat) (event : option Event) (p : Process) :
  threat = None ∨ event = None ∨
  (∃ e, event = Some e ∧ dict_is_empty e = true) →
  handle_threat now threat event p =
  ({| handler := handler p;
      console :=
        (console p ++ [LoggerError "Invalid threat information or event data"])%list |},
   Ok None).
Proof.
  intros [->|[->|(e & -> & He)]].
  - destruct event; reflexivity.
  - destruct threat; reflexivity.
  - destruct threat; [|reflexivity]. unfold handle_threat. rewrite He.
    reflexivity.
Qed.

Lemma executed_actions_of_response (t : Threat) (e : Event) :
  executed_actions (response_output t e) =
  actions (resolved_policy (threat_type t)).
Proof.
  unfold response_output. cbn zeta.
  generalize (resolved_policy (threat_type t)) as cfg. intros cfg.
  unfold executed_actions. rewrite !omap_app.
  replace (omap _ [LoggerInfo _]) with (@nil string) by reflexivity.
  replace (omap _ (if escalation_required cfg then _ else _))
    with (@nil string) by (destruct (escalation_required cfg); reflexivity).
  cbn [omap app]. rewrite app_nil_r.
  induction (actions cfg) as [|a l IH]; [reflexivity|].
  cbn. f_equal. exact IH.
Qed.

(** C3 (response dispatch), as the code has it.  For every threat
    candidate, whatever its [threat_type], and every non-empty event,
    [handle_threat] returns no value; it appends one record to the
    response history whose [actions_executed] is the action list of the
    resolved policy entry (so of the same length), executes exactly those
    actions in order, and closes its console output with the count of
    actions executed. *)
Theorem handle_threat_appends_record
    (now : string) (t : Threat) (e : Event) (p : Process) :
  dict_is_empty e = false →
  let response_config := resolved_policy (threat_type t) in
  let p' := fst (handle_threat now (Some t) (Some e) p) in
  snd (handle_threat now (Some t) (Some e) p) = Ok None ∧
  (∃ record,
     response_history (handler p') =
       (response_history (handler p) ++ [record])%list ∧
     r_threat_type record = threat_type t ∧
     r_actions_executed record = actions response_config ∧
     length (r_actions_executed record) = length (actions response_config)) ∧
  (∃ out,
     console p' = (console p ++ out)%list ∧
     executed_actions out = actions response_config ∧
     last out = Some (Completed (length (actions response_config)))).
Proof.
  intros Hne. cbn zeta. rewrite handle_threat_run by assumption.
  cbn [fst snd handler console response_history].
  split; [reflexivity|]. split.
  - exists (response_record now t e). repeat split; reflexivity.
  - exists (response_output t e). split; [reflexivity|]. split.
    + apply executed_actions_of_response.
    + unfold response_output. cbn zeta.
      rewrite !app_assoc. apply last_snoc.
Qed.

Lemma handle_threat_appends_record_witness :
  dict_is_empty scenario_event_full = false ∧
  snd (handle_threat "2024-01-01T00:00:00" (Some unknown_candidate)
         (Some scenario_event_full) fresh_process) = Ok None ∧
  ∃ record,
    response_history
      (handler (fst (handle_threat "2024-01-01T00:00:00"
                       (Some unknown_candidate) (Some scenario_event_full)
                       fresh_process))) = [record] ∧
    length (r_actions_executed record) = 3%nat.
Proof.
  split; [reflexivity|].
  destruct (handle_threat_appends_record "2024-01-01T00:00:00"
              unknown_candidate scenario_event_full fresh_process eq_refl)
    as (Hret & (record & Hh & _ & _ & Hlen) & _).
  split; [exact Hret|].
  exists record. split; [exact Hh|]. rewrite Hlen. reflexivity.
Defined.

(** The claim of C3 as written fails: the call returns no record on any
    input, since the function has no [return] with a value; and for an
    event that is present but empty the guard [not original_event] ends
    the call before anything is appended. *)
Lemma handle_threat_returns_no_record :
  dict_is_empty scenario_event_full = false ∧
  snd (handle_threat "2024-01-01T00:00:00" (Some keyword_candidate)
         (Some scenario_event_full) fresh_process) = Ok None ∧
  (¬ ∃ record : ResponseRecord,
       snd (handle_threat "2024-01-01T00:00:00" (Some keyword_candidate)
              (Some scenario_event_full) fresh_process) = Ok (Some record)) ∧
  handle_threat "2024-01-01T00:00:00" (Some keyword_candidate)
    (Some empty_event) fresh_process =
  ({| handler := ResponseHandler.init;
      console := [LoggerError "Invalid threat information or event data"] |},
   Ok None).
Proof.
  split; [reflexivity|]. split; [reflexivity|]. split; [|reflexivity].
  intros [record H]. vm_compute in H. discriminate.
Qed.

Lemma unconfigured_type_lookup (threat_type : string) :
  threat_type ∉ configured_types → response_actions !! threat_type = None.
Proof.
  intros Hnot.
  assert (Forall (fun k => k ≠ threat_type) configured_types) as Hall.
  { apply Forall_forall. intros k Hk ->. contradiction. }
  unfold configured_types in Hall.
  repeat match goal with
         | H : Forall _ (_ :: _) |- _ => apply Forall_cons in H as [? H]
         end.
  unfold response_actions.
  rewrite !lookup_insert_ne by assumption. apply lookup_empty.
Qed.

Lemma unsimulated_action_lookup (action : string) (t : Threat) (e : Event) :
  action ∉ simulated_actions → action_simulations t e !! action = None.
Proof.
  intros Hnot.
  assert (Forall (fun k => k ≠ action) simulated_actions) as Hall.
  { apply Forall_forall. intros k Hk ->. contradiction. }
  unfold simulated_actions in Hall.
  repeat match goal with
         | H : Forall _ (_ :: _) |- _ => apply Forall_cons in H as [? H]
         end.
  unfold action_simulations.
  rewrite !lookup_insert_ne by assumption. apply lookup_empty.
Qed.

(** [handle_threat] returns normally on every input. *)
Lemma handle_threat_total (now : string)
    (threat : option Threat) (event : option Event) (p : Process) :
  snd (handle_threat now threat event p) = Ok None.
Proof.
  destruct threat as [t|]; [|rewrite handle_threat_invalid by auto; reflexivity].
  destruct event as [e|]; [|rewrite handle_threat_invalid by auto; reflexivity].
  destruct (dict_is_empty e) eqn:He.
  - rewrite handle_threat_invalid by eauto. reflexivity.
  - rewrite handle_threat_run by assumption. reflexivity.
Qed.

(** C6 (fallbacks).  A threat type outside the nine configured ones
    resolves to the default entry: actions log_incident,
    alert_security_team, increase_monitoring, priority medium, escalation
    required, and that is what [handle_threat] records for it.  An action
    tag without a routine of its own runs the generic "executed" print
    and returns normally.  [handle_threat] returns normally for every
    threat and event. *)
Theorem unknown_types_and_actions_fall_back
    (now : string) (t : Threat) (e : Event) (p : Process) (action : string) :
  (threat_type t ∉ configured_types →
   resolved_policy (threat_type t) = _get_default_response ∧
   actions (resolved_policy (threat_type t)) =
     ["log_incident"; "alert_security_team"; "increase_monitoring"] ∧
   priority (resolved_policy (threat_type t)) = "medium" ∧
   escalation_required (resolved_policy (threat_type t)) = true ∧
   (dict_is_empty e = false →
    response_history (handler (fst (handle_threat now (Some t) (Some e) p))) =
    (response_history (handler p) ++
     [{| r_timestamp := now;
         r_threat_type := threat_type t;
         r_event_id := event_id e;
         r_risk_score := risk_score t;
         r_actions_executed :=
           ["log_incident"; "alert_security_team"; "increase_monitoring"];
         r_priority := "medium";
         r_escalation_required := true |}])%list)) ∧
  (action ∉ simulated_actions →
   _simulate_action_execution action t e p =
   ({| handler := handler p;
       console := (console p ++ [Simulated (generic_executed action)])%list |},
    Ok tt)) ∧
  (∀ threat event, ∃ r, snd (handle_threat now threat event p) = Ok r).
Proof.
  split; [|split].
  - intros Hnot.
    assert (resolved_policy (threat_type t) = _get_default_response) as Hdef.
    { unfold resolved_policy.
      rewrite unconfigured_type_lookup by assumption. reflexivity. }
    rewrite Hdef. repeat split; try reflexivity.
    intros Hne. rewrite handle_threat_run by assumption.
    cbn [fst handler response_history]. unfold response_record.
    rewrite Hdef. reflexivity.
  - intros Hnot. unfold _simulate_action_execution.
    rewrite unsimulated_action_lookup by assumption. reflexivity.
  - intros threat event. exists None. apply handle_threat_total.
Qed.

Lemma unknown_types_and_actions_fall_back_witness :
  (threat_type unknown_candidate ∉ configured_types) ∧
  ("isolate_affected_systems" ∉ simulated_actions) ∧
  resolved_policy (threat_type unknown_candidate) = _get_default_response ∧
  snd (_simulate_action_execution "isolate_affected_systems"
         unknown_candidate scenario_event_full fresh_process) = Ok tt.
Proof.
  assert (threat_type unknown_candidate ∉ configured_types) as H1.
  { vm_compute. intros H.
    repeat (apply elem_of_cons in H as [H|H]; [discriminate|]).
    apply elem_of_nil in H. exact H. }
  assert ("isolate_affected_systems" ∉ simulated_actions) as H2.
  { intros H.
    repeat (apply elem_of_cons in H as [H|H]; [discriminate|]).
    apply elem_of_nil in H. exact H. }
  destruct (unknown_types_and_actions_fall_back "2024-01-01T00:00:00"
              unknown_candidate scenario_event_full fresh_process
              "isolate_affected_systems") as (Hty & Hact & _).
  split; [exact H1|]. split; [exact H2|]. split.
  - apply (Hty H1).
  - rewrite (Hact H2). reflexivity.
Defined.

(** C7 (fail fast).  When the threat or the event is [None] (or the
    event is the empty dict), [handle_threat] returns [None] after one
    [logger.error]; the handler, its history included, is unchanged, no
    action is executed and no escalation runs. *)
Theorem handle_threat_fails_fast (now : string)
    (threat : option Threat) (event : option Event) (p : Process) :
  threat = None ∨ event = None →
  let p' := fst (handle_threat now threat event p) in
  snd (handle_threat now threat event p) = Ok None ∧
  handler p' = handler p ∧
  console p' =
    (console p ++ [LoggerError "Invalid threat information or event data"])%list ∧
  executed_actions (console p') = executed_actions (console p) ∧
  simulations_run (console p') = simulations_run (console p) ∧
  escalations (console p') = escalations (console p).
Proof.
  intros H. cbn zeta.
  rewrite handle_threat_invalid by (destruct H; auto).
  cbn [fst snd handler console].
  unfold executed_actions, simulations_run, escalations.
  rewrite !omap_app. cbn [omap]. rewrite !app_nil_r.
  repeat split; reflexivity.
Qed.

Lemma handle_threat_fails_fast_witness :
  (@None Threat = None ∨ Some scenario_event_full = None) ∧
  handler (fst (handle_threat "2024-01-01T00:00:00" None
                  (Some scenario_event_full) fresh_process)) =
  handler fresh_process.
Proof.
  assert (@None Threat = None ∨ Some scenario_event_full = None) as H
    by (left; reflexivity).
  split; [exact H|].
  apply (handle_threat_fails_fast "2024-01-01T00:00:00" None
           (Some scenario_event_full) fresh_process H).
Defined.

(** ** Risk scores *)

Section RiskScores.
Context {W : Type} (aws : AWSIntegration W).

Lemma analyze_event_in_range
    (event : option Event) (self : SecurityMonitor W) (t : Threat) :
  snd (analyze_event aws event self) = Ok (Some t) → in_range (risk_score t).
Proof.
  destruct event as [e|]; [|discriminate].
  destruct (dict_is_empty e) eqn:Hne.
  - rewrite analyze_event_empty by assumption. discriminate.
  - rewrite analyze_event_result by assumption.
    destruct (analysis_log_missing e); [discriminate|].
    destruct (decide_threat (failed_login_attempts self) e) as [t'|] eqn:Hd;
      [|discriminate].
    destruct (detection_log_missing e); [discriminate|].
    intros [= <-]. eapply decide_threat_in_range. exact Hd.
Qed.

Lemma handle_threat_in_range (now : string)
    (t : Threat) (event : Event) (p : Process) :
  in_range (risk_score t) →
  history_in_range p →
  history_in_range (fst (handle_threat now (Some t) (Some event) p)).
Proof.
  intros Ht Hp. destruct (dict_is_empty event) eqn:He.
  - rewrite handle_threat_invalid by eauto. exact Hp.
  - rewrite handle_threat_run by assumption.
    unfold history_in_range in *. cbn [fst handler response_history].
    apply Forall_app. split; [exact Hp|].
    constructor; [exact Ht|constructor].
Qed.

Lemma cycle_in_range (now : string) (event : Event) (sys : System W) :
  history_in_range (response_handler sys) →
  history_in_range (response_handler (fst (cycle aws now event sys))).
Proof.
  intros Hp. unfold cycle.
  unfold bind at 1. unfold modify at 1.
  unfold bind at 1. unfold on_monitor at 1.
  cbn [security_monitor response_handler event_count threat_count].
  pose proof (analyze_event_in_range (Some event) (security_monitor sys)) as Hr.
  destruct (analyze_event aws (Some event) (security_monitor sys))
    as [monitor [[t|]|err]]; cbn [snd] in Hr; try exact Hp.
  unfold bind at 1. unfold modify at 1.
  unfold bind at 1. unfold on_handler at 1.
  cbn [security_monitor response_handler event_count threat_count].
  pose proof (handle_threat_in_range now t event (response_handler sys)
                (Hr t eq_refl) Hp) as Hh.
  pose proof (handle_threat_total now (Some t) (Some event)
                (response_handler sys)) as Hok.
  destruct (handle_threat now (Some t) (Some event) (response_handler sys))
    as [process r]. cbn [fst snd] in Hh, Hok. subst r. exact Hh.
Qed.

(** C9 (risk scores stay in 0..10).  Every candidate of every rule and
    every candidate that [analyze_event] returns has a score between 0
    and 10.  A response to a candidate in that range, and clearing the
    history, keep every record of the history in that range; so when the
    monitoring loop starts from such a history, the history after any
    feed of events is such a history. *)
Theorem risk_scores_in_range (feed : list (string * Event)) (sys : System W) :
  history_in_range (response_handler sys) →
  (∀ attempts event t,
     Some t ∈ candidates attempts event → in_range (risk_score t)) ∧
  (∀ event self t,
     snd (analyze_event aws event self) = Ok (Some t) →
     in_range (risk_score t)) ∧
  (∀ now t event,
     in_range (risk_score t) →
     history_in_range
       (fst (handle_threat now (Some t) event (response_handler sys)))) ∧
  history_in_range (fst (clear_response_history (response_handler sys))) ∧
  history_in_range (response_handler (fst (main_loop aws feed sys))).
Proof.
  intros Hp. split; [|split; [|split; [|split]]].
  - apply candidates_in_range.
  - apply analyze_event_in_range.
  - intros now t [event|] Ht.
    + apply handle_threat_in_range; assumption.
    + rewrite handle_threat_invalid by auto. exact Hp.
  - constructor.
  - revert sys Hp. induction feed as [|[now event] feed IH]; intros sys Hp.
    + exact Hp.
    + cbn [main_loop]. unfold bind.
      pose proof (cycle_in_range now event sys Hp) as Hc.
      destruct (cycle aws now event sys) as [sys' [[]|err]]; cbn [fst] in Hc.
      * apply IH. exact Hc.
      * exact Hc.
Qed.

End RiskScores.

Lemma risk_scores_in_range_witness :
  history_in_range (response_handler (Main.start tt)) ∧
  history_in_range
    (response_handler
       (fst (main_loop aws_up
               [("2024-01-01T00:00:00", scenario_event_full);
                ("2024-01-01T00:00:02", generated_failed_login)]
               (Main.start tt)))) ∧
  length (response_history (handler (response_handler
       (fst (main_loop aws_up
               [("2024-01-01T00:00:00", scenario_event_full);
                ("2024-01-01T00:00:02", generated_failed_login)]
               (Main.start tt)))))) = 2%nat.
Proof.
  assert (history_in_range (response_handler (Main.start tt))) as H0
    by constructor.
  split; [exact H0|]. split.
  - apply (risk_scores_in_range aws_up
             [("2024-01-01T00:00:00", scenario_event_full);
              ("2024-01-01T00:00:02", generated_failed_login)]
             (Main.start tt) H0).
  - reflexivity.
Defined.

(** * Further properties of the monitor *)

#[local] Set Warnings "-clear-no-such-hyp".

(** ** Strings *)

Lemma prefix_app (needle haystack : string) :
  String.prefix needle haystack = true ↔ ∃ after, haystack = needle ++ after.
Proof.
  revert haystack. induction needle as [|c needle IH]; intros haystack.
  - destruct haystack; cbn; split; eauto.
  - destruct haystack as [|d haystack]; cbn.
    + split; [discriminate|]. intros [after H]. discriminate.
    + destruct (ascii_dec c d) as [->|Hne].
      * rewrite IH. split.
        -- intros [after ->]. exists after. reflexivity.
        -- intros [after H]. injection H as ->. eauto.
      * split; [discriminate|]. intros [after H]. injection H as ? ?.
        congruence.
Qed.

(** [contains] is the substring test of [in]. *)
Lemma contains_substring (needle haystack : string) :
  contains needle haystack = true ↔ is_substring needle haystack.
Proof.
  unfold is_substring. induction haystack as [|c haystack IH].
  - cbn [contains]. destruct (String.prefix needle "") eqn:Hp.
    + apply prefix_app in Hp as [after ->]. split; [|reflexivity].
      intros _. exists "", after. reflexivity.
    + split; [discriminate|]. intros (before & after & H).
      destruct before; [|discriminate]. cbn in H.
      assert (String.prefix needle "" = true) as Hp'
        by (apply prefix_app; eauto).
      congruence.
  - cbn [contains]. destruct (String.prefix needle (String c haystack)) eqn:Hp.
    + apply prefix_app in Hp as [after Hp]. split; [|reflexivity].
      intros _. exists "", after. exact Hp.
    + rewrite IH. split.
      * intros (before & after & ->). exists (String c before), after.
        reflexivity.
      * intros (before & after & H). destruct before as [|b before].
        -- cbn in H.
           assert (String.prefix needle (String c haystack) = true) as Hp'
             by (apply prefix_app; eauto).
           congruence.
        -- injection H as -> ->. eauto.
Qed.



Lemma find_first {A} (f : A -> bool) (l : list A) (x : A) :
  find f l = Some x →
  f x = true ∧
  ∃ before after, l = (before ++ x :: after)%list ∧
                  Forall (fun y => f y = false) before.
Proof.
  induction l as [|y l IH]; [discriminate|].
  cbn. destruct (f y) eqn:Hy.
  - intros [= ->]. split; [assumption|]. exists [], l. split; [reflexivity|].
    constructor.
  - intros H. destruct (IH H) as (Hx & before & after & -> & Hb).
    split; [assumption|]. exists (y :: before), after.
    split; [reflexivity|]. constructor; assumption.
Qed.

Lemma find_absent {A} (f : A -> bool) (l : list A) :
  find f l = None ↔ Forall (fun y => f y = false) l.
Proof.
  induction l as [|y l IH]; cbn.
  - split; [constructor|reflexivity].
  - destruct (f y) eqn:Hy.
    + split; [discriminate|]. intros H. apply Forall_cons in H as [H _].
      congruence.
    + rewrite IH. split.
      * intros H. constructor; assumption.
      * intros H. apply Forall_cons in H as [_ H]. exact H.
Qed.

(** ** The keyword rule *)

(** X1.  The keyword rule reports the first critical keyword, in the
    order of the list, that occurs in the lower-cased description; only
    when no critical keyword occurs does it look for the first suspicious
    keyword; and it yields nothing exactly when no keyword of either list
    occurs. *)
Theorem keyword_rule_tiers (event : Event) :
  let text := scanned_text event in
  match _check_threat_keywords event with
  | Some t =>
      (∃ keyword before after,
         critical_keywords = (before ++ keyword :: after)%list ∧
         is_substring keyword text ∧
         Forall (fun k => ¬ is_substring k text) before ∧
         t = {| threat_type := "KEYWORD_THREAT";
                threat_description :=
                  "Critical security keyword detected: '" ++ keyword ++ "'";
                risk_score := 9;
                detection_method := "keyword_analysis" |}) ∨
      (Forall (fun k => ¬ is_substring k text) critical_keywords ∧
       ∃ keyword before after,
         suspicious_keywords = (before ++ keyword :: after)%list ∧
         is_substring keyword text ∧
         Forall (fun k => ¬ is_substring k text) before ∧
         t = {| threat_type := "SUSPICIOUS_ACTIVITY";
                threat_description :=
                  "Suspicious activity keyword detected: '" ++ keyword ++ "'";
                risk_score := 6;
                detection_method := "keyword_analysis" |})
  | None =>
      Forall (fun k => ¬ is_substring k text)
             (critical_keywords ++ suspicious_keywords)
  end.
Proof.
  assert (∀ text l, Forall (fun y => contains y text = false) l →
                    Forall (fun k => ¬ is_substring k text) l) as Hno.
  { intros text l H. eapply Forall_impl; [exact H|]. cbn. intros k Hk Hs.
    apply contains_substring in Hs. congruence. }
  cbn zeta. unfold _check_threat_keywords. fold (scanned_text event).
  destruct (find _ critical_keywords) as [k|] eqn:Hc.
  - left. apply find_first in Hc as (Hk & before & after & Hl & Hb).
    exists k, before, after. split; [exact Hl|].
    split; [apply contains_substring; exact Hk|].
    split; [apply Hno; exact Hb|reflexivity].
  - apply find_absent in Hc. apply Hno in Hc.
    destruct (find _ suspicious_keywords) as [k|] eqn:Hs.
    + right. split; [exact Hc|].
      apply find_first in Hs as (Hk & before & after & Hl & Hb).
      exists k, before, after. split; [exact Hl|].
      split; [apply contains_substring; exact Hk|].
      split; [apply Hno; exact Hb|reflexivity].
    + apply find_absent in Hs. apply Hno in Hs.
      apply Forall_app. split; assumption.
Qed.


Example keyword_rule_upper_case :
  threat_type <$> _check_threat_keywords
    (set_description "ROOTKIT found; Suspicious binary" empty_event)
  = Some "KEYWORD_THREAT".
Proof. reflexivity. Qed.

(** ** The severity rule *)

(** X3.  The severity rule fires on the exact strings [critical] and
    [high] and on nothing else: an absent severity, [info], [warning]
    and every unknown string, another spelling of [critical] included,
    give no candidate. *)
Theorem severity_rule_exact (event : Event) :
  match _check_event_severity event with
  | Some t =>
      (severity event = Some "critical" ∧
       threat_type t = "CRITICAL_SECURITY_EVENT" ∧ risk_score t = 9) ∨
      (severity event = Some "high" ∧
       threat_type t = "HIGH_RISK_EVENT" ∧ risk_score t = 7)
  | None =>
      severity event ≠ Some "critical" ∧ severity event ≠ Some "high"
  end.
Proof.
  unfold _check_event_severity. cbn zeta.
  destruct (severity event) as [s|]; [|cbn; split; discriminate].
  unfold default at 2; cbn [from_option id].
  unfold severity_levels.
  destruct (decide (s = "info")) as [->|Hi]; [cbn; split; discriminate|].
  rewrite lookup_insert_ne by congruence.
  destruct (decide (s = "warning")) as [->|Hw]; [cbn; split; discriminate|].
  rewrite lookup_insert_ne by congruence.
  destruct (decide (s = "high")) as [->|Hh].
  { cbn. right. repeat split; reflexivity. }
  rewrite lookup_insert_ne by congruence.
  destruct (decide (s = "critical")) as [->|Hc].
  { cbn. left. repeat split; reflexivity. }
  rewrite lookup_insert_ne by congruence. rewrite lookup_empty. cbn.
  split; congruence.
Qed.

Example severity_rule_other_spelling :
  _check_event_severity
    {| timestamp := None; event_id := None; event_type := None;
       severity := Some "CRITICAL"; description := None; source_ip := None;
       user_id := None; resource := None; metadata := None;
       threat_indicators := None |} = None.
Proof. reflexivity. Qed.

(** ** The key of the failed-login counter *)

Lemma no_at_cons (c : ascii) (s : string) :
  ¬ is_substring "@" (String c s) →
  c ≠ "@"%char ∧ ¬ is_substring "@" s.
Proof.
  intros H. split.
  - intros ->. apply H. exists "", s. reflexivity.
  - intros (before & after & ->). apply H.
    exists (String c before), after. reflexivity.
Qed.

Lemma at_separated (u1 u2 i1 i2 : string) :
  ¬ is_substring "@" u1 → ¬ is_substring "@" u2 →
  u1 ++ "@" ++ i1 = u2 ++ "@" ++ i2 → u1 = u2 ∧ i1 = i2.
Proof.
  revert u2. induction u1 as [|c u1 IH]; intros u2 H1 H2 Heq.
  - destruct u2 as [|d u2].
    + injection Heq as Heq. change (i1 = i2) in Heq. subst i2.
      split; reflexivity.
    + apply no_at_cons in H2 as [Hd _]. injection Heq as Hc _. congruence.
  - apply no_at_cons in H1 as [Hc H1]. destruct u2 as [|d u2].
    + injection Heq as Hd _. congruence.
    + apply no_at_cons in H2 as [_ H2]. injection Heq as -> Heq.
      destruct (IH u2 H1 H2 Heq) as [-> ->]. split; reflexivity.
Qed.

(** X4.  Two events whose user ids contain no [@] share a counter key
    only when their user ids and source addresses print the same. *)
Theorem login_key_separates (e1 e2 : Event) :
  ¬ is_substring "@" (fmt (user_id e1)) →
  ¬ is_substring "@" (fmt (user_id e2)) →
  login_key e1 = login_key e2 →
  fmt (user_id e1) = fmt (user_id e2) ∧
  fmt (source_ip e1) = fmt (source_ip e2).
Proof. intros H1 H2 Heq. exact (at_separated _ _ _ _ H1 H2 Heq). Qed.

Lemma no_at_in (s : string) :
  contains "@" s = false → ¬ is_substring "@" s.
Proof. intros H Hs. apply contains_substring in Hs. congruence. Qed.

Lemma login_key_separates_witness :
  ¬ is_substring "@" (fmt (user_id plain_failed_login)) ∧
  ¬ is_substring "@"
      (fmt (user_id (set_description "Account locked" plain_failed_login))) ∧
  login_key plain_failed_login =
    login_key (set_description "Account locked" plain_failed_login) ∧
  fmt (source_ip plain_failed_login) =
    fmt (source_ip (set_description "Account locked" plain_failed_login)).
Proof.
  assert (¬ is_substring "@" (fmt (user_id plain_failed_login))) as H1
    by (apply no_at_in; reflexivity).
  assert (¬ is_substring "@"
            (fmt (user_id (set_description "Account locked"
                             plain_failed_login)))) as H2
    by (apply no_at_in; reflexivity).
  split; [exact H1|]. split; [exact H2|]. split; [reflexivity|].
  exact (proj2 (login_key_separates plain_failed_login
                  (set_description "Account locked" plain_failed_login)
                  H1 H2 eq_refl)).
Defined.

(** With an [@] in the user id two different pairs meet on one key, and
    so do an absent user id and the user id [None]. *)
Example login_key_collisions :
  login_key {| timestamp := None; event_id := None;
               event_type := Some "failed_login"; severity := None;
               description := None; source_ip := Some "10.0.0.5";
               user_id := Some "ops@corp"; resource := None;
               metadata := None; threat_indicators := None |} =
  login_key {| timestamp := None; event_id := None;
               event_type := Some "failed_login"; severity := None;
               description := None; source_ip := Some "corp@10.0.0.5";
               user_id := Some "ops"; resource := None;
               metadata := None; threat_indicators := None |} ∧
  login_key anonymous_failed_login =
  login_key {| timestamp := None; event_id := None;
               event_type := Some "failed_login"; severity := None;
               description := None; source_ip := Some "10.0.0.5";
               user_id := Some "None"; resource := None;
               metadata := None; threat_indicators := None |}.
Proof. split; reflexivity. Qed.

(** ** What the counter holds *)

Section Counter.
Context {W : Type} (aws : AWSIntegration W).

(** One call adds one to the key of a counted event and does nothing to
    the counter otherwise. *)
Lemma analyze_event_counter_step (e : Event) (self : SecurityMonitor W) :
  failed_login_attempts (fst (analyze_event aws (Some e) self)) =
  if counted e
  then <[login_key e :=
           default 0 (failed_login_attempts self !! login_key e) + 1]>
         (failed_login_attempts self)
  else failed_login_attempts self.
Proof.
  unfold counted. destruct (dict_is_empty e) eqn:Hne.
  - rewrite analyze_event_empty by assumption.
    assert (event_type e = None) as Ht.
    { unfold dict_is_empty in Hne.
      destruct (timestamp e), (event_id e), (event_type e);
        try discriminate. reflexivity. }
    rewrite bool_decide_eq_false_2 by (rewrite Ht; discriminate).
    reflexivity.
  - rewrite analyze_event_attempts by assumption.
    destruct (analysis_log_missing e) as [k|].
    + rewrite (bool_decide_eq_false_2 (Some k = None)) by discriminate.
      rewrite andb_false_r. reflexivity.
    + rewrite (bool_decide_eq_true_2 (None = None)) by reflexivity.
      rewrite andb_true_r, check_failed_login_pattern_run.
      destruct (bool_decide (event_type e = Some "failed_login"));
        reflexivity.
Qed.

(** X5.  After any run of calls the counter of a key holds what it held
    before plus the number of counted events of that key: the
    [failed_login] events on which the first narration did not raise.
    A key that no such event has stays as it was, absent if it was
    absent. *)
Theorem counter_counts_failed_logins
    (events : list Event) (self : SecurityMonitor W) (key : string) :
  let hits :=
    List.filter (fun e => counted e && bool_decide (login_key e = key))
                events in
  failed_login_attempts (fst (analyze_all aws events self)) !! key =
  match hits with
  | [] => failed_login_attempts self !! key
  | _ => Some (default 0 (failed_login_attempts self !! key)
               + Z.of_nat (length hits))
  end.
Proof.
  cbn zeta. revert self. induction events as [|e events IH]; intros self.
  - reflexivity.
  - cbn [analyze_all List.filter].
    pose proof (analyze_event_counter_step e self) as Hstep.
    destruct (analyze_event aws (Some e) self) as [self' r].
    cbn [fst] in Hstep. specialize (IH self').
    destruct (analyze_all aws events self') as [self'' rs].
    cbn [fst] in IH |- *. rewrite IH, Hstep. clear IH Hstep.
    destruct (counted e); cbn [andb].
    + destruct (decide (login_key e = key)) as [<-|Hk].
      * rewrite bool_decide_eq_true_2 by reflexivity.
        rewrite lookup_insert_eq. unfold default; cbn [from_option id].
        destruct (List.filter _ events) as [|h hits]; cbn [length].
        -- f_equal; lia.
        -- f_equal; lia.
      * rewrite bool_decide_eq_false_2 by assumption.
        rewrite lookup_insert_ne by assumption. reflexivity.
    + reflexivity.
Qed.

End Counter.

(** ** Monitoring statistics *)

Section Statistics.
Context {W : Type} (aws : AWSIntegration W).

Lemma analyze_all_counter_keys (events : list Event) :
  ∀ self : SecurityMonitor W,
    dom (failed_login_attempts (fst (analyze_all aws events self))) =
    dom (failed_login_attempts self) ∪
    list_to_set (login_key <$> List.filter counted events).
Proof.
  induction events as [|e events IH]; intros self.
  - cbn. set_solver.
  - cbn [analyze_all List.filter].
    pose proof (analyze_event_counter_step aws e self) as Hstep.
    destruct (analyze_event aws (Some e) self) as [self' r].
    cbn [fst] in Hstep. specialize (IH self').
    destruct (analyze_all aws events self') as [self'' rs].
    cbn [fst] in IH |- *. rewrite IH, Hstep.
    destruct (counted e).
    + rewrite dom_insert_L. cbn [fmap list_fmap list_to_set]. set_solver.
    + reflexivity.
Qed.

Lemma size_list_to_set_le (l : list string) :
  (size (list_to_set l : gset string) ≤ length l)%nat.
Proof.
  induction l as [|x l IH]; cbn [list_to_set length].
  - rewrite size_empty. lia.
  - rewrite size_union_alt, size_singleton.
    pose proof (subseteq_size (list_to_set l ∖ {[x]}) (list_to_set l : gset string)
                  ltac:(set_solver)).
    lia.
Qed.

(** X6.  After a reset, [failed_login_tracking] is the number of distinct
    counter keys among the counted events analysed since, so at most the
    number of those events; it is zero right after a reset; and
    [active_rules] is 5, the number of rule lists, not the number of
    detection methods. *)
Theorem monitoring_statistics_track_keys
    (events : list Event) (self : SecurityMonitor W) :
  let fresh := fst (reset_monitoring_state self) in
  let stats := get_monitoring_statistics (fst (analyze_all aws events fresh)) in
  failed_login_tracking (get_monitoring_statistics fresh) = 0%nat ∧
  failed_login_tracking stats =
    size (list_to_set (login_key <$> List.filter counted events) : gset string) ∧
  (failed_login_tracking stats ≤ length (List.filter counted events))%nat ∧
  active_rules stats = 5%nat ∧
  length (detection_methods stats) = 7%nat.
Proof.
  cbn zeta. unfold get_monitoring_statistics.
  cbn [failed_login_tracking active_rules detection_methods].
  assert (size (failed_login_attempts
                  (fst (analyze_all aws events (fst (reset_monitoring_state self)))))
          = size (list_to_set (login_key <$> List.filter counted events)
                  : gset string)) as Hsize.
  { rewrite <- size_dom, analyze_all_counter_keys. cbn.
    rewrite dom_empty_L, (left_id_L ∅ (∪)). reflexivity. }
  split; [reflexivity|]. split; [exact Hsize|]. split; [|split; reflexivity].
  rewrite Hsize.
  etransitivity; [apply size_list_to_set_le|]. rewrite length_fmap. lia.
Qed.

Lemma candidate_types (attempts : gmap string Z) (event : Event) (t : Threat) :
  Some t ∈ candidates attempts event →
  threat_type t ∈ configured_types ∧ risk_score t ∈ [6; 7; 8; 9; 10].
Proof.
  unfold candidates, configured_types. rewrite !elem_of_cons, elem_of_nil.
  intros [H|[H|[H|[H|[H|[H|[H|[]]]]]]]]; symmetry in H.
  - apply keyword_rule_scores in H as [[-> ->]|[-> ->]]; set_solver.
  - apply ip_rule_scores in H as [-> ->]; set_solver.
  - apply user_rule_scores in H as [-> ->]; set_solver.
  - apply resource_rule_scores in H as [-> ->]; set_solver.
  - apply login_rule_scores in H as [-> ->]; set_solver.
  - apply severity_rule_scores in H as [[-> ->]|[-> ->]]; set_solver.
  - apply indicator_rule_scores in H as [-> Hr]. split; [set_solver|].
    assert (risk_score t = 7 ∨ risk_score t = 8 ∨ risk_score t = 9 ∨
            risk_score t = 10) as [-> | [-> | [-> | ->]]] by lia; set_solver.
Qed.

Lemma configured_type_lookup (threat_type : string) :
  threat_type ∈ configured_types →
  is_Some (response_actions !! threat_type).
Proof.
  unfold configured_types. rewrite !elem_of_cons, elem_of_nil.
  intros [->|[->|[->|[->|[->|[->|[->|[->|[->|[]]]]]]]]]];
    vm_compute; eauto.
Qed.

Lemma analyze_event_threat_shape
    (event : option Event) (self : SecurityMonitor W) :
  match snd (analyze_event aws event self) with
  | Ok (Some t) =>
      (∃ e, event = Some e ∧ t ∈ fired (failed_login_attempts self) e) ∧
      threat_type t ∈ configured_types ∧
      response_actions !! threat_type t = Some (resolved_policy (threat_type t)) ∧
      risk_score t ∈ [6; 7; 8; 9; 10]
  | _ => True
  end.
Proof.
  destruct (snd (analyze_event aws event self)) as [[t|]|err] eqn:Hres;
    [|exact I|exact I].
  destruct event as [e|]; [|discriminate].
  destruct (dict_is_empty e) eqn:Hne.
  { rewrite analyze_event_empty in Hres by assumption. discriminate. }
  rewrite analyze_event_result in Hres by assumption.
  destruct (analysis_log_missing e); [discriminate|].
  pose proof (decide_threat_first_highest (failed_login_attempts self) e) as Hf.
  destruct (decide_threat (failed_login_attempts self) e) as [t'|];
    [|discriminate].
  destruct (detection_log_missing e); [discriminate|].
  injection Hres as ->.
  destruct Hf as (before & after & Hl & _).
  assert (t ∈ fired (failed_login_attempts self) e) as Hin
    by (rewrite Hl; apply elem_of_app; right; left).
  assert (Some t ∈ candidates (failed_login_attempts self) e) as Hc.
  { unfold fired in Hin. apply list_elem_of_omap in Hin.
    destruct Hin as (o & Ho & Hid). cbn in Hid. subst o. exact Ho. }
  destruct (candidate_types _ _ _ Hc) as [Hty Hsc].
  split; [eauto|]. split; [exact Hty|]. split; [|exact Hsc].
  unfold resolved_policy.
  destruct (configured_type_lookup _ Hty) as [cfg ->]. reflexivity.
Qed.

(** X7.  A threat that [analyze_event] returns is one of the candidates
    that fired, unchanged; its type is one of the nine that the response
    handler configures, so a response to it never takes the default
    entry; and its score is between 6 and 10. *)
Theorem analyze_event_returns_configured_types
    (event : option Event) (self : SecurityMonitor W) :
  match snd (analyze_event aws event self) with
  | Ok (Some t) =>
      (∃ e, event = Some e ∧ t ∈ fired (failed_login_attempts self) e) ∧
      threat_type t ∈ configured_types ∧
      response_actions !! threat_type t = Some (resolved_policy (threat_type t)) ∧
      risk_score t ∈ [6; 7; 8; 9; 10]
  | _ => True
  end.
Proof. apply analyze_event_threat_shape. Qed.

End Statistics.

(** ** The telemetry protocol *)

Ltac finish_report :=
  cbn [aws_integration failed_login_attempts];
  rewrite <- ?app_assoc; reflexivity.

Section Protocol.
Variables (fails : Call -> bool) (today now : string).

Lemma send_to_aws_scripted
    (event : Event) (t : Threat) (self : SecurityMonitor (list Call)) :
  _send_to_aws (aws_scripted fails today now) event t self =
  ({| failed_login_attempts := failed_login_attempts self;
      aws_integration :=
        (aws_integration self
         ++ until_first_failure fails (threat_report today now event t))%list |},
   Ok tt).
Proof.
  unfold _send_to_aws, threat_report. fold (threat_payload event t).
  unfold aws_scripted.
  cbn [send_threat_alert send_security_metric trigger_lambda_response
       create_log_stream send_security_log now_strftime utcnow_isoformat].
  unfold try_except, bind, ret, on_aws.
  cbn [aws_integration failed_login_attempts app].
  cbn [until_first_failure].
  destruct (fails (ThreatAlert _)); [reflexivity|].
  destruct (fails (SecurityMetric _)); [finish_report|].
  destruct (bool_decide (risk_score t >= 8)); cbn [app until_first_failure].
  - destruct (fails (LambdaResponse _)); [finish_report|].
    destruct (fails (CreateLogStream _ _)); [finish_report|].
    destruct (fails (SecurityLog _ _ _)); finish_report.
  - destruct (fails (CreateLogStream _ _)); [finish_report|].
    destruct (fails (SecurityLog _ _ _)); finish_report.
Qed.

(** X8.  A threat report is the calls alert, metric, Lambda trigger (only
    for a score of 8 or more), log-stream creation and log, in this
    order, all with the same payload, whose severity is [critical] from
    score 8 and [high] below.  The first call that raises ends the
    report: the calls after it are not made, and [_send_to_aws] returns
    normally. *)
Theorem send_to_aws_protocol
    (event : Event) (t : Threat) (self : SecurityMonitor (list Call)) :
  _send_to_aws (aws_scripted fails today now) event t self =
  ({| failed_login_attempts := failed_login_attempts self;
      aws_integration :=
        (aws_integration self
         ++ until_first_failure fails (threat_report today now event t))%list |},
   Ok tt).
Proof. apply send_to_aws_scripted. Qed.

Lemma send_event_metrics_protocol
    (event : Event) (self : SecurityMonitor (list Call)) :
  _send_event_metrics (aws_scripted fails today now) event self =
  ({| failed_login_attempts := failed_login_attempts self;
      aws_integration :=
        (aws_integration self ++ [SecurityMetric (baseline_payload event)])%list |},
   Ok tt).
Proof.
  unfold _send_event_metrics. fold (baseline_payload event).
  unfold aws_scripted. cbn [send_security_metric].
  unfold try_except, bind, ret, on_aws. destruct (fails _); reflexivity.
Qed.

Lemma analyze_event_scripted (e : Event) (self : SecurityMonitor (list Call)) :
  dict_is_empty e = false →
  analyze_event (aws_scripted fails today now) (Some e) self =
  match analysis_log_missing e with
  | Some key => (self, Raise (KeyError key))
  | None =>
      let attempts :=
        fst (_check_failed_login_pattern (failed_login_attempts self) e) in
      match decide_threat (failed_login_attempts self) e with
      | None =>
          ({| failed_login_attempts := attempts;
              aws_integration :=
                (aws_integration self
                 ++ [SecurityMetric (baseline_payload e)])%list |}, Ok None)
      | Some t =>
          match detection_log_missing e with
          | Some key =>
              ({| failed_login_attempts := attempts;
                  aws_integration := aws_integration self |},
               Raise (KeyError key))
          | None =>
              ({| failed_login_attempts := attempts;
                  aws_integration :=
                    (aws_integration self
                     ++ until_first_failure fails
                          (threat_report today now e t))%list |},
               Ok (Some t))
          end
      end
  end.
Proof.
  intros Hne. unfold analyze_event. rewrite Hne.
  unfold bind at 1. rewrite log_event_analysis_run.
  destruct (analysis_log_missing e); [reflexivity|].
  unfold bind at 1, check_failed_login at 1.
  unfold decide_threat, candidates. cbn [foldl].
  destruct (_check_failed_login_pattern (failed_login_attempts self) e)
    as [attempts login_threat]. cbn [fst snd].
  replace (match _check_threat_keywords e with
           | Some k => Some k
           | None => None
           end) with (select (_check_threat_keywords e) None)
    by (destruct (_check_threat_keywords e); reflexivity).
  match goal with
  | |- context [match ?d with Some _ => _ | None => _ end _] =>
      destruct d as [t|]
  end.
  - unfold bind at 1. rewrite log_threat_detection_run.
    destruct (detection_log_missing e); [reflexivity|].
    unfold bind, ret. rewrite send_to_aws_scripted. reflexivity.
  - unfold bind, ret. rewrite send_event_metrics_protocol. reflexivity.
Qed.

(** X9.  What one call of [analyze_event] sends: the threat report when
    it returns a threat; one baseline metric, with score 1 and the
    severity of the event or [info], when it returns none on a non-empty
    event; nothing for [None] and the empty dict; and nothing when it
    raises, since both narrations come before any telemetry. *)
Theorem analyze_event_telemetry
    (event : option Event) (self : SecurityMonitor (list Call)) :
  let after := analyze_event (aws_scripted fails today now) event self in
  aws_integration (fst after) =
  (aws_integration self ++
   match event, snd after with
   | Some e, Ok (Some t) =>
       until_first_failure fails (threat_report today now e t)
   | Some e, Ok None =>
       if dict_is_empty e then []
       else [SecurityMetric (baseline_payload e)]
   | _, _ => []
   end)%list.
Proof.
  cbn zeta. destruct event as [e|]; [|symmetry; apply app_nil_r].
  destruct (dict_is_empty e) eqn:Hne.
  { rewrite analyze_event_empty by assumption. symmetry; apply app_nil_r. }
  rewrite analyze_event_scripted by assumption.
  destruct (analysis_log_missing e); [symmetry; apply app_nil_r|].
  cbn zeta. destruct (decide_threat _ _); [|reflexivity].
  destruct (detection_log_missing e); [symmetry; apply app_nil_r|].
  reflexivity.
Qed.

End Protocol.

Example threat_report_stops_at_failure :
  map (fun c => match c with
                | ThreatAlert _ => "alert"
                | SecurityMetric _ => "metric"
                | LambdaResponse _ => "lambda"
                | CreateLogStream _ _ => "stream"
                | SecurityLog _ _ _ => "log"
                end)
      (aws_integration
         (fst (analyze_event
                 (aws_scripted
                    (fun c => match c with SecurityMetric _ => true | _ => false end)
                    "2024-01-01" "2024-01-01T00:00:00")
                 (Some scenario_event_full) (SecurityMonitor.init []))))
  = ["alert"; "metric"].
Proof. reflexivity. Qed.

(** * Further properties of the response handler *)

(** ** Counting *)

Lemma count_up_lookup (d : gmap string Z) (key k : string) :
  count_up d key !! k =
  if decide (key = k) then Some (default 0 (d !! k) + 1) else d !! k.
Proof.
  unfold count_up. destruct (decide (key = k)) as [->|Hne].
  - apply lookup_insert_eq.
  - apply lookup_insert_ne. exact Hne.
Qed.

Lemma values_sum_comm (d : gmap string Z) :
  ∀ (j1 j2 : string) (z1 z2 y : Z),
    j1 ≠ j2 → d !! j1 = Some z1 → d !! j2 = Some z2 →
    z1 + (z2 + y) = z2 + (z1 + y).
Proof. intros. lia. Qed.

Lemma values_sum_count_up (d : gmap string Z) (key : string) :
  values_sum (count_up d key) = values_sum d + 1.
Proof.
  unfold values_sum, count_up. destruct (d !! key) as [n|] eqn:Hk.
  - rewrite <- (insert_delete_eq d).
    rewrite map_fold_insert_L;
      [|apply values_sum_comm|apply lookup_delete_eq].
    rewrite (map_fold_delete_L _ 0 key n d);
      [|apply values_sum_comm|exact Hk].
    unfold default; cbn [from_option id]. lia.
  - rewrite map_fold_insert_L; [|apply values_sum_comm|exact Hk].
    unfold default; cbn [from_option id]. lia.
Qed.

Lemma tally_lookup (keys : list string) :
  ∀ (d : gmap string Z) (k : string),
    foldl count_up d keys !! k =
    if decide (occurrences k keys = 0) then d !! k
    else Some (default 0 (d !! k) + occurrences k keys).
Proof.
  unfold occurrences.
  induction keys as [|key keys IH]; intros d k.
  - cbn. reflexivity.
  - cbn [foldl List.filter]. rewrite IH, count_up_lookup.
    destruct (decide (key = k)) as [->|Hne].
    + rewrite bool_decide_eq_true_2 by reflexivity. cbn [length].
      unfold default; cbn [from_option id].
      repeat case_decide; try lia; f_equal; lia.
    + rewrite bool_decide_eq_false_2 by assumption. reflexivity.
Qed.

Lemma tally_sum (keys : list string) :
  ∀ d : gmap string Z,
    values_sum (foldl count_up d keys) = values_sum d + Z.of_nat (length keys).
Proof.
  induction keys as [|key keys IH]; intros d.
  - cbn. lia.
  - cbn [foldl length]. rewrite IH, values_sum_count_up. lia.
Qed.

Lemma tally_records (history : list ResponseRecord) :
  ∀ stats : Stats.Tally,
    Stats.t_by_threat_type (foldl Stats.tally_record stats history) =
      foldl count_up (Stats.t_by_threat_type stats)
            (r_threat_type <$> history) ∧
    Stats.t_by_priority (foldl Stats.tally_record stats history) =
      foldl count_up (Stats.t_by_priority stats) (r_priority <$> history) ∧
    Stats.t_escalations (foldl Stats.tally_record stats history) =
      Stats.t_escalations stats
      + Z.of_nat (length (List.filter r_escalation_required history)).
Proof.
  induction history as [|r history IH]; intros stats.
  - cbn. repeat split; try lia.
  - cbn [foldl fmap list_fmap List.filter].
    destruct (IH (Stats.tally_record stats r)) as (-> & -> & ->).
    unfold Stats.tally_record at 1 2 3.
    cbn [Stats.t_by_threat_type Stats.t_by_priority Stats.t_escalations].
    repeat split; try reflexivity.
    destruct (r_escalation_required r); cbn [length]; lia.
Qed.

(** X10.  For an empty history [get_response_statistics] returns the key
    [total_responses] alone, with 0.  Otherwise [total_responses] is the
    number of records, each of [by_threat_type] and [by_priority] holds,
    for every key, the number of records with that value and has no entry
    for a value that no record has, the counts of either dict add up to
    [total_responses], and [escalations] is the number of records whose
    escalation flag is set. *)
Theorem response_statistics_count (self : ResponseHandler) :
  let history := response_history self in
  let stats := Stats.get_response_statistics self in
  match history with
  | [] =>
      stats = {| Stats.total_responses := 0; Stats.by_threat_type := None;
                 Stats.by_priority := None; Stats.escalations := None |}
  | _ =>
      Stats.total_responses stats = Z.of_nat (length history) ∧
      (∃ types,
         Stats.by_threat_type stats = Some types ∧
         values_sum types = Stats.total_responses stats ∧
         ∀ k, types !! k =
              if decide (occurrences k (r_threat_type <$> history) = 0)
              then None
              else Some (occurrences k (r_threat_type <$> history))) ∧
      (∃ priorities,
         Stats.by_priority stats = Some priorities ∧
         values_sum priorities = Stats.total_responses stats ∧
         ∀ k, priorities !! k =
              if decide (occurrences k (r_priority <$> history) = 0)
              then None
              else Some (occurrences k (r_priority <$> history))) ∧
      Stats.escalations stats =
        Some (Z.of_nat (length (List.filter r_escalation_required history)))
  end.
Proof.
  cbn zeta. unfold Stats.get_response_statistics.
  destruct (response_history self) as [|r history] eqn:Hh; [reflexivity|].
  cbn [Stats.total_responses Stats.by_threat_type Stats.by_priority
       Stats.escalations].
  destruct (tally_records (r :: history)
              {| Stats.t_by_threat_type := ∅; Stats.t_by_priority := ∅;
                 Stats.t_escalations := 0 |}) as (Ht & Hp & He).
  cbn [Stats.t_by_threat_type Stats.t_by_priority Stats.t_escalations]
    in Ht, Hp, He.
  split; [reflexivity|]. split; [|split].
  - eexists. split; [reflexivity|]. rewrite Ht. split.
    + rewrite tally_sum, length_fmap. unfold values_sum.
      rewrite map_fold_empty. lia.
    + intros k. rewrite tally_lookup, lookup_empty.
      case_decide; [reflexivity|]. f_equal; cbn; lia.
  - eexists. split; [reflexivity|]. rewrite Hp. split.
    + rewrite tally_sum, length_fmap. unfold values_sum.
      rewrite map_fold_empty. lia.
    + intros k. rewrite tally_lookup, lookup_empty.
      case_decide; [reflexivity|]. f_equal; cbn; lia.
  - rewrite He. f_equal.
Qed.

(** ** The shape of every response *)

Lemma policy_shape (threat_type : string) :
  (∃ a b c, actions (resolved_policy threat_type) = [a; b; c]) ∧
  priority (resolved_policy threat_type) ∈ ["medium"; "high"; "critical"] ∧
  (escalation_required (resolved_policy threat_type) = false ↔
   threat_type = "SUSPICIOUS_ACTIVITY").
Proof.
  destruct (decide (threat_type ∈ configured_types)) as [Hin|Hout].
  - unfold configured_types in Hin.
    rewrite !elem_of_cons, elem_of_nil in Hin.
    destruct Hin as [->|[->|[->|[->|[->|[->|[->|[->|[->|[]]]]]]]]]];
      (split; [vm_compute; eauto|]);
      (split; [vm_compute; set_solver|]);
      vm_compute; split; congruence.
  - unfold resolved_policy. rewrite unconfigured_type_lookup by assumption.
    cbn. split; [eauto|]. split; [set_solver|].
    split; [discriminate|]. intros ->. exfalso. apply Hout.
    unfold configured_types. set_solver.
Qed.

Lemma action_output_no_escalation (t : Threat) (e : Event) (l : list string) :
  escalations (flat_map (action_output t e) l) = 0%nat.
Proof. induction l as [|a l IH]; [reflexivity|]. exact IH. Qed.

Lemma action_output_actions (t : Threat) (e : Event) (l : list string) :
  executed_actions (flat_map (action_output t e) l) = l.
Proof.
  induction l as [|a l IH]; [reflexivity|].
  cbn. f_equal. exact IH.
Qed.

(** X11.  Every response to a non-empty event, whatever the threat type,
    executes exactly three actions, each through one simulation routine.
    It escalates once, except for SUSPICIOUS_ACTIVITY, which never
    escalates; and the escalation comes after the last action, never
    before one. *)
Theorem every_response_runs_three_actions
    (now : string) (t : Threat) (e : Event) (p : Process) :
  dict_is_empty e = false →
  ∃ acting closing,
    console (fst (handle_threat now (Some t) (Some e) p)) =
      (console p ++ acting ++ closing)%list ∧
    length (executed_actions acting) = 3%nat ∧
    length (simulations_run acting) = 3%nat ∧
    escalations acting = 0%nat ∧
    executed_actions closing = [] ∧
    escalations closing =
      (if bool_decide (threat_type t = "SUSPICIOUS_ACTIVITY")
       then 0%nat else 1%nat).
Proof.
  intros Hne. rewrite handle_threat_run by assumption. cbn [fst console].
  destruct (policy_shape (threat_type t)) as ((a & b & c & Hact) & _ & Hesc).
  exists ([Initiating (threat_type t) (risk_score t) (event_id e)]
          ++ flat_map (action_output t e)
               (actions (resolved_policy (threat_type t))))%list.
  exists ([LoggerInfo ("Response executed for " ++ threat_type t)]
          ++ (if escalation_required (resolved_policy (threat_type t))
              then [Escalating; Sleep 1000; Escalated] else [])
          ++ [Completed (length (actions (resolved_policy (threat_type t))))])%list.
  split.
  { unfold response_output. cbn zeta. rewrite <- !app_assoc. reflexivity. }
  rewrite Hact. split; [reflexivity|]. split; [reflexivity|].
  split; [reflexivity|].
  destruct (escalation_required (resolved_policy (threat_type t))) eqn:He.
  - split; [reflexivity|].
    rewrite bool_decide_eq_false_2; [reflexivity|].
    intros Hty. apply Hesc in Hty. congruence.
  - split; [reflexivity|].
    rewrite bool_decide_eq_true_2; [reflexivity|]. apply Hesc. reflexivity.
Qed.

Lemma every_response_runs_three_actions_witness :
  dict_is_empty scenario_event_full = false ∧
  ∃ acting closing,
    console (fst (handle_threat "2024-01-01T00:00:00" (Some unknown_candidate)
                    (Some scenario_event_full) fresh_process)) =
      (acting ++ closing)%list ∧
    length (executed_actions acting) = 3%nat.
Proof.
  split; [reflexivity|].
  destruct (every_response_runs_three_actions "2024-01-01T00:00:00"
              unknown_candidate scenario_event_full fresh_process eq_refl)
    as (acting & closing & H1 & H2 & _).
  exists acting, closing. split; [exact H1|exact H2].
Defined.

(** * The monitoring loop *)

Section Bookkeeping.
Context {W : Type} (aws : AWSIntegration W).

Lemma cycle_run (now : string) (event : Event) (sys : System W) :
  cycle aws now event sys =
  let (monitor, r) := analyze_event aws (Some event) (security_monitor sys) in
  match r with
  | Ok (Some t) =>
      ({| security_monitor := monitor;
          response_handler :=
            fst (handle_threat now (Some t) (Some event) (response_handler sys));
          event_count := event_count sys + 1;
          threat_count := threat_count sys + 1 |}, Ok tt)
  | Ok None =>
      ({| security_monitor := monitor;
          response_handler := response_handler sys;
          event_count := event_count sys + 1;
          threat_count := threat_count sys |}, Ok tt)
  | Raise err =>
      ({| security_monitor := monitor;
          response_handler := response_handler sys;
          event_count := event_count sys + 1;
          threat_count := threat_count sys |}, Raise err)
  end.
Proof.
  unfold cycle. unfold bind at 1. unfold modify at 1.
  unfold bind at 1. unfold on_monitor at 1.
  cbn [security_monitor response_handler event_count threat_count].
  destruct (analyze_event aws (Some event) (security_monitor sys))
    as [monitor [[t|]|err]]; try reflexivity.
  unfold bind at 1. unfold modify at 1.
  unfold bind at 1. unfold on_handler at 1.
  cbn [security_monitor response_handler event_count threat_count].
  pose proof (handle_threat_total now (Some t) (Some event)
                (response_handler sys)) as Hok.
  destruct (handle_threat now (Some t) (Some event) (response_handler sys))
    as [process r]. cbn [fst snd] in Hok |- *. subst r. reflexivity.
Qed.

Lemma cycle_bookkeeping (now : string) (event : Event) (sys : System W) :
  let sys' := fst (cycle aws now event sys) in
  event_count sys' = event_count sys + 1 ∧
  active_responses (handler (response_handler sys')) =
    active_responses (handler (response_handler sys)) ∧
  ∃ responses,
    response_history (handler (response_handler sys')) =
      (response_history (handler (response_handler sys)) ++ responses)%list ∧
    threat_count sys' = threat_count sys + Z.of_nat (length responses) ∧
    (length responses ≤ 1)%nat ∧
    Forall loop_record responses.
Proof.
  cbn zeta. rewrite cycle_run.
  pose proof (analyze_event_threat_shape aws (Some event)
                (security_monitor sys)) as Hty.
  pose proof (analyze_event_empty aws event (security_monitor sys)) as Hem.
  destruct (analyze_event aws (Some event) (security_monitor sys))
    as [monitor [[t|]|err]]; cbn [fst snd] in *.
  - destruct Hty as (_ & Hc & _ & Hs).
    destruct (dict_is_empty event) eqn:Hne.
    { specialize (Hem eq_refl). discriminate. }
    rewrite handle_threat_run by assumption.
    cbn [handler response_history active_responses event_count threat_count
         response_handler].
    split; [reflexivity|]. split; [reflexivity|].
    exists [response_record now t event]. split; [reflexivity|].
    split; [cbn; lia|]. split; [cbn; lia|].
    constructor; [|constructor].
    unfold loop_record, response_record. cbn. auto.
  - split; [reflexivity|]. split; [reflexivity|].
    exists []. rewrite app_nil_r. cbn. repeat split; try lia. constructor.
  - split; [reflexivity|]. split; [reflexivity|].
    exists []. rewrite app_nil_r. cbn. repeat split; try lia. constructor.
Qed.

(** X12.  Over any feed the loop only appends to the response history,
    one record per threat counted in [threat_count]; each appended record
    has one of the nine configured types, a score between 6 and 10 and
    the action list, priority and escalation flag of that type's policy
    entry.  [event_count] grows by one per event taken from the feed, by
    the whole length of the feed when no call raised, and never by less
    than [threat_count] grows. *)
Theorem main_loop_bookkeeping (feed : list (string * Event)) (sys : System W) :
  let sys' := fst (main_loop aws feed sys) in
  ∃ responses,
    response_history (handler (response_handler sys')) =
      (response_history (handler (response_handler sys)) ++ responses)%list ∧
    active_responses (handler (response_handler sys')) =
      active_responses (handler (response_handler sys)) ∧
    Forall loop_record responses ∧
    threat_count sys' = threat_count sys + Z.of_nat (length responses) ∧
    Z.of_nat (length responses) <= event_count sys' - event_count sys ∧
    event_count sys' - event_count sys <= Z.of_nat (length feed) ∧
    match snd (main_loop aws feed sys) with
    | Ok _ => event_count sys' = event_count sys + Z.of_nat (length feed)
    | Raise _ => 0 < event_count sys' - event_count sys
    end.
Proof.
  cbn zeta. revert sys. induction feed as [|[now event] feed IH]; intros sys.
  - exists []. cbn. rewrite app_nil_r.
    repeat split; try lia. constructor.
  - cbn [main_loop length]. unfold bind.
    destruct (cycle_bookkeeping now event sys)
      as (Hev & Hact & new & Hh & Hth & Hlen & Hrec).
    cbn zeta in Hev, Hact, Hh, Hth.
    destruct (cycle aws now event sys) as [sys1 [[]|err]];
      cbn [fst snd] in *.
    + destruct (IH sys1) as (rest & Hh' & Hact' & Hrec' & Hth' & Hle & Hub & Hend).
      exists (new ++ rest)%list.
      rewrite Hh', Hh, Hact', Hact, Hth', Hth, length_app, <- app_assoc.
      split; [reflexivity|]. split; [reflexivity|].
      split; [apply Forall_app; split; assumption|].
      split; [lia|]. split; [lia|]. split; [lia|].
      destruct (snd (main_loop aws feed sys1)); lia.
    + exists new. rewrite Hh, Hact, Hth.
      split; [reflexivity|]. split; [reflexivity|]. split; [assumption|].
      split; [reflexivity|]. split; [lia|]. split; lia.
Qed.

End Bookkeeping.

(** * The event generator *)

Lemma choice_in {A} (dflt : A) (l : list A) (n : nat) :
  l ≠ [] → EventGenerator.choice dflt l n ∈ l.
Proof.
  intros Hl. unfold EventGenerator.choice. apply list_elem_of_In, nth_In.
  apply Nat.mod_upper_bound. destruct l; [congruence|discriminate].
Qed.

Ltac each_of H :=
  repeat (apply elem_of_cons in H as [->|H]);
  [..|apply elem_of_nil in H; destruct H].

Lemma generate_event_shape (clock : Z -> string) (d : EventGenerator.Draws) :
  ∃ ts eid md tpl ip user,
    EventGenerator.generate_event clock d =
      event_of (Some ts) (Some eid) (Some md) tpl ip user ∧
    if EventGenerator.is_threat d
    then tpl ∈ EventGenerator.threat_events ∧
         ip ∈ EventGenerator.suspicious_ips ∧
         user ∈ EventGenerator.suspicious_users
    else tpl ∈ EventGenerator.normal_events ∧
         ip ∈ EventGenerator.normal_ips ∧
         user ∈ EventGenerator.normal_users.
Proof.
  unfold EventGenerator.generate_event, event_of. cbn zeta.
  do 6 eexists. split; [reflexivity|].
  destruct (EventGenerator.is_threat d);
    repeat split; apply choice_in; discriminate.
Qed.

(** On a normal event no rule has anything to say. *)
Lemma normal_event_quiet (attempts : gmap string Z)
    (ts eid : option string) (md : option Metadata)
    (tpl : EventGenerator.Template) (ip user : string) :
  tpl ∈ EventGenerator.normal_events →
  ip ∈ EventGenerator.normal_ips →
  user ∈ EventGenerator.normal_users →
  decide_threat attempts (event_of ts eid md tpl ip user) = None ∧
  _check_failed_login_pattern attempts (event_of ts eid md tpl ip user) =
    (attempts, None).
Proof.
  intros Ht Hi Hu.
  unfold EventGenerator.normal_events in Ht.
  unfold EventGenerator.normal_ips in Hi.
  unfold EventGenerator.normal_users in Hu.
  each_of Ht; each_of Hi; each_of Hu; split; vm_compute; reflexivity.
Qed.

(** On a threat event the winner has score 9 and a type fixed by the
    template. *)
Lemma threat_event_winner (attempts : gmap string Z)
    (ts eid : option string) (md : option Metadata)
    (tpl : EventGenerator.Template) (ip user : string) :
  tpl ∈ EventGenerator.threat_events →
  ip ∈ EventGenerator.suspicious_ips →
  user ∈ EventGenerator.suspicious_users →
  ∃ t, decide_threat attempts (event_of ts eid md tpl ip user) = Some t ∧
       risk_score t = 9 ∧
       threat_type t =
         generated_threat_type (Some (EventGenerator.t_event_type tpl)).
Proof.
  intros Ht Hi Hu.
  unfold EventGenerator.threat_events in Ht.
  unfold EventGenerator.suspicious_ips in Hi.
  unfold EventGenerator.suspicious_users in Hu.
  each_of Ht.
  - (* failed_login: rule 5 may add a candidate of score 8 *)
    each_of Hi; each_of Hu;
      unfold decide_threat, candidates;
      match goal with
      | |- context [snd (_check_failed_login_pattern attempts ?e)] =>
          pose proof (login_rule_scores attempts e) as Hl;
          destruct (snd (_check_failed_login_pattern attempts e))
            as [[ty desc rs dm]|];
          [destruct (Hl _ eq_refl) as [Hty Hrs]; cbn in Hty, Hrs; subst ty rs|]
      end;
      (eexists; split; [vm_compute; reflexivity|split; reflexivity]).
  - each_of Hi; each_of Hu;
      (eexists; split; [vm_compute; reflexivity|split; reflexivity]).
  - each_of Hi; each_of Hu;
      (eexists; split; [vm_compute; reflexivity|split; reflexivity]).
  - each_of Hi; each_of Hu;
      (eexists; split; [vm_compute; reflexivity|split; reflexivity]).
  - each_of Hi; each_of Hu;
      (eexists; split; [vm_compute; reflexivity|split; reflexivity]).
Qed.

Section Generated.
Context {W : Type} (aws : AWSIntegration W) (clock : Z -> string).

Lemma generated_event_analysis
    (d : EventGenerator.Draws) (self : SecurityMonitor W) :
  let event := EventGenerator.generate_event clock d in
  let after := analyze_event aws (Some event) self in
  if EventGenerator.is_threat d
  then ∃ t, snd after = Ok (Some t) ∧
            risk_score t = 9 ∧
            threat_type t = generated_threat_type (event_type event) ∧
            threat_type t ∈ ["KEYWORD_THREAT"; "CRITICAL_SECURITY_EVENT";
                             "THREAT_INDICATORS_DETECTED"]
  else snd after = Ok None ∧
       failed_login_attempts (fst after) = failed_login_attempts self.
Proof.
  cbn zeta.
  destruct (generate_event_shape clock d)
    as (ts & eid & md & tpl & ip & user & -> & Hin).
  assert (dict_is_empty (event_of (Some ts) (Some eid) (Some md) tpl ip user)
          = false) as Hne by reflexivity.
  rewrite analyze_event_result, analyze_event_attempts by assumption.
  change (analysis_log_missing
            (event_of (Some ts) (Some eid) (Some md) tpl ip user))
    with (@None string).
  change (detection_log_missing
            (event_of (Some ts) (Some eid) (Some md) tpl ip user))
    with (@None string).
  destruct (EventGenerator.is_threat d).
  - destruct Hin as (Ht & Hi & Hu).
    destruct (threat_event_winner (failed_login_attempts self)
                (Some ts) (Some eid) (Some md) tpl ip user Ht Hi Hu)
      as (t & -> & Hs & Hty).
    exists t. split; [reflexivity|]. split; [exact Hs|].
    split; [exact Hty|]. rewrite Hty. unfold generated_threat_type.
    destruct (bool_decide _); [apply list_elem_of_here|].
    destruct (bool_decide _); repeat constructor.
  - destruct Hin as (Ht & Hi & Hu).
    destruct (normal_event_quiet (failed_login_attempts self)
                (Some ts) (Some eid) (Some md) tpl ip user Ht Hi Hu)
      as [-> ->].
    split; reflexivity.
Qed.

(** X13.  Whatever the random draws, [analyze_event] does not raise on an
    event that [generate_event] built.  For a normal draw it returns no
    threat and leaves the counter dict alone.  For a threat draw it
    returns a threat of score 9 whose type the template fixes:
    KEYWORD_THREAT for unauthorized_access, CRITICAL_SECURITY_EVENT for
    data_exfiltration and malware_detection, THREAT_INDICATORS_DETECTED
    for failed_login and suspicious_api_call; so none of the other six
    types, BRUTE_FORCE_ATTACK among them, is ever returned for a
    generated event, whatever the counter holds. *)
Theorem generated_event_outcome
    (d : EventGenerator.Draws) (self : SecurityMonitor W) :
  let event := EventGenerator.generate_event clock d in
  let after := analyze_event aws (Some event) self in
  if EventGenerator.is_threat d
  then ∃ t, snd after = Ok (Some t) ∧
            risk_score t = 9 ∧
            threat_type t = generated_threat_type (event_type event) ∧
            threat_type t ∈ ["KEYWORD_THREAT"; "CRITICAL_SECURITY_EVENT";
                             "THREAT_INDICATORS_DETECTED"]
  else snd after = Ok None ∧
       failed_login_attempts (fst after) = failed_login_attempts self.
Proof. apply generated_event_analysis. Qed.

(** X14.  Fed with generated events the loop never stops on an exception:
    it takes every event of the feed, counts one threat and appends one
    response record for each threat draw and none for a normal draw, and
    every record it appends has score 9 and asks for escalation. *)
Theorem main_loop_on_generated_feed
    (draws : list (string * EventGenerator.Draws)) (sys : System W) :
  let threats :=
    Z.of_nat (length (List.filter (fun turn => EventGenerator.is_threat (snd turn))
                                  draws)) in
  let after := main_loop aws (generated_feed clock draws) sys in
  snd after = Ok tt ∧
  event_count (fst after) = event_count sys + Z.of_nat (length draws) ∧
  threat_count (fst after) = threat_count sys + threats ∧
  ∃ responses,
    response_history (handler (response_handler (fst after))) =
      (response_history (handler (response_handler sys)) ++ responses)%list ∧
    Z.of_nat (length responses) = threats ∧
    Forall (fun r => r_risk_score r = 9 ∧ r_escalation_required r = true)
           responses.
Proof.
  cbn zeta. revert sys. induction draws as [|[now d] draws IH]; intros sys.
  - cbn. repeat split; try lia. exists []. rewrite app_nil_r.
    repeat split. constructor.
  - cbn [generated_feed map main_loop fst snd List.filter length].
    unfold bind. rewrite cycle_run.
    pose proof (generated_event_analysis d (security_monitor sys)) as Hout.
    cbn zeta in Hout.
    destruct (analyze_event aws
                (Some (EventGenerator.generate_event clock d))
                (security_monitor sys)) as [monitor r].
    cbn [fst snd] in Hout.
    destruct (EventGenerator.is_threat d).
    + destruct Hout as (t & -> & Hs & Hty & Hin).
      assert (dict_is_empty (EventGenerator.generate_event clock d) = false)
        as Hne by reflexivity.
      rewrite handle_threat_run by exact Hne. cbn [fst].
      fold (generated_feed clock draws).
      match goal with
      | |- context [main_loop aws _ ?s] =>
          destruct (IH s) as (Hok & Hev & Hth & rest & Hh & Hlen & Hall)
      end.
      cbn [event_count threat_count response_handler handler
           response_history] in Hev, Hth, Hh.
      split; [exact Hok|]. split; [rewrite Hev; cbn [length]; lia|].
      split; [rewrite Hth; cbn [length]; lia|].
      exists (response_record now t (EventGenerator.generate_event clock d)
              :: rest).
      split; [rewrite Hh, <- app_assoc; reflexivity|].
      split; [cbn [length]; lia|].
      constructor; [|exact Hall].
      unfold response_record. cbn [r_risk_score r_escalation_required].
      split; [exact Hs|].
      destruct (policy_shape (threat_type t)) as (_ & _ & Hesc).
      destruct (escalation_required (resolved_policy (threat_type t)));
        [reflexivity|].
      assert (threat_type t = "SUSPICIOUS_ACTIVITY") as Hsus
        by (apply Hesc; reflexivity).
      rewrite Hsus in Hin. set_solver.
    + destruct Hout as [-> _].
      fold (generated_feed clock draws).
      match goal with
      | |- context [main_loop aws _ ?s] =>
          destruct (IH s) as (Hok & Hev & Hth & rest & Hh & Hlen & Hall)
      end.
      cbn [event_count threat_count response_handler] in Hev, Hth, Hh.
      split; [exact Hok|]. split; [rewrite Hev; cbn [length]; lia|].
      split; [rewrite Hth; lia|].
      exists rest. split; [exact Hh|]. split; [exact Hlen|exact Hall].
Qed.

End Generated.

(** ** Event statistics *)

Lemma tally_events (events : list Event) :
  ∀ stats : EventGenerator.EventTally,
    EventGenerator.e_by_severity (foldl EventGenerator.tally_event stats events) =
      foldl count_up (EventGenerator.e_by_severity stats)
            ((fun e => default "unknown" (severity e)) <$> events) ∧
    EventGenerator.e_by_type (foldl EventGenerator.tally_event stats events) =
      foldl count_up (EventGenerator.e_by_type stats)
            ((fun e => default "unknown" (event_type e)) <$> events) ∧
    EventGenerator.e_threat_events (foldl EventGenerator.tally_event stats events) =
      EventGenerator.e_threat_events stats
      + Z.of_nat (length (List.filter
                            (fun e => bool_decide (is_Some (threat_indicators e)))
                            events)).
Proof.
  induction events as [|e events IH]; intros stats.
  - cbn. repeat split; try lia.
  - cbn [foldl fmap list_fmap List.filter].
    destruct (IH (EventGenerator.tally_event stats e)) as (-> & -> & ->).
    unfold EventGenerator.tally_event at 1 2 3.
    cbn [EventGenerator.e_by_severity EventGenerator.e_by_type
         EventGenerator.e_threat_events].
    repeat split; try reflexivity.
    destruct (threat_indicators e) as [l|].
    + rewrite bool_decide_eq_true_2 by eauto. cbn [length]. lia.
    + rewrite bool_decide_eq_false_2 by (intros [? ?]; discriminate). lia.
Qed.

Lemma event_statistics_tally (events : list Event) :
  let stats := EventGenerator.get_event_statistics events in
  let severities := (fun e => default "unknown" (severity e)) <$> events in
  let types := (fun e => default "unknown" (event_type e)) <$> events in
  match events with
  | [] =>
      stats = {| EventGenerator.total := 0;
                 EventGenerator.by_severity := None;
                 EventGenerator.by_type := None;
                 EventGenerator.threat_events_count := None |}
  | _ =>
      EventGenerator.total stats = Z.of_nat (length events) ∧
      (∃ counts,
         EventGenerator.by_severity stats = Some counts ∧
         values_sum counts = EventGenerator.total stats ∧
         ∀ k, counts !! k =
              if decide (occurrences k severities = 0) then None
              else Some (occurrences k severities)) ∧
      (∃ counts,
         EventGenerator.by_type stats = Some counts ∧
         values_sum counts = EventGenerator.total stats ∧
         ∀ k, counts !! k =
              if decide (occurrences k types = 0) then None
              else Some (occurrences k types)) ∧
      EventGenerator.threat_events_count stats =
        Some (Z.of_nat (length (List.filter
                (fun e => bool_decide (is_Some (threat_indicators e)))
                events)))
  end.
Proof.
  cbn zeta. unfold EventGenerator.get_event_statistics.
  destruct events as [|e events]; [reflexivity|].
  cbn [EventGenerator.total EventGenerator.by_severity EventGenerator.by_type
       EventGenerator.threat_events_count].
  destruct (tally_events (e :: events)
              {| EventGenerator.e_by_severity := ∅;
                 EventGenerator.e_by_type := ∅;
                 EventGenerator.e_threat_events := 0 |}) as (Hs & Ht & Hn).
  cbn [EventGenerator.e_by_severity EventGenerator.e_by_type
       EventGenerator.e_threat_events] in Hs, Ht, Hn.
  split; [reflexivity|]. split; [|split].
  - eexists. split; [reflexivity|]. rewrite Hs. split.
    + rewrite tally_sum, length_fmap. unfold values_sum.
      rewrite map_fold_empty. lia.
    + intros k. rewrite tally_lookup, lookup_empty.
      case_decide; [reflexivity|]. f_equal; cbn; lia.
  - eexists. split; [reflexivity|]. rewrite Ht. split.
    + rewrite tally_sum, length_fmap. unfold values_sum.
      rewrite map_fold_empty. lia.
    + intros k. rewrite tally_lookup, lookup_empty.
      case_decide; [reflexivity|]. f_equal; cbn; lia.
  - rewrite Hn. f_equal.
Qed.

(** X15.  For an empty list [get_event_statistics] returns the key
    [total] alone, with 0.  Otherwise [total] is the number of events;
    [by_severity] and [by_type] count the events per severity and per
    event type, an event without the key counting under [unknown], and
    the counts of either dict add up to [total]; and [threat_events] is
    the number of events that have the [threat_indicators] key, even with
    an empty list. *)
Theorem event_statistics_count (events : list Event) :
  let stats := EventGenerator.get_event_statistics events in
  let severities := (fun e => default "unknown" (severity e)) <$> events in
  let types := (fun e => default "unknown" (event_type e)) <$> events in
  match events with
  | [] =>
      stats = {| EventGenerator.total := 0;
                 EventGenerator.by_severity := None;
                 EventGenerator.by_type := None;
                 EventGenerator.threat_events_count := None |}
  | _ =>
      EventGenerator.total stats = Z.of_nat (length events) ∧
      (∃ counts,
         EventGenerator.by_severity stats = Some counts ∧
         values_sum counts = EventGenerator.total stats ∧
         ∀ k, counts !! k =
              if decide (occurrences k severities = 0) then None
              else Some (occurrences k severities)) ∧
      (∃ counts,
         EventGenerator.by_type stats = Some counts ∧
         values_sum counts = EventGenerator.total stats ∧
         ∀ k, counts !! k =
              if decide (occurrences k types = 0) then None
              else Some (occurrences k types)) ∧
      EventGenerator.threat_events_count stats =
        Some (Z.of_nat (length (List.filter
                (fun e => bool_decide (is_Some (threat_indicators e)))
                events)))
  end.
Proof. apply event_statistics_tally. Qed.

Lemma generated_indicators (clock : Z -> string) (d : EventGenerator.Draws) :
  bool_decide (is_Some (threat_indicators (EventGenerator.generate_event clock d)))
  = EventGenerator.is_threat d.
Proof.
  destruct (generate_event_shape clock d)
    as (ts & eid & md & tpl & ip & user & -> & Hin).
  cbn [event_of threat_indicators].
  destruct (EventGenerator.is_threat d); destruct Hin as (Ht & _ & _).
  - unfold EventGenerator.threat_events in Ht.
    each_of Ht; apply bool_decide_eq_true_2; eauto.
  - unfold EventGenerator.normal_events in Ht.
    each_of Ht; apply bool_decide_eq_false_2; intros [? ?]; discriminate.
Qed.

(** X16.  [generate_event_batch] returns as many events as asked for, and
    none for a count of zero or less.  Every event of a batch carries the
    nine keys [timestamp], [event_id], [event_type], [severity],
    [description], [source_ip], [user_id], [resource] and [metadata], and
    the [threat_indicators] key exactly when it came from a threat draw:
    the [threat_events] statistic of a batch is its number of threat
    draws. *)
Theorem generated_batch_statistics
    (clock : Z -> string) (draws : nat -> EventGenerator.Draws) (count : Z) :
  let batch := EventGenerator.generate_event_batch clock draws count in
  let threat_draws :=
    List.filter (fun i => EventGenerator.is_threat (draws i))
                (seq 0 (Z.to_nat count)) in
  Z.of_nat (length batch) = Z.max 0 count ∧
  EventGenerator.total (EventGenerator.get_event_statistics batch) =
    Z.max 0 count ∧
  Forall (fun e => is_Some (timestamp e) ∧ is_Some (metadata e) ∧
                   is_Some (severity e) ∧ is_Some (description e) ∧
                   analysis_log_missing e = None ∧
                   detection_log_missing e = None) batch ∧
  EventGenerator.threat_events_count
    (EventGenerator.get_event_statistics batch) =
    if bool_decide (count <= 0) then None
    else Some (Z.of_nat (length threat_draws)).
Proof.
  cbn zeta. unfold EventGenerator.generate_event_batch.
  assert (∀ l : list nat,
            length (List.filter
                      (fun e => bool_decide (is_Some (threat_indicators e)))
                      (map (fun i => EventGenerator.generate_event clock (draws i)) l))
            = length (List.filter (fun i => EventGenerator.is_threat (draws i)) l))
    as Hfilter.
  { induction l as [|i l IH]; [reflexivity|].
    cbn [map List.filter]. rewrite generated_indicators.
    destruct (EventGenerator.is_threat (draws i)); cbn [length]; congruence. }
  pose proof (event_statistics_tally
                (map (fun i => EventGenerator.generate_event clock (draws i))
                     (seq 0 (Z.to_nat count)))) as Hstats.
  cbn zeta in Hstats.
  assert (length (map (fun i => EventGenerator.generate_event clock (draws i))
                      (seq 0 (Z.to_nat count))) = Z.to_nat count) as Hlen
    by (rewrite length_map, length_seq; reflexivity).
  split; [rewrite Hlen; lia|].
  split; [|split].
  - destruct (map _ _) as [|e batch] eqn:Hb.
    + rewrite Hstats. cbn in Hlen |- *. lia.
    + destruct Hstats as (-> & _). rewrite Hlen. lia.
  - apply Forall_forall. intros e He. apply list_elem_of_In, in_map_iff in He.
    destruct He as (i & <- & _).
    unfold EventGenerator.generate_event.
    repeat split; eauto.
  - destruct (map _ _) as [|e batch] eqn:Hb.
    + rewrite Hstats. cbn in Hlen.
      rewrite bool_decide_eq_true_2 by lia. reflexivity.
    + destruct Hstats as (_ & _ & _ & ->).
      cbn [length] in Hlen. rewrite bool_decide_eq_false_2 by lia.
      rewrite <- Hb, Hfilter. reflexivity.
Qed.

(** * The AWS integration *)

Section AWSProperties.
Context {C : Type} (boto3 : AWS.Boto3 C).

(** X17.  No method of the integration lets an exception out, whatever
    boto3 does and whatever the argument dict holds: each returns
    normally, and so does [__init__]. *)
Theorem aws_methods_never_raise (self : AWS.AWSIntegration)
    (utcnow utcnow' group stream : string) (millis : Z)
    (data : gmap string AWS.Value) (c : C) :
  (∃ r, snd (AWS.send_security_metric boto3 self utcnow utcnow' data c) = Ok (Some r)) ∧
  (∃ r, snd (AWS.send_threat_alert boto3 self utcnow data c) = Ok r) ∧
  (∃ r, snd (AWS.trigger_lambda_response boto3 self utcnow data c) = Ok r) ∧
  (∃ r, snd (AWS.create_log_stream boto3 self group stream c) = Ok (Some r)) ∧
  (∃ r, snd (AWS.send_security_log boto3 self millis group stream data c) = Ok (Some r)) ∧
  (∃ r, snd (AWS.init boto3 c) = Ok r).
Proof.
  repeat split.
  - unfold AWS.send_security_metric.
    destruct (AWS.cloudwatch self); cbn [negb]; [|eexists; reflexivity].
    unfold try_except, bind, ret.
    destruct (AWS.api boto3 _ c) as [c' [[]|e]]; eexists; reflexivity.
  - unfold AWS.send_threat_alert.
    destruct (AWS.cloudwatch self); cbn [negb]; [|eexists; reflexivity].
    unfold try_except, bind, ret, AWS.ge_int.
    destruct (AWS.get data "risk_score" _) as [| |n];
      try (eexists; reflexivity).
    unfold ret. destruct (bool_decide (n >= 7)); [|eexists; reflexivity].
    destruct (AWS.api boto3 _ c) as [c' [[]|e]]; eexists; reflexivity.
  - unfold AWS.trigger_lambda_response.
    destruct (AWS.lambda_client self); cbn [negb]; [|eexists; reflexivity].
    unfold try_except, bind, ret, AWS.ge_int.
    destruct (AWS.get data "risk_score" _) as [| |n];
      try (eexists; reflexivity).
    unfold ret. destruct (bool_decide (n >= 8)); [|eexists; reflexivity].
    destruct (AWS.api boto3 _ c) as [c' [[]|e]]; eexists; reflexivity.
  - unfold AWS.create_log_stream.
    destruct (AWS.logs_client self); cbn [negb]; [|eexists; reflexivity].
    unfold try_except, bind, ret, raise.
    destruct (AWS.api boto3 (AWS.create_log_group group) c) as [c1 [[]|e1]].
    + destruct (AWS.api boto3 _ c1) as [c2 [[]|e2]];
        [eexists; reflexivity|].
      destruct (AWS.already_exists e2); eexists; reflexivity.
    + destruct (AWS.already_exists e1); [|eexists; reflexivity].
      destruct (AWS.api boto3 _ c1) as [c2 [[]|e2]];
        [eexists; reflexivity|].
      destruct (AWS.already_exists e2); eexists; reflexivity.
  - unfold AWS.send_security_log.
    destruct (AWS.logs_client self); cbn [negb]; [|eexists; reflexivity].
    unfold try_except, bind, ret.
    destruct (AWS.api boto3 _ c) as [c' [[]|e]]; eexists; reflexivity.
  - unfold AWS.init, AWS._test_aws_connection, try_except, bind, ret.
    destruct (AWS.api boto3 (AWS.client "cloudwatch") c) as [c1 [[]|e1]];
      [|eexists; reflexivity].
    destruct (AWS.api boto3 (AWS.client "lambda") c1) as [c2 [[]|e2]];
      [|eexists; reflexivity].
    destruct (AWS.api boto3 (AWS.client "logs") c2) as [c3 [[]|e3]];
      [|eexists; reflexivity].
    destruct (AWS.api boto3 (AWS.list_metrics 1) c3) as [c4 [[]|e4]];
      eexists; reflexivity.
Qed.

(** X18.  [__init__] leaves either all three clients or none: all three
    when the three clients could be created, even if the connection test
    then failed, and none as soon as one creation raised.  Without
    clients every method returns [False] and makes no boto3 call, and
    the health status reports nothing available and the region
    [unknown]. *)
Theorem aws_degraded_mode
    (utcnow utcnow' group stream : string) (millis : Z)
    (data : gmap string AWS.Value) (c : C) :
  (snd (AWS.init boto3 c) = Ok all_clients ∨
   snd (AWS.init boto3 c) = Ok no_clients) ∧
  (snd (AWS.init boto3 c) = Ok all_clients ↔
   ∃ c1 c2 c3,
     AWS.api boto3 (AWS.client "cloudwatch") c = (c1, Ok tt) ∧
     AWS.api boto3 (AWS.client "lambda") c1 = (c2, Ok tt) ∧
     AWS.api boto3 (AWS.client "logs") c2 = (c3, Ok tt)) ∧
  AWS.send_security_metric boto3 no_clients utcnow utcnow' data c
    = (c, Ok (Some false)) ∧
  AWS.send_threat_alert boto3 no_clients utcnow data c = (c, Ok (Some false)) ∧
  AWS.trigger_lambda_response boto3 no_clients utcnow data c
    = (c, Ok (Some false)) ∧
  AWS.create_log_stream boto3 no_clients group stream c
    = (c, Ok (Some false)) ∧
  AWS.send_security_log boto3 no_clients millis group stream data c
    = (c, Ok (Some false)) ∧
  AWS.get_health_status boto3 no_clients c =
    (c, Ok {| AWS.cloudwatch_available := false;
              AWS.lambda_available := false;
              AWS.logs_available := false;
              AWS.aws_region := AWS.VStr "unknown" |}).
Proof.
  split; [|split; [|repeat split; reflexivity]].
  - unfold AWS.init, AWS._test_aws_connection, try_except, bind, ret.
    destruct (AWS.api boto3 (AWS.client "cloudwatch") c) as [c1 [[]|e1]];
      [|right; reflexivity].
    destruct (AWS.api boto3 (AWS.client "lambda") c1) as [c2 [[]|e2]];
      [|right; reflexivity].
    destruct (AWS.api boto3 (AWS.client "logs") c2) as [c3 [[]|e3]];
      [|right; reflexivity].
    destruct (AWS.api boto3 (AWS.list_metrics 1) c3) as [c4 [[]|e4]];
      left; reflexivity.
  - unfold AWS.init, AWS._test_aws_connection, try_except, bind, ret.
    destruct (AWS.api boto3 (AWS.client "cloudwatch") c) as [c1 [[]|e1]] eqn:E1.
    2:{ split; [discriminate|]. intros (? & ? & ? & H & _). discriminate. }
    destruct (AWS.api boto3 (AWS.client "lambda") c1) as [c2 [[]|e2]] eqn:E2.
    2:{ split; [discriminate|]. intros (? & ? & ? & H1 & H2 & _).
        injection H1 as <-. rewrite E2 in H2. discriminate. }
    destruct (AWS.api boto3 (AWS.client "logs") c2) as [c3 [[]|e3]] eqn:E3.
    2:{ split; [discriminate|]. intros (? & ? & ? & H1 & H2 & H3).
        injection H1 as <-. rewrite E2 in H2. injection H2 as <-.
        rewrite E3 in H3. discriminate. }
    split; [eauto 6|]. intros _.
    destruct (AWS.api boto3 (AWS.list_metrics 1) c3) as [c4 [[]|e4]];
      reflexivity.
Qed.

(** X19.  With a CloudWatch client, [send_threat_alert] makes one
    [put_metric_data] call in the namespace [Aegis/Alerts] when the risk
    score is an int of 7 or more and reports whether that call went
    through; for an int below 7, and for a dict without the key, it makes
    no call and returns [None], neither [True] nor [False]; a score that
    is not an int makes it return [False].  [trigger_lambda_response]
    does the same with one asynchronous [invoke] of
    [aegis-threat-response] and the threshold 8. *)
Theorem aws_alert_thresholds (utcnow : string)
    (data : gmap string AWS.Value) (c : C) :
  (∃ metrics,
     AWS.send_threat_alert boto3 all_clients utcnow data c =
     match AWS.get data "risk_score" (AWS.VInt 0) with
     | AWS.VInt n =>
         if bool_decide (n >= 7) then
           let (c', r) :=
             AWS.api boto3 (AWS.put_metric_data "Aegis/Alerts" metrics) c in
           (c', Ok (reported r))
         else (c, Ok None)
     | _ => (c, Ok (Some false))
     end) ∧
  (∃ payload,
     AWS.trigger_lambda_response boto3 all_clients utcnow data c =
     match AWS.get data "risk_score" (AWS.VInt 0) with
     | AWS.VInt n =>
         if bool_decide (n >= 8) then
           let (c', r) :=
             AWS.api boto3
               (AWS.invoke "aegis-threat-response" "Event" payload) c in
           (c', Ok (reported r))
         else (c, Ok None)
     | _ => (c, Ok (Some false))
     end) ∧
  (data !! "risk_score" = None →
   AWS.send_threat_alert boto3 all_clients utcnow data c = (c, Ok None) ∧
   AWS.trigger_lambda_response boto3 all_clients utcnow data c = (c, Ok None)).
Proof.
  split; [|split].
  - exists [ {| AWS.MetricName := "CriticalThreats";
                AWS.Dimensions :=
                  [("ThreatType",
                    AWS.get data "threat_type" (AWS.VStr "unknown"));
                   ("SourceIP",
                    AWS.get data "source_ip" (AWS.VStr "unknown"))];
                AWS.MetricValue := AWS.VInt 1; AWS.Unit := "Count";
                AWS.Timestamp := utcnow |} ].
    unfold AWS.send_threat_alert. cbn [AWS.cloudwatch all_clients negb].
    unfold try_except, bind, ret, AWS.ge_int.
    destruct (AWS.get data "risk_score" _) as [| |n]; try reflexivity.
    unfold ret. destruct (bool_decide (n >= 7)); [|reflexivity].
    destruct (AWS.api boto3 _ c) as [c' [[]|e]]; reflexivity.
  - exists (<["threat_type" := AWS.get data "threat_type" AWS.VNone]> (
            <["risk_score" := AWS.get data "risk_score" AWS.VNone]> (
            <["source_ip" := AWS.get data "source_ip" AWS.VNone]> (
            <["event_id" := AWS.get data "event_id" AWS.VNone]> (
            <["timestamp" := AWS.VStr utcnow]> (
            <["resource" := AWS.get data "resource" AWS.VNone]> (
            <["description" := AWS.get data "description" AWS.VNone]> ∅))))))).
    unfold AWS.trigger_lambda_response.
    cbn [AWS.lambda_client all_clients negb].
    unfold try_except, bind, ret, AWS.ge_int.
    destruct (AWS.get data "risk_score" _) as [| |n]; try reflexivity.
    unfold ret. destruct (bool_decide (n >= 8)); [|reflexivity].
    destruct (AWS.api boto3 _ c) as [c' [[]|e]]; reflexivity.
  - intros Hnone.
    unfold AWS.send_threat_alert, AWS.trigger_lambda_response, AWS.get.
    rewrite Hnone. split; reflexivity.
Qed.

(** X20.  With a logs client, [create_log_stream] first creates the log
    group and then the stream, and a group or a stream that already
    exists counts as created: it returns [True] exactly when each of the
    two calls either went through or raised
    [ResourceAlreadyExistsException]; any other exception from the group
    call ends the method with [False] before the stream call is made. *)
Theorem aws_create_log_stream_idempotent (group stream : string) (c : C) :
  let fine (r : result unit) : bool :=
    match r with
    | Ok _ => true
    | Raise e => AWS.already_exists e
    end in
  let (c1, r1) := AWS.api boto3 (AWS.create_log_group group) c in
  AWS.create_log_stream boto3 all_clients group stream c =
  if fine r1 then
    let (c2, r2) := AWS.api boto3 (AWS.create_log_stream_call group stream) c1 in
    (c2, Ok (Some (fine r2)))
  else (c1, Ok (Some false)).
Proof.
  cbn zeta. unfold AWS.create_log_stream.
  cbn [AWS.logs_client all_clients negb].
  unfold try_except, bind, ret, raise.
  destruct (AWS.api boto3 (AWS.create_log_group group) c) as [c1 [[]|e1]].
  - destruct (AWS.api boto3 _ c1) as [c2 [[]|e2]]; [reflexivity|].
    destruct (AWS.already_exists e2); reflexivity.
  - destruct (AWS.already_exists e1); [|reflexivity].
    destruct (AWS.api boto3 _ c1) as [c2 [[]|e2]]; [reflexivity|].
    destruct (AWS.already_exists e2); reflexivity.
Qed.

End AWSProperties.

Lemma aws_alert_thresholds_witness :
  (∅ : gmap string AWS.Value) !! "risk_score" = None ∧
  AWS.send_threat_alert boto3_up all_clients "2024-01-01T00:00:00" ∅ tt
    = (tt, Ok None).
Proof.
  assert ((∅ : gmap string AWS.Value) !! "risk_score" = None) as H
    by reflexivity.
  split; [exact H|].
  exact (proj1 (proj2 (proj2 (aws_alert_thresholds boto3_up
                                "2024-01-01T00:00:00" ∅ tt)) H)).
Defined.

(** * The Lambda function *)

Section LambdaProperties.
Context {C : Type} (boto3 : AWS.Boto3 C).

Lemma handle_medium_threat_run (event : gmap string AWS.Value) (c : C) :
  Lambda.handle_medium_threat event c =
  (c, Ok ["ENHANCED_MONITORING_ENABLED"; "SECURITY_EVENT_LOGGED"]).
Proof. reflexivity. Qed.

Lemma handle_high_threat_run (stamp : string)
    (event : gmap string AWS.Value) (c : C) :
  Lambda.handle_high_threat stamp event c =
  (c, Ok ((if Lambda.known (AWS.get event "source_ip" (AWS.VStr "unknown"))
           then [("RATE_LIMITED: "
                  ++ Lambda.fmt_value
                       (AWS.get event "source_ip" (AWS.VStr "unknown")))%string]
           else [])
          ++ ["SECURITY_TEAM_NOTIFIED"; ("INCIDENT_CREATED: INC-" ++ stamp)%string])%list).
Proof.
  unfold Lambda.handle_high_threat.
  destruct (Lambda.known _); reflexivity.
Qed.

(** X21.  [lambda_handler] never raises.  It answers 200 exactly when the
    risk score of the event is an int, the missing key counting as 0; a
    score that is [None] or a string gives 500 with the text of the
    [TypeError], before any action is taken.  Below 7, negative scores
    included, it takes the two medium actions; for 7 and 8 it notifies
    the security team and creates an incident, after rate-limiting the
    source address unless that is the string [unknown] or the key is
    missing.  Neither of these two tiers touches boto3 or can report an
    error. *)
Theorem lambda_handler_tiers (stamp utcnow : string)
    (event : gmap string AWS.Value) (c : C) :
  let event_id := AWS.get event "event_id" (AWS.VStr "unknown") in
  let source_ip := AWS.get event "source_ip" (AWS.VStr "unknown") in
  match AWS.get event "risk_score" (AWS.VInt 0) with
  | AWS.VInt n =>
      if bool_decide (n >= 9) then
        ∃ c' actions,
          Lambda.handle_critical_threat boto3 stamp event c = (c', Ok actions) ∧
          Lambda.lambda_handler boto3 stamp utcnow event c =
          (c', Ok {| Lambda.statusCode := 200;
                     Lambda.body := Lambda.Executed event_id actions utcnow |})
      else if bool_decide (n >= 7) then
        Lambda.lambda_handler boto3 stamp utcnow event c =
        (c, Ok {| Lambda.statusCode := 200;
                  Lambda.body :=
                    Lambda.Executed event_id
                      ((if Lambda.known source_ip
                        then [("RATE_LIMITED: " ++ Lambda.fmt_value source_ip)%string]
                        else [])
                       ++ ["SECURITY_TEAM_NOTIFIED";
                           ("INCIDENT_CREATED: INC-" ++ stamp)%string])%list
                      utcnow |})
      else
        Lambda.lambda_handler boto3 stamp utcnow event c =
        (c, Ok {| Lambda.statusCode := 200;
                  Lambda.body :=
                    Lambda.Executed event_id
                      ["ENHANCED_MONITORING_ENABLED"; "SECURITY_EVENT_LOGGED"]
                      utcnow |})
  | AWS.VNone =>
      Lambda.lambda_handler boto3 stamp utcnow event c =
      (c, Ok {| Lambda.statusCode := 500;
                Lambda.body :=
                  Lambda.Failed
                    "'>=' not supported between instances of 'NoneType' and 'int'" |})
  | AWS.VStr _ =>
      Lambda.lambda_handler boto3 stamp utcnow event c =
      (c, Ok {| Lambda.statusCode := 500;
                Lambda.body :=
                  Lambda.Failed
                    "'>=' not supported between instances of 'str' and 'int'" |})
  end.
Proof.
  cbn zeta. unfold Lambda.lambda_handler.
  destruct (AWS.get event "risk_score" (AWS.VInt 0)) as [|s|n];
    [reflexivity|reflexivity|].
  unfold try_except, bind, AWS.ge_int, ret. cbv beta iota.
  destruct (bool_decide (n >= 9)).
  - destruct (Lambda.handle_critical_threat boto3 stamp event c)
      as [c' [actions|e]] eqn:Hc.
    + exists c', actions. split; reflexivity.
    + unfold Lambda.handle_critical_threat, Lambda.run_handler in Hc.
      destruct (try_except _ _ _) in Hc. discriminate.
  - destruct (bool_decide (n >= 7)).
    + rewrite handle_high_threat_run. reflexivity.
    + rewrite handle_medium_threat_run. reflexivity.
Qed.

(** X22.  The critical tier for a source address that is a string.  A
    client for ec2 is asked for, and the address reported as blocked,
    only when the address is not [unknown] and starts with neither [10.]
    nor [192.168.].  An exception from the ec2 or the sns client ends the
    handling: the actions taken so far are followed by one ERROR entry
    and nothing else is done, in particular no incident is created.  A
    failure of the logs client is swallowed, and AUDIT_LOG_CREATED is
    reported all the same. *)
Theorem lambda_critical_response (stamp s : string)
    (event : gmap string AWS.Value) (c : C) :
  AWS.get event "source_ip" (AWS.VStr "unknown") = AWS.VStr s →
  Lambda.handle_critical_threat boto3 stamp event c =
  let (c1, r1) :=
    if blockable s then AWS.api boto3 (AWS.client "ec2") c else (c, Ok tt) in
  match r1 with
  | Raise e => (c1, Ok ["ERROR: " ++ Lambda.str_exn e])
  | Ok _ =>
      let blocked := if blockable s then ["IP_BLOCKED: " ++ s] else [] in
      let (c2, r2) := AWS.api boto3 (AWS.client "sns") c1 in
      match r2 with
      | Raise e => (c2, Ok (blocked ++ [("ERROR: " ++ Lambda.str_exn e)%string])%list)
      | Ok _ =>
          let (c3, _) := AWS.api boto3 (AWS.client "logs") c2 in
          (c3, Ok (blocked ++ ["EMERGENCY_NOTIFICATION_SENT";
                               ("INCIDENT_CREATED: INC-" ++ stamp)%string;
                               "AUDIT_LOG_CREATED"])%list)
      end
  end.
Proof.
  intros Hip. unfold Lambda.handle_critical_threat. rewrite Hip.
  unfold blockable, Lambda.run_handler, Lambda.known, Lambda.startswith.
  destruct (bool_decide (s = "unknown")); destruct (String.prefix "10." s);
    destruct (String.prefix "192.168." s); cbn [negb andb];
    unfold Lambda.cloud, Lambda.append, modify, Lambda.block_ip_address,
      Lambda.send_emergency_notification, Lambda.create_security_incident,
      Lambda.log_security_action, try_except, raise, bind, ret;
    cbn [fst snd negb app];
    repeat (match goal with
            | |- context [AWS.api boto3 ?k ?c0] =>
                destruct (AWS.api boto3 k c0) as [? [[]|?]]
            end; cbn [fst snd app]);
    reflexivity.
Qed.

(** X23.  The critical tier for a source address that is present but not
    a string, such as a JSON [null]: the test of the address raises, so
    the handler takes no action at all, asks boto3 for nothing and
    reports one ERROR entry, and [lambda_handler] still answers 200. *)
Theorem lambda_critical_without_address (stamp utcnow : string)
    (event : gmap string AWS.Value) (n : Z) (c : C) :
  event !! "risk_score" = Some (AWS.VInt n) → n >= 9 →
  event !! "source_ip" = Some AWS.VNone →
  Lambda.lambda_handler boto3 stamp utcnow event c =
  (c, Ok {| Lambda.statusCode := 200;
            Lambda.body :=
              Lambda.Executed (AWS.get event "event_id" (AWS.VStr "unknown"))
                ["ERROR: 'NoneType' object has no attribute 'startswith'"]
                utcnow |}).
Proof.
  intros Hr Hn Hip.
  assert (AWS.get event "risk_score" (AWS.VInt 0) = AWS.VInt n) as Hr'
    by (unfold AWS.get; rewrite Hr; reflexivity).
  assert (AWS.get event "source_ip" (AWS.VStr "unknown") = AWS.VNone) as Hip'
    by (unfold AWS.get; rewrite Hip; reflexivity).
  unfold Lambda.lambda_handler. rewrite Hr'.
  unfold try_except, bind, AWS.ge_int, ret. cbv beta iota.
  rewrite bool_decide_eq_true_2 by assumption.
  unfold Lambda.handle_critical_threat. rewrite Hip'. reflexivity.
Qed.

End LambdaProperties.

Lemma lambda_critical_response_witness :
  AWS.get (<["source_ip" := AWS.VStr "192.168.1.10"]> ∅) "source_ip"
          (AWS.VStr "unknown") = AWS.VStr "192.168.1.10" ∧
  Lambda.handle_critical_threat boto3_up "20240101000000"
    (<["source_ip" := AWS.VStr "192.168.1.10"]> ∅) tt =
  (tt, Ok ["EMERGENCY_NOTIFICATION_SENT";
           "INCIDENT_CREATED: INC-20240101000000"; "AUDIT_LOG_CREATED"]).
Proof.
  assert (AWS.get (<["source_ip" := AWS.VStr "192.168.1.10"]> ∅) "source_ip"
                  (AWS.VStr "unknown") = AWS.VStr "192.168.1.10") as H
    by reflexivity.
  split; [exact H|].
  rewrite (lambda_critical_response boto3_up "20240101000000" "192.168.1.10"
             (<["source_ip" := AWS.VStr "192.168.1.10"]> ∅) tt H).
  reflexivity.
Defined.

Lemma lambda_critical_without_address_witness :
  (<["risk_score" := AWS.VInt 9]> (<["source_ip" := AWS.VNone]> ∅)
     : gmap string AWS.Value) !! "risk_score" = Some (AWS.VInt 9) ∧
  9 >= 9 ∧
  (<["risk_score" := AWS.VInt 9]> (<["source_ip" := AWS.VNone]> ∅)
     : gmap string AWS.Value) !! "source_ip" = Some AWS.VNone ∧
  Lambda.lambda_handler boto3_up "20240101000000" "2024-01-01T00:00:00"
    (<["risk_score" := AWS.VInt 9]> (<["source_ip" := AWS.VNone]> ∅)) tt =
  (tt, Ok {| Lambda.statusCode := 200;
             Lambda.body :=
               Lambda.Executed (AWS.VStr "unknown")
                 ["ERROR: 'NoneType' object has no attribute 'startswith'"]
                 "2024-01-01T00:00:00" |}).
Proof.
  assert ((<["risk_score" := AWS.VInt 9]> (<["source_ip" := AWS.VNone]> ∅)
             : gmap string AWS.Value) !! "risk_score" = Some (AWS.VInt 9))
    as H1 by reflexivity.
  assert (9 >= 9) as H2 by lia.
  assert ((<["risk_score" := AWS.VInt 9]> (<["source_ip" := AWS.VNone]> ∅)
             : gmap string AWS.Value) !! "source_ip" = Some AWS.VNone)
    as H3 by reflexivity.
  split; [exact H1|]. split; [exact H2|]. split; [exact H3|].
  rewrite (lambda_critical_without_address boto3_up "20240101000000"
             "2024-01-01T00:00:00" _ 9 tt H1 H2 H3).
  reflexivity.
Defined.
